(** * ThermoApp: thermodynamic property resolution and process evaluation

    A shallow embedding of [main.py]: the saturation-table lookups
    ([interpolate_water_property_by_T], [get_tsat], [get_psat]), the water
    property resolver ([calculate_water_properties] and its IAPWS branch),
    the request handlers that read and write the in-memory store
    ([submit_gas], [submit_next_stage]) and the two process evaluators
    ([get_results] for ideal gases, [get_water_results] for water).

    Numbers.  A Python float is modelled by the rational it denotes: the
    water side of the program only adds, multiplies, divides, compares and
    rounds to a decimal place, so it lives in [Q] and stays executable.
    The ideal-gas evaluator takes logarithms and real powers and lives in
    [R].  Binary rounding error, NaN and infinities are outside the model.

    Whether a number of a request body is a Python [int] or a [float] is
    kept only where the program's answer depends on it: for [cp] and [cv],
    which [submit_gas] divides as they came.  Everywhere else the code
    converts with [float] before it computes, or combines the number with
    a float.

    Strings.  A string is ASCII text; [lower] and [repr] are the ASCII part
    of [str.lower] and [repr].

    Exceptions.  Python code that can raise is a computation in [py]; an
    exception whose text depends on where it was raised carries that text
    (the wording is CPython 3.11's). *)

From Stdlib Require Import ZArith QArith Qround Qminmax Qabs.
From Stdlib Require Import Reals Lra.
From Stdlib Require Import List Sorted String Ascii Bool Lia Lqa.
Import ListNotations.

Local Open Scope Q_scope.

(* ------------------------------------------------------------------ *)
(** ** Exceptions *)

Inductive exn : Type :=
| KeyError (key : string)
| IndexError
| ZeroDivisionError (message : string)
| TypeError (message : string)
| ValueError (msg : string)
| UnboundLocalError (name : string).

Inductive py (A : Type) : Type :=
| Return (a : A)
| Raise (e : exn).

Arguments Return {A} a.
Arguments Raise {A} e.

Definition bind {A B : Type} (m : py A) (k : A -> py B) : py B :=
  match m with
  | Return a => k a
  | Raise e => Raise e
  end.

Notation "x <- m ;; k" := (bind m (fun x => k))
  (at level 61, m at next level, right associativity).

(** [c in s] for a character. *)
Fixpoint contains (c : ascii) (s : string) : bool :=
  match s with
  | EmptyString => false
  | String c' s' => Ascii.eqb c c' || contains c s'
  end.

(** [s.isascii()] *)
Fixpoint isascii (s : string) : bool :=
  match s with
  | EmptyString => true
  | String c s' => (nat_of_ascii c <? 128)%nat && isascii s'
  end.

Definition hex_digit (n : nat) : ascii :=
  match n with
  | 0 => "0" | 1 => "1" | 2 => "2" | 3 => "3" | 4 => "4" | 5 => "5"
  | 6 => "6" | 7 => "7" | 8 => "8" | 9 => "9" | 10 => "a" | 11 => "b"
  | 12 => "c" | 13 => "d" | 14 => "e" | _ => "f"
  end%char%nat.

(** One character of [repr(s)]: the quote and the backslash are escaped
    with a backslash, tab, newline and carriage return are written [\t],
    [\n], [\r], every other control character [\xNN], and a printable
    character is copied. *)
Definition repr_char (quote c : ascii) : string :=
  let n := nat_of_ascii c in
  if Ascii.eqb c quote || Ascii.eqb c "\"
  then String "\" (String c EmptyString)
  else if (n =? 9)%nat then "\t"%string
  else if (n =? 10)%nat then "\n"%string
  else if (n =? 13)%nat then "\r"%string
  else if ((n <? 32) || (n =? 127))%nat
  then String "\" (String "x" (String (hex_digit (n / 16))
                                 (String (hex_digit (n mod 16)) EmptyString)))
  else String c EmptyString.

Fixpoint repr_body (quote : ascii) (s : string) : string :=
  match s with
  | EmptyString => EmptyString
  | String c s' => (repr_char quote c ++ repr_body quote s')%string
  end.

(** [repr(s)] of a string: between single quotes, or between double quotes
    when [s] holds a single quote and no double quote. *)
Definition repr (s : string) : string :=
  let quote :=
    if contains "'" s && negb (contains "034" s) then "034"%char
    else "'"%char in
  String quote (repr_body quote s ++ String quote EmptyString).

(** A string [repr] copies unchanged between single quotes: printable
    characters other than the single quote and the backslash. *)
Fixpoint plain (s : string) : bool :=
  match s with
  | EmptyString => true
  | String c s' =>
      let n := nat_of_ascii c in
      (32 <=? n)%nat && (n <? 127)%nat
      && negb (Ascii.eqb c "'") && negb (Ascii.eqb c "\") && plain s'
  end.

(** [str(e)] as it appears in the handlers' error messages; [str] of a
    [KeyError] is [repr] of the key. *)
Definition str_exn (e : exn) : string :=
  match e with
  | KeyError k => repr k
  | IndexError => "single positional indexer is out-of-bounds"%string
  | ZeroDivisionError m => m
  | TypeError m => m
  | ValueError m => m
  | UnboundLocalError n =>
      ("cannot access local variable '" ++ n
       ++ "' where it is not associated with a value")%string
  end.

(* ------------------------------------------------------------------ *)
(** ** Python numerics on rationals *)

Definition Qlt_bool (a b : Q) : bool := negb (Qle_bool b a).

(** Truthiness of a value that is [None] or a float. *)
Definition truthy (o : option Q) : bool :=
  match o with
  | None => false
  | Some q => negb (Qeq_bool q 0)
  end.

(** Round half to even, the tie rule of Python's and NumPy's [round]. *)
Definition round_half_even (q : Q) : Z :=
  let f := Qfloor q in
  match Qcompare (q - inject_Z f) (1 # 2) with
  | Lt => f
  | Gt => (f + 1)%Z
  | Eq => if Z.even f then f else (f + 1)%Z
  end.

(** [round(q, ndigits)]. *)
Definition py_round (q : Q) (ndigits : nat) : Q :=
  let scale := inject_Z (10 ^ Z.of_nat ndigits) in
  inject_Z (round_half_even (q * scale)) / scale.

(** [max(0.0, min(1.0, x))]. *)
Definition clamp01 (x : Q) : Q := Qmax 0 (Qmin 1 x).

(* ------------------------------------------------------------------ *)
(** ** The saturation table ([water_df]) *)

Record Row : Type := mkRow {
  T_sat : Q; P_bar : Q;
  vf : Q; vg : Q; uf : Q; ug : Q;
  hf : Q; hfg : Q; sf : Q; sg : Q
}.

Inductive Column : Type :=
| cT_sat | cP_bar | cvf | cvg | cuf | cug | chf | chfg | csf | csg.

(** [row[prop_name]]. *)
Definition col (c : Column) (r : Row) : Q :=
  match c with
  | cT_sat => T_sat r | cP_bar => P_bar r
  | cvf => vf r | cvg => vg r | cuf => uf r | cug => ug r
  | chf => hf r | chfg => hfg r | csf => sf r | csg => sg r
  end.

Definition DataFrame := list Row.

(** [df.empty]. *)
Definition empty (df : DataFrame) : bool :=
  match df with [] => true | _ => false end.

(** [df[c].min()] and [df[c].max()]; the callers test [df.empty] first, the
    empty frame is given 0 here. *)
Definition col_min (c : Column) (df : DataFrame) : Q :=
  match df with
  | [] => 0
  | r :: rs => fold_left (fun m r' => Qmin m (col c r')) rs (col c r)
  end.

Definition col_max (c : Column) (df : DataFrame) : Q :=
  match df with
  | [] => 0
  | r :: rs => fold_left (fun m r' => Qmax m (col c r')) rs (col c r)
  end.

(** [df[df[c] <= x]] and [df[df[c] >= x]]: boolean-mask selection keeps the
    rows in their order. *)
Definition rows_le (c : Column) (x : Q) (df : DataFrame) : DataFrame :=
  filter (fun r => Qle_bool (col c r) x) df.

Definition rows_ge (c : Column) (x : Q) (df : DataFrame) : DataFrame :=
  filter (fun r => Qle_bool x (col c r)) df.

(** [.iloc[0]] and [.iloc[-1]] raise [IndexError] on an empty selection. *)
Definition iloc_first (df : DataFrame) : py Row :=
  match df with
  | [] => Raise IndexError
  | r :: _ => Return r
  end.

Fixpoint iloc_last (df : DataFrame) : py Row :=
  match df with
  | [] => Raise IndexError
  | [r] => Return r
  | _ :: rs => iloc_last rs
  end.

(** [df.sort_values(c)]: ascending.  pandas leaves the order of rows with
    equal keys to its sorting algorithm; here they keep their order. *)
Fixpoint insert_row (c : Column) (r : Row) (df : DataFrame) : DataFrame :=
  match df with
  | [] => [r]
  | r' :: rs =>
      if Qlt_bool (col c r) (col c r')
      then r :: r' :: rs
      else r' :: insert_row c r rs
  end.

Definition sort_values (c : Column) (df : DataFrame) : DataFrame :=
  fold_left (fun acc r => insert_row c r acc) df [].

(** Clamp a lookup key to the table bounds, with the [clamped] flag. *)
Definition clamp_key (lo hi x : Q) : Q * bool :=
  if Qlt_bool x lo then (lo, true)
  else if Qlt_bool hi x then (hi, true)
  else (x, false).

(** Linear interpolation between two bracketing rows, as all three lookups
    write it. *)
Definition lerp (x x1 x2 y1 y2 : Q) : Q :=
  y1 + (y2 - y1) * (x - x1) / (x2 - x1).

(** [interpolate_water_property_by_T(T_C, prop_name)] *)
Definition interpolate_water_property_by_T
    (df : DataFrame) (T_C : Q) (prop_name : Column) : py (option Q) :=
  if empty df then Return None
  else
    let T_min := col_min cT_sat df in
    let T_max := col_max cT_sat df in
    let T_C := fst (clamp_key T_min T_max T_C) in
    lower <- iloc_last (rows_le cT_sat T_C df) ;;
    upper <- iloc_first (rows_ge cT_sat T_C df) ;;
    if Qeq_bool (T_sat lower) (T_sat upper)
    then Return (Some (col prop_name lower))
    else Return (Some (lerp T_C (T_sat lower) (T_sat upper)
                            (col prop_name lower) (col prop_name upper))).

(** The unrounded value of a sorted lookup: key column [k], value column
    [v], key already clamped. *)
Definition lookup_sorted (k v : Column) (df_sorted : DataFrame) (x : Q) : py Q :=
  lower <- iloc_last (rows_le k x df_sorted) ;;
  upper <- iloc_first (rows_ge k x df_sorted) ;;
  if Qeq_bool (col k lower) (col k upper)
  then Return (col v lower)
  else Return (lerp x (col k lower) (col k upper) (col v lower) (col v upper)).

(** [get_tsat(P)] *)
Definition get_tsat (df : DataFrame) (P : Q) : py (option Q * bool) :=
  if empty df then Return (None, false)
  else
    let df_sorted := sort_values cP_bar df in
    let P_min := col_min cP_bar df_sorted in
    let P_max := col_max cP_bar df_sorted in
    let '(P, clamped) := clamp_key P_min P_max P in
    Tsat <- lookup_sorted cP_bar cT_sat df_sorted P ;;
    Return (Some (py_round Tsat 5), clamped).

(** [get_psat(T_C)] *)
Definition get_psat (df : DataFrame) (T_C : Q) : py (option Q * bool) :=
  if empty df then Return (None, false)
  else
    let df_sorted := sort_values cT_sat df in
    let T_min := col_min cT_sat df_sorted in
    let T_max := col_max cT_sat df_sorted in
    let '(T_C, clamped) := clamp_key T_min T_max T_C in
    Psat <- lookup_sorted cT_sat cP_bar df_sorted T_C ;;
    Return (Some (py_round Psat 5), clamped).

(* ------------------------------------------------------------------ *)
(** ** The IAPWS-IF97 library, as the program sees it *)

(** The attributes the program reads off an [IAPWS97] object. *)
Record IapwsPoint : Type := mkPoint {
  ip_v : Q; ip_u : Q; ip_h : Q; ip_s : Q; ip_P : Q
}.

(** A call of the library's constructor: [IAPWS97(T=, P=)] or [IAPWS97(T=, x=)]. *)
Inductive IapwsCall : Type :=
| CallTP (T_K P_MPa : Q)
| CallTx (T_K x : Q).

(** What the process is started with: whether [import iapws] succeeded, the
    library (a call answers [None] when it raises) and the loaded table. *)
Record Env : Type := mkEnv {
  IAPWS_AVAILABLE : bool;
  IAPWS97 : IapwsCall -> option IapwsPoint;
  water_df : DataFrame
}.

(** The property dictionary returned by both resolver paths. *)
Record WaterProps : Type := mkProps {
  wp_T : option Q; wp_P : option Q; wp_P_sat : Q; wp_x : Q;
  wp_v : Q; wp_u : Q; wp_h : Q; wp_s : Q;
  wp_vf : Q; wp_vg : Q; wp_uf : Q; wp_ug : Q;
  wp_hf : Q; wp_hfg : Q; wp_sf : Q; wp_sg : Q;
  wp_source : string
}.

Definition set_x (x : Q) (r : WaterProps) : WaterProps :=
  mkProps (wp_T r) (wp_P r) (wp_P_sat r) x (wp_v r) (wp_u r) (wp_h r) (wp_s r)
          (wp_vf r) (wp_vg r) (wp_uf r) (wp_ug r)
          (wp_hf r) (wp_hfg r) (wp_sf r) (wp_sg r) (wp_source r).

Definition set_T_P (T P : option Q) (r : WaterProps) : WaterProps :=
  mkProps T P (wp_P_sat r) (wp_x r) (wp_v r) (wp_u r) (wp_h r) (wp_s r)
          (wp_vf r) (wp_vg r) (wp_uf r) (wp_ug r)
          (wp_hf r) (wp_hfg r) (wp_sf r) (wp_sg r) (wp_source r).

(** [0 < x < 1] *)
Definition strictly_between_0_1 (x : Q) : bool := Qlt_bool 0 x && Qlt_bool x 1.

(** The inner [try] of [calculate_water_properties_iapws]: saturated liquid
    and vapour at the same temperature.  [None] is the [except] branch. *)
Definition iapws_saturation (env : Env) (T_K : Q)
  : list IapwsCall * option (IapwsPoint * IapwsPoint) :=
  match IAPWS97 env (CallTx T_K 0) with
  | None => ([CallTx T_K 0], None)
  | Some sat_liquid =>
      match IAPWS97 env (CallTx T_K 1) with
      | None => ([CallTx T_K 0; CallTx T_K 1], None)
      | Some sat_vapor => ([CallTx T_K 0; CallTx T_K 1], Some (sat_liquid, sat_vapor))
      end
  end.

(** The library call for the requested state: by quality inside the
    two-phase region, by pressure otherwise. *)
Definition iapws_state_call (T_C P_b x : Q) : IapwsCall :=
  let P_MPa := P_b * (1 # 10) in
  let T_K := T_C + (27315 # 100) in
  if strictly_between_0_1 x then CallTx T_K x else CallTP T_K P_MPa.

(** [calculate_water_properties_iapws(T_C, P_bar, x)], with the library
    calls it makes.  [None] is the function's [return None]. *)
Definition calculate_water_properties_iapws (env : Env) (T_C P_b x : Q)
  : list IapwsCall * option WaterProps :=
  if negb (IAPWS_AVAILABLE env) then ([], None)
  else
    let T_K := T_C + (27315 # 100) in
    let main_call := iapws_state_call T_C P_b x in
    match IAPWS97 env main_call with
    | None => ([main_call], None)
    | Some water =>
        let '(sat_calls, sat) := iapws_saturation env T_K in
        let '(vf', vg', uf', ug', hf', hfg', sf', sg', P_sat_at_T) :=
          match sat with
          | Some (l, g) =>
              (ip_v l, ip_v g, ip_u l, ip_u g,
               ip_h l, ip_h g - ip_h l, ip_s l, ip_s g, ip_P l * 10)
          | None => (0, 0, 0, 0, 0, 0, 0, 0, P_b)
          end in
        let v := ip_v water in
        let actual_x :=
          if strictly_between_0_1 x then x
          else if negb (Qeq_bool vf' 0) && negb (Qeq_bool vg' 0)
                  && negb (Qeq_bool vg' vf')
          then clamp01 ((v - vf') / (vg' - vf'))
          else x in
        (main_call :: sat_calls,
         Some (mkProps (Some T_C) (Some P_b) P_sat_at_T (py_round actual_x 4)
                       v (ip_u water) (ip_h water) (ip_s water)
                       vf' vg' uf' ug' hf' hfg' sf' sg'
                       "IAPWS-IF97"))
    end.

(** The table-interpolation path of [calculate_water_properties]
    (from "Fallback to CSV interpolation" to the end). *)
Definition csv_interpolation (df : DataFrame) (T_C P_b x : Q) : py WaterProps :=
  vf' <- interpolate_water_property_by_T df T_C cvf ;;
  vg' <- interpolate_water_property_by_T df T_C cvg ;;
  uf' <- interpolate_water_property_by_T df T_C cuf ;;
  ug' <- interpolate_water_property_by_T df T_C cug ;;
  hf' <- interpolate_water_property_by_T df T_C chf ;;
  hfg' <- interpolate_water_property_by_T df T_C chfg ;;
  sf' <- interpolate_water_property_by_T df T_C csf ;;
  sg' <- interpolate_water_property_by_T df T_C csg ;;
  P_sat_at_T_csv <- interpolate_water_property_by_T df T_C cP_bar ;;
  match vf', vg', uf', ug', hf', hfg', sf', sg', P_sat_at_T_csv with
  | Some vf', Some vg', Some uf', Some ug', Some hf', Some hfg',
    Some sf', Some sg', Some P_sat_at_T_csv =>
      let v := vf' + x * (vg' - vf') in
      let u := uf' + x * (ug' - uf') in
      let h := hf' + x * hfg' in
      let s := sf' + x * (sg' - sf') in
      let display_P :=
        if Qle_bool 0 x && Qle_bool x 1 then P_sat_at_T_csv else P_b in
      Return (mkProps (Some T_C) (Some display_P) P_sat_at_T_csv x v u h s
                      vf' vg' uf' ug' hf' hfg' sf' sg'
                      "CSV Interpolation")
  | _, _, _, _, _, _, _, _, _ =>
      Raise (ValueError "Required water property data could not be interpolated.")
  end.

(** [T_sat_at_P and T_C > T_sat_at_P], [T_sat_at_P and T_C < T_sat_at_P] *)
Definition above (T_sat_at_P : option Q) (T_C : Q) : bool :=
  match T_sat_at_P with
  | Some ts => truthy T_sat_at_P && Qlt_bool ts T_C
  | None => false
  end.

Definition below (T_sat_at_P : option Q) (T_C : Q) : bool :=
  match T_sat_at_P with
  | Some ts => truthy T_sat_at_P && Qlt_bool T_C ts
  | None => false
  end.

(** [calculate_water_properties(T_C, P_bar, x)], with the library calls made
    on the way.  The IAPWS record always has its ["P_sat"] key, so the
    source's [if "P_sat" not in iapws_result] never fires and is left out. *)
Definition calculate_water_properties (env : Env) (T_C P_b x : Q)
  : list IapwsCall * py WaterProps :=
  match get_tsat (water_df env) P_b with
  | Raise e => ([], Raise e)
  | Return (T_sat_at_P, _) =>
      match get_psat (water_df env) T_C with
      | Raise e => ([], Raise e)
      | Return (P_sat_at_T, _) =>
          let is_superheated := above T_sat_at_P T_C in
          let is_subcooled := below T_sat_at_P T_C in
          let '(calls, iapws_result) :=
            if IAPWS_AVAILABLE env && (is_superheated || is_subcooled)
            then calculate_water_properties_iapws env T_C P_b x
            else ([], None) in
          match iapws_result with
          | Some r =>
              (calls,
               Return (if is_superheated then set_x 1 r
                       else if is_subcooled then set_x 0 r
                       else r))
          | None => (calls, csv_interpolation (water_df env) T_C P_b x)
          end
      end
  end.

(* ------------------------------------------------------------------ *)
(** ** The in-memory store ([gas_data_store]) *)

(** The water record [submit_gas] stores under ["latest_submission"]. *)
Record WaterSubmission : Type := mkWaterSub {
  ws_T_original : Q; ws_P_original : Q;
  ws_T_sat_at_P : option Q; ws_P_sat_at_T : option Q;
  ws_T : Q; ws_P : option Q; ws_x : Q; ws_phase : string;
  ws_v : Q; ws_u : Q; ws_h : Q; ws_s : Q;
  ws_vf : Q; ws_vg : Q; ws_uf : Q; ws_ug : Q;
  ws_hf : Q; ws_hfg : Q; ws_sf : Q; ws_sg : Q;
  ws_source : string
}.

(** The ideal-gas record [submit_gas] stores under ["latest_submission"]. *)
Record GasSubmission : Type := mkGasSub {
  gs_gas_name : string;
  gs_T : Q; gs_P : Q; gs_v : Q;
  gs_cp : Q; gs_cv : Q; gs_R : Q; gs_k : Q;
  gs_u : Q; gs_h : Q; gs_s : Q
}.

Inductive Submission : Type :=
| WaterSub (w : WaterSubmission)
| GasSub (g : GasSubmission).

(** One state of a stored water process. *)
Record StatePoint : Type := mkState {
  sp_T : Q; sp_P : Q; sp_v : Q; sp_u : Q; sp_h : Q; sp_s : Q; sp_x : Q
}.

(** The two shapes [submit_process] stores under ["process_info"]. *)
Inductive ProcessInfo : Type :=
| WaterProcess (process : string) (state1 state2 : StatePoint)
| GasProcess (process gas_name : string) (v_ratio p_ratio n_value : option Q).

(** The dictionary has three keys; a key that was never written is [None]. *)
Record Store : Type := mkStore {
  latest_submission : option Submission;
  state2_submission : option WaterProps;
  process_info : option ProcessInfo
}.

Definition set_latest_submission (s : Submission) (st : Store) : Store :=
  mkStore (Some s) (state2_submission st) (process_info st).

Definition set_state2_submission (r : WaterProps) (st : Store) : Store :=
  mkStore (latest_submission st) (Some r) (process_info st).

(** What a handler sends back. *)
Inductive Response : Type :=
| JSONError (status_code : Z) (message : string)
| Success
| NextStage (T P v x u h s : Q) (phase : string)
            (T_sat_at_P P_sat_at_T : option Q) (source : string).

(** A handler body runs against the store and may raise part-way: what it
    wrote before raising stays written. *)
Definition handler (A : Type) : Type := Store -> py A * Store.

Definition hret {A : Type} (a : A) : handler A := fun st => (Return a, st).

Definition hbind {A B : Type} (m : handler A) (k : A -> handler B) : handler B :=
  fun st =>
    match m st with
    | (Return a, st') => k a st'
    | (Raise e, st') => (Raise e, st')
    end.

Definition lift {A : Type} (m : py A) : handler A := fun st => (m, st).

(** [gas_data_store.get("latest_submission")] *)
Definition read_latest : handler (option Submission) :=
  fun st => (Return (latest_submission st), st).

(** [gas_data_store["latest_submission"] = s] *)
Definition write_latest (s : Submission) : handler unit :=
  fun st => (Return tt, set_latest_submission s st).

(** [gas_data_store["state2_submission"] = r] *)
Definition write_state2 (r : WaterProps) : handler unit :=
  fun st => (Return tt, set_state2_submission r st).

Notation "x <~ m ;; k" := (hbind m (fun x => k))
  (at level 61, m at next level, right associativity).

(* ------------------------------------------------------------------ *)
(** ** [submit_gas]: state 1 *)

Definition predefined_gases (gas_name : string) : py (Q * Q) :=
  if String.eqb gas_name "air" then Return (287 # 1000, 14 # 10)
  else if String.eqb gas_name "nitrogen" then Return (2968 # 10000, 14 # 10)
  else if String.eqb gas_name "methane" then Return (518 # 1000, 1299 # 1000)
  else if String.eqb gas_name "oxygen" then Return (2598 # 10000, 1395 # 1000)
  else Raise (KeyError gas_name).

(** The request body of [/submit-gas]; an absent key is [None].
    [rq_cp_int] and [rq_cv_int] tell whether ["cp"] and ["cv"] arrived as
    JSON integers (Python [int]) rather than as floats. *)
Record GasRequest : Type := mkGasReq {
  rq_gas_name : option string;
  rq_T : option Q; rq_P : option Q; rq_v : option Q; rq_x : option Q;
  rq_cp : option Q; rq_cv : option Q; rq_R : option Q; rq_k : option Q;
  rq_cp_int : bool; rq_cv_int : bool
}.

(** [data_json[key]] *)
Definition item {A : Type} (key : string) (o : option A) : py A :=
  match o with
  | Some a => Return a
  | None => Raise (KeyError key)
  end.

(** [data.get(key, default)] *)
Definition get_default {A : Type} (o : option A) (default : A) : A :=
  match o with
  | Some a => a
  | None => default
  end.

(** Float division. *)
Definition py_div (a b : Q) : py Q :=
  if Qeq_bool b 0 then Raise (ZeroDivisionError "float division by zero")
  else Return (a / b).

(** [a / b] of two numbers as JSON delivered them: [int / int] raises with
    the text "division by zero", a division with a [float] in it with
    "float division by zero". *)
Definition py_truediv (a_int b_int : bool) (a b : Q) : py Q :=
  if Qeq_bool b 0
  then Raise (ZeroDivisionError
                (if a_int && b_int then "division by zero"
                 else "float division by zero"))
  else Return (a / b).

(** [str.lower] on ASCII letters. *)
Definition lower_ascii (c : ascii) : ascii :=
  let n := nat_of_ascii c in
  if (Nat.leb 65 n && Nat.leb n 90)%bool then ascii_of_nat (n + 32) else c.

Fixpoint lower (s : string) : string :=
  match s with
  | EmptyString => EmptyString
  | String c s' => String (lower_ascii c) (lower s')
  end.

(** The phase tag of the state-1 water record. *)
Definition submit_gas_phase (T_sat_at_P : option Q) (T_input x : Q) : string :=
  if Qeq_bool x 0 || below T_sat_at_P T_input then "subcooled_liquid"
  else if Qeq_bool x 1 || above T_sat_at_P T_input then "superheated_vapor"
  else if strictly_between_0_1 x then "two_phase"
  else "saturated".

(** The body of the [try] in [submit_gas]. *)
Definition submit_gas_body (env : Env) (data_json : GasRequest) : handler Response :=
  name <~ lift (item "gas_name" (rq_gas_name data_json)) ;;
  let gas_name := lower name in
  if String.eqb gas_name "water" then
    T_input <~ lift (item "T" (rq_T data_json)) ;;
    P_input <~ lift (item "P" (rq_P data_json)) ;;
    let x := get_default (rq_x data_json) 0 in
    ts <~ lift (get_tsat (water_df env) P_input) ;;
    ps <~ lift (get_psat (water_df env) T_input) ;;
    let T_sat_at_P := fst ts in
    let P_sat_at_T := fst ps in
    water_props <~ lift (snd (calculate_water_properties env T_input P_input x)) ;;
    let phase := submit_gas_phase T_sat_at_P T_input x in
    _ <~ write_latest
           (WaterSub
              (mkWaterSub T_input P_input T_sat_at_P P_sat_at_T
                 T_input (wp_P water_props) (wp_x water_props) phase
                 (py_round (wp_v water_props) 6) (py_round (wp_u water_props) 2)
                 (py_round (wp_h water_props) 2) (py_round (wp_s water_props) 4)
                 (py_round (wp_vf water_props) 6) (py_round (wp_vg water_props) 4)
                 (py_round (wp_uf water_props) 2) (py_round (wp_ug water_props) 2)
                 (py_round (wp_hf water_props) 2) (py_round (wp_hfg water_props) 2)
                 (py_round (wp_sf water_props) 4) (py_round (wp_sg water_props) 4)
                 (wp_source water_props))) ;;
    hret Success
  else
    P <~ lift (item "P" (rq_P data_json)) ;;
    v <~ lift (item "v" (rq_v data_json)) ;;
    let cp := rq_cp data_json in
    let cv := rq_cv data_json in
    params <~
      (if negb (String.eqb gas_name "custom") then
         Rk <~ lift (predefined_gases gas_name) ;;
         let '(R, k) := Rk in
         cv <~ lift (py_div R (k - 1)) ;;
         hret (Some (k * cv, cv, R, k))
       else
         match cp, cv with
         | Some cp, Some cv =>
             if Qle_bool cp cv then hret None
             else
               k <~ lift (py_truediv (rq_cp_int data_json) (rq_cv_int data_json)
                                     cp cv) ;;
               hret (Some (cp, cv, cp - cv, k))
         | _, _ => hret None
         end) ;;
    match params with
    | None => hret (JSONError 400 "Invalid cp/cv for custom gas")
    | Some (cp, cv, R, k) =>
        T <~ lift (py_div (P * v) R) ;;
        let u := cv * T in
        let h := cp * T in
        let s := 0 in
        _ <~ write_latest
               (GasSub
                  (mkGasSub gas_name (py_round T 5) P v
                     (py_round cp 5) (py_round cv 5) (py_round R 5) (py_round k 5)
                     (py_round u 2) (py_round h 2) (py_round s 4))) ;;
        hret Success
    end.

(** [submit_gas]: an exception raised in the body becomes a 400 response. *)
Definition submit_gas (env : Env) (st : Store) (data_json : GasRequest)
  : Response * Store :=
  match submit_gas_body env data_json st with
  | (Return resp, st') => (resp, st')
  | (Raise e, st') => (JSONError 400 ("Submission failed: " ++ str_exn e), st')
  end.

(* ------------------------------------------------------------------ *)
(** ** [submit_next_stage]: state 2 of a water process *)

(** The request body of [/submit-next-stage]. *)
Record NextStageRequest : Type := mkNextReq {
  ns_process : option string;
  ns_P : option Q; ns_T : option Q; ns_v : option Q; ns_x : option Q
}.

(** [a if a is not None else b] *)
Definition if_not_none {A : Type} (a : option A) (b : A) : A :=
  match a with
  | Some a' => a'
  | None => b
  end.

(** "Apply process constraints": [(display_T, display_P, calc_T, calc_P)]. *)
Definition process_constraints (process : string)
    (T_original P_original : Q) (T_sat_at_P P_sat_at_T : option Q)
    (P_input T_input : option Q)
  : option Q * option Q * option Q * option Q :=
  if String.eqb process "Isothermal" then
    (Some T_original, P_sat_at_T, Some T_original,
     match P_input with Some p => Some p | None => P_sat_at_T end)
  else if String.eqb process "Isobaric" then
    (T_sat_at_P, Some P_original,
     match T_input with Some t => Some t | None => T_sat_at_P end,
     Some P_original)
  else if String.eqb process "Isochoric" then
    let calc_T := if_not_none T_input T_original in
    let calc_P := if_not_none P_input P_original in
    (Some calc_T, Some calc_P, Some calc_T, Some calc_P)
  else (None, None, None, None).

(** "Determine phase and adjust quality based on process". *)
Definition adjust_quality (df : DataFrame) (process : string)
    (calc_T calc_P x_input : option Q) (calc_x : Q) : py Q :=
  match calc_T, calc_P with
  | Some cT, Some cP =>
      if String.eqb process "Isobaric" then
        ts <- get_tsat df cP ;;
        match fst ts with
        | Some T_sat_at_fixed_P =>
            if truthy (fst ts) then
              if Qlt_bool T_sat_at_fixed_P cT then Return 1
              else if Qlt_bool cT T_sat_at_fixed_P then Return 0
              else Return (if_not_none x_input (1 # 2))
            else Return calc_x
        | None => Return calc_x
        end
      else if String.eqb process "Isothermal" then
        ps <- get_psat df cT ;;
        match fst ps with
        | Some P_sat_at_fixed_T =>
            if truthy (fst ps) then
              if Qlt_bool cP P_sat_at_fixed_T then Return 1
              else if Qlt_bool P_sat_at_fixed_T cP then Return 0
              else Return (if_not_none x_input (1 # 2))
            else Return calc_x
        | None => Return calc_x
        end
      else Return calc_x
  | _, _ => Return calc_x
  end.

(** The phase tag of the state-2 response. *)
Definition next_stage_phase (x : Q) : string :=
  if Qeq_bool x 0 then "subcooled_liquid"
  else if Qeq_bool x 1 then "superheated_vapor"
  else "two_phase".

(** [round(v, n)] of a value that may be [None]. *)
Definition round_opt (o : option Q) (ndigits : nat) : py Q :=
  match o with
  | Some q => Return (py_round q ndigits)
  | None => Raise (TypeError "type NoneType doesn't define __round__ method")
  end.

(** The body of the [try] in [submit_next_stage]. *)
Definition submit_next_stage_body (env : Env) (data : NextStageRequest)
  : handler Response :=
  state1 <~ read_latest ;;
  match state1 with
  | Some (WaterSub state1) =>
      let T_original := ws_T_original state1 in
      let P_original := ws_P_original state1 in
      ts <~ lift (get_tsat (water_df env) P_original) ;;
      ps <~ lift (get_psat (water_df env) T_original) ;;
      let T_sat_at_P := fst ts in
      let P_sat_at_T := fst ps in
      let process := get_default (ns_process data) "Isobaric"%string in
      let x_input := ns_x data in
      let calc_x := if_not_none x_input (1 # 2) in
      let '(display_T, display_P, calc_T, calc_P) :=
        process_constraints process T_original P_original
                            T_sat_at_P P_sat_at_T (ns_P data) (ns_T data) in
      calc_x <~ lift (adjust_quality (water_df env) process
                                     calc_T calc_P x_input calc_x) ;;
      let calc_x := clamp01 calc_x in
      match snd (calculate_water_properties env
                   (if_not_none calc_T T_original)
                   (if_not_none calc_P P_original)
                   calc_x) with
      | Raise (ValueError m) =>
          hret (JSONError 400 ("Could not calculate properties: " ++ m))
      | Raise e => lift (Raise e)
      | Return state2_props =>
          let state2_props :=
            if String.eqb process "Isothermal"
               || String.eqb process "Isobaric"
            then set_T_P display_T display_P state2_props
            else state2_props in
          let phase := next_stage_phase (wp_x state2_props) in
          _ <~ write_state2 state2_props ;;
          T <~ lift (round_opt (wp_T state2_props) 2) ;;
          P <~ lift (round_opt (wp_P state2_props) 3) ;;
          hret (NextStage T P
                  (py_round (wp_v state2_props) 6)
                  (py_round (wp_x state2_props) 4)
                  (py_round (wp_u state2_props) 2)
                  (py_round (wp_h state2_props) 2)
                  (py_round (wp_s state2_props) 4)
                  phase T_sat_at_P P_sat_at_T (wp_source state2_props))
      end
  | _ => hret (JSONError 400 "State 1 data not found or is not water.")
  end.

(** [submit_next_stage] *)
Definition submit_next_stage (env : Env) (st : Store) (data : NextStageRequest)
  : Response * Store :=
  match submit_next_stage_body env data st with
  | (Return resp, st') => (resp, st')
  | (Raise e, st') => (JSONError 400 ("Dynamic update failed: " ++ str_exn e), st')
  end.

(* ------------------------------------------------------------------ *)
(** ** [get_water_results]: the water process evaluator *)

Record Processed : Type := mkProcessed {
  pr_W : Q; pr_Q : Q; pr_delta_u : Q; pr_delta_h : Q; pr_delta_s : Q
}.

(** "PROCESS CALCULATIONS": the deltas, the work chosen by the process
    label and the heat, before any rounding. *)
Definition water_process (process_type : string) (state1 state2 : StatePoint)
  : Processed :=
  let delta_u := sp_u state2 - sp_u state1 in
  let delta_h := sp_h state2 - sp_h state1 in
  let delta_s := sp_s state2 - sp_s state1 in
  let W :=
    if String.eqb process_type "Constant Pressure" then
      sp_P state1 * 100 * (sp_v state2 - sp_v state1)
    else if String.eqb process_type "Constant Volume" then 0
    else if String.eqb process_type "Isothermal" then
      let avg_P := (sp_P state1 + sp_P state2) / 2 in
      avg_P * 100 * (sp_v state2 - sp_v state1)
    else if String.eqb process_type "Adiabatic" then - delta_u
    else 0 in
  let Q := delta_u + W in
  mkProcessed W Q delta_u delta_h delta_s.

(** The three ratios printed under "Scaling analysis"; each is a float
    division and raises on a zero divisor. *)
Definition scaling_analysis (state1 state2 : StatePoint) : py unit :=
  let v1 := sp_v state1 in
  let v2 := sp_v state2 in
  let P1 := sp_P state1 in
  let P2 := sp_P state2 in
  _ <- py_div (Qmax v1 v2) (Qmin v1 v2) ;;
  _ <- py_div (Qmax P1 P2) (Qmin P1 P2) ;;
  _ <- py_div (Qabs (v2 - v1)) v1 ;;
  Return tt.

(** What [get_water_results] returns.  Drawing the two diagrams is left out:
    it reads the values and writes image files. *)
Inductive WaterResults : Type :=
| WaterError (status_code : Z) (message : string)
| WaterOk (process_type : string) (state1 state2 : StatePoint)
          (processed : Processed).

Definition round_state (s : StatePoint) : StatePoint :=
  mkState (py_round (sp_T s) 3) (py_round (sp_P s) 3) (py_round (sp_v s) 6)
          (py_round (sp_u s) 3) (py_round (sp_h s) 3) (py_round (sp_s s) 5)
          (py_round (sp_x s) 4).

Definition round_processed (p : Processed) : Processed :=
  mkProcessed (py_round (pr_W p) 3) (py_round (pr_Q p) 3)
              (py_round (pr_delta_u p) 3) (py_round (pr_delta_h p) 3)
              (py_round (pr_delta_s p) 5).

Definition get_water_results (st : Store) : WaterResults :=
  match process_info st with
  | None =>
      WaterError 400 "No water process data available. Run simulation first."
  | Some (GasProcess _ _ _ _ _) => WaterError 400 "Incomplete state data."
  | Some (WaterProcess process_type state1 state2) =>
      let processed := water_process process_type state1 state2 in
      match scaling_analysis state1 state2 with
      | Raise e =>
          WaterError 500 ("Failed to get water results: " ++ str_exn e)
      | Return _ =>
          WaterOk process_type (round_state state1) (round_state state2)
                  (round_processed processed)
      end
  end.

(* ------------------------------------------------------------------ *)
(** ** [get_results]: the ideal-gas process evaluator, over the reals *)

Local Close Scope Q_scope.
Local Open Scope R_scope.

Definition PROCESS_MAP (raw_process : string) : option string :=
  if String.eqb raw_process "Constant Volume" then Some "isochoric"%string
  else if String.eqb raw_process "Constant Pressure" then Some "isobaric"%string
  else if String.eqb raw_process "Isothermal" then Some "isothermal"%string
  else if String.eqb raw_process "Adiabatic (n=k)" then Some "adiabatic"%string
  else if String.eqb raw_process "Polytropic" then Some "polytropic"%string
  else None.

(** [np.isclose(a, b)] with its default tolerances [rtol=1e-05], [atol=1e-08]. *)
Definition isclose (a b : R) : bool :=
  if Rle_dec (Rabs (a - b)) (1 / 100000000 + 1 / 100000 * Rabs b)
  then true else false.

(** Float division over the reals. *)
Definition py_divR (a b : R) : py R :=
  if Req_dec_T b 0 then Raise (ZeroDivisionError "float division by zero")
  else Return (a / b).

(** [x ** y].  The evaluator only raises the volume ratio [v1 / v2] to a
    power; for a positive base this is the real power. *)
Definition py_pow (x y : R) : R := Rpower x y.

(** [a * b] where [a] is a float and [b] may be [None]. *)
Definition mul_opt (a : R) (b : option R) : py R :=
  match b with
  | Some b => Return (a * b)
  | None =>
      Raise (TypeError "unsupported operand type(s) for *: 'float' and 'NoneType'")
  end.

(** The polytropic exponent the evaluator attaches to a process;
    [np.inf] for the isochoric one. *)
Inductive exponent : Type :=
| Finite (e : R)
| Infinite.

(** Everything "State 2 calculations" to "Heat and entropy" computes. *)
Record GasCalc : Type := mkGasCalc {
  gc_v2 : R; gc_P2 : R; gc_T2 : R;
  gc_u1 : R; gc_u2 : R; gc_h1 : R; gc_h2 : R;
  gc_delta_u : R; gc_delta_h : R;
  gc_W : R; gc_Q : R; gc_delta_s : R; gc_s1 : R; gc_s2 : R
}.

(** "State 2 calculations": [(P2, T2, v2, exponent)], or [None] for the
    "Unhandled process type." return. *)
Definition state2_calculations (process_type : string)
    (k T1 P1 v1 : R) (v_ratio p_ratio n : option R)
  : py (option (R * R * R * exponent)) :=
  v2 <- mul_opt v1 v_ratio ;;
  if String.eqb process_type "isothermal" then
    r <- py_divR v1 v2 ;;
    Return (Some (P1 * r, T1, v2, Finite 1))
  else if String.eqb process_type "polytropic" then
    let e := if_not_none n 1 in
    r <- py_divR v1 v2 ;;
    Return (Some (P1 * py_pow r e, T1 * py_pow r (e - 1), v2, Finite e))
  else if String.eqb process_type "adiabatic" then
    r <- py_divR v1 v2 ;;
    Return (Some (P1 * py_pow r k, T1 * py_pow r (k - 1), v2, Finite k))
  else if String.eqb process_type "isochoric" then
    P2 <- mul_opt P1 p_ratio ;;
    T2 <- mul_opt T1 p_ratio ;;
    Return (Some (P2, T2, v1, Infinite))
  else if String.eqb process_type "isobaric" then
    T2 <- mul_opt T1 v_ratio ;;
    Return (Some (P1, T2, v2, Finite 0))
  else Return None.

(** "Work calculation".  The last test is the source's
    [process_type in ("polytropic", "adiabatic")]; both carry a finite
    exponent.  With no branch taken [W] would be unbound at [Q = delta_u + W]. *)
Definition work_calculation (process_type : string)
    (Rg T1 P1 v1 P2 v2 : R) (e : exponent) : py R :=
  if String.eqb process_type "isochoric" then Return 0
  else if String.eqb process_type "isobaric" then Return (P1 * (v2 - v1))
  else if String.eqb process_type "isothermal" then
    q <- py_divR v2 v1 ;;
    Return (Rg * T1 * ln q)
  else if String.eqb process_type "polytropic"
          || String.eqb process_type "adiabatic" then
    match e with
    | Finite e =>
        if isclose e 1 then
          q <- py_divR v2 v1 ;;
          Return (Rg * T1 * ln q)
        else py_divR (P2 * v2 - P1 * v1) (1 - e)
    | Infinite => Return 0
    end
  else Raise (UnboundLocalError "W").

(** The numeric core of [get_results], from "State 2 calculations" to
    "Heat and entropy"; [Rg] is the gas constant [R]. *)
Definition ideal_gas_process (process_type : string)
    (cp cv Rg k T1 P1 v1 : R) (v_ratio p_ratio n : option R)
  : py (option GasCalc) :=
  s2c <- state2_calculations process_type k T1 P1 v1 v_ratio p_ratio n ;;
  match s2c with
  | None => Return None
  | Some (P2, T2, v2, e) =>
      let u1 := cv * T1 in
      let u2 := cv * T2 in
      let h1 := cp * T1 in
      let h2 := cp * T2 in
      let delta_u := u2 - u1 in
      let delta_h := h2 - h1 in
      W <- work_calculation process_type Rg T1 P1 v1 P2 v2 e ;;
      let Q := delta_u + W in
      t <- py_divR T2 T1 ;;
      p <- py_divR P2 P1 ;;
      let delta_s := cp * ln t - Rg * ln p in
      let s1 := cp * ln T1 - Rg * ln P1 in
      let s2 := s1 + delta_s in
      Return (Some (mkGasCalc v2 P2 T2 u1 u2 h1 h2 delta_u delta_h
                              W Q delta_s s1 s2))
  end.

(** [round] over the reals, with the same tie rule. *)
Definition round_half_even_R (x : R) : Z :=
  let f := Int_part x in
  match total_order_T (frac_part x) (1 / 2) with
  | inleft (left _) => f
  | inleft (right _) => if Z.even f then f else (f + 1)%Z
  | inright _ => (f + 1)%Z
  end.

Definition py_roundR (x : R) (ndigits : nat) : R :=
  IZR (round_half_even_R (x * 10 ^ ndigits)) / 10 ^ ndigits.

(** The P-v curve of a polytropic process is drawn as
    [P1 * (v1 / v_vals) ** n] with the raw [n]; a missing [n] raises there.
    Nothing else in the drawing code depends on the values. *)
Definition pv_plot (process_type : string) (n : option R) : py unit :=
  if String.eqb process_type "polytropic" then
    match n with
    | Some _ => Return tt
    | None =>
        Raise (TypeError
                 "unsupported operand type(s) for ** or pow(): 'float' and 'NoneType'")
    end
  else Return tt.

(** A state and the process quantities of the ideal-gas response. *)
Record GasState : Type := mkGasState {
  st_T : R; st_P : R; st_v : R; st_u : R; st_h : R; st_s : R
}.

Record GasProcessed : Type := mkGasProcessed {
  gp_W : R; gp_Q : R; gp_delta_u : R; gp_delta_h : R; gp_delta_s : R
}.

Inductive Results : Type :=
| ResultsError (status_code : Z) (message : string)
| ResultsWater (w : WaterResults)
| ResultsGas (gas_name process_type : string)
             (state1 state2 : GasState) (processed : GasProcessed).

(** [gas["cp"]] and the like: a water record has no such key. *)
Definition gas_record (s : Submission) : py GasSubmission :=
  match s with
  | GasSub g => Return g
  | WaterSub _ => Raise (KeyError "cp")
  end.

(** The ideal-gas branch of [get_results], inside the [try]. *)
Definition get_results_gas (st : Store)
    (raw_process : string) (v_ratio p_ratio n_value : option Q) : py Results :=
  match latest_submission st with
  | None => Return (ResultsError 400 "No gas data found.")
  | Some gas =>
      match PROCESS_MAP raw_process with
      | None =>
          Return (ResultsError 400 ("Unknown process type: " ++ raw_process))
      | Some process_type =>
          gas <- gas_record gas ;;
          let cp := Q2R (gs_cp gas) in
          let cv := Q2R (gs_cv gas) in
          let Rg := Q2R (gs_R gas) in
          let k := Q2R (gs_k gas) in
          let T1 := Q2R (gs_T gas) in
          let P1 := Q2R (gs_P gas) in
          let v1 := Q2R (gs_v gas) in
          let n := option_map Q2R n_value in
          calc <- ideal_gas_process process_type cp cv Rg k T1 P1 v1
                    (option_map Q2R v_ratio) (option_map Q2R p_ratio) n ;;
          match calc with
          | None => Return (ResultsError 400 "Unhandled process type.")
          | Some c =>
              _ <- pv_plot process_type n ;;
              Return
                (ResultsGas (gs_gas_name gas) process_type
                   (mkGasState (py_roundR T1 5) (py_roundR P1 5) (py_roundR v1 5)
                      (py_roundR (gc_u1 c) 5) (py_roundR (gc_h1 c) 5)
                      (py_roundR (gc_s1 c) 5))
                   (mkGasState (py_roundR (gc_T2 c) 5) (py_roundR (gc_P2 c) 5)
                      (py_roundR (gc_v2 c) 5) (py_roundR (gc_u2 c) 5)
                      (py_roundR (gc_h2 c) 5) (py_roundR (gc_s2 c) 5))
                   (mkGasProcessed (py_roundR (gc_W c) 5) (py_roundR (gc_Q c) 5)
                      (py_roundR (gc_delta_u c) 5) (py_roundR (gc_delta_h c) 5)
                      (py_roundR (gc_delta_s c) 5)))
          end
      end
  end.

(** [get_results] *)
Definition get_results (st : Store) : Results :=
  match process_info st with
  | None =>
      ResultsError 400 "No simulation data found. Please run a simulation first."
  | Some (WaterProcess _ _ _) => ResultsWater (get_water_results st)
  | Some (GasProcess raw_process gas_name v_ratio p_ratio n_value) =>
      if String.eqb (lower gas_name) "water"
      then ResultsWater (get_water_results st)
      else
        match get_results_gas st raw_process v_ratio p_ratio n_value with
        | Return r => r
        | Raise e => ResultsError 500 ("Failed to get results: " ++ str_exn e)
        end
  end.

Local Close Scope R_scope.
Local Open Scope Q_scope.

(* ------------------------------------------------------------------ *)
(** ** Vocabulary of the properties *)

(** Rows in ascending order of a column. *)
Definition ascending (c : Column) : DataFrame -> Prop :=
  StronglySorted (fun a b => col c a <= col c b).

(** The bracketing rows of a lookup in a sorted frame: [lower] is a row with
    the greatest key not above [x], [upper] one with the least key not below. *)
Record brackets (k : Column) (df : DataFrame) (x : Q) (lower upper : Row) : Prop := {
  br_lower_in : In lower df;
  br_upper_in : In upper df;
  br_lower_le : col k lower <= x;
  br_upper_ge : x <= col k upper;
  br_lower_max : forall r, In r df -> col k r <= x -> col k r <= col k lower;
  br_upper_min : forall r, In r df -> x <= col k r -> col k upper <= col k r
}.


(** A column strictly increasing down the rows, as the saturation table is
    laid out. *)
Definition strictly_increasing (c : Column) : DataFrame -> Prop :=
  StronglySorted (fun a b => col c a < col c b).

(** Column [v] never decreases when column [k] does not. *)
Definition comonotone (k v : Column) (df : DataFrame) : Prop :=
  forall r1 r2, In r1 df -> In r2 df -> col k r1 <= col k r2 -> col v r1 <= col v r2.

(** The value a sorted lookup reads off its bracketing rows. *)
Definition bracket_value (k v : Column) (lower upper : Row) (x : Q) : Q :=
  if Qeq_bool (col k lower) (col k upper) then col v lower
  else lerp x (col k lower) (col k upper) (col v lower) (col v upper).

(** The water record held under ["latest_submission"], if that is what the
    key holds. *)
Definition stored_water (st : Store) : option WaterSubmission :=
  match latest_submission st with
  | Some (WaterSub w) => Some w
  | _ => None
  end.

Local Close Scope Q_scope.
Local Open Scope R_scope.

(** The record an ideal-gas evaluation must produce once the second state
    [(v2, P2, T2)] and the work [W] are fixed: energies from [cv], [cp], heat
    by the first law, entropy by the ideal-gas relation. *)
Definition closed_form (cp cv Rg T1 P1 : R) (v2 P2 T2 W : R) : GasCalc :=
  let delta_u := cv * T2 - cv * T1 in
  let delta_s := cp * ln (T2 / T1) - Rg * ln (P2 / P1) in
  let s1 := cp * ln T1 - Rg * ln P1 in
  mkGasCalc v2 P2 T2 (cv * T1) (cv * T2) (cp * T1) (cp * T2)
            delta_u (cp * T2 - cp * T1) W (delta_u + W)
            delta_s s1 (s1 + delta_s).

(** The work of a process with finite exponent [e]. *)
Definition polytropic_work (Rg T1 P1 v1 P2 v2 e : R) : R :=
  if isclose e 1 then Rg * T1 * ln (v2 / v1)
  else (P2 * v2 - P1 * v1) / (1 - e).

Local Close Scope R_scope.
Local Open Scope Q_scope.

(* ------------------------------------------------------------------ *)
(** ** Sample inputs *)

(** Four rows of a saturated-water table (T in degrees C, P in bar). *)
Definition steam_table : DataFrame :=
  [ mkRow (1 # 100) (611 # 100000) (10002 # 10000000) (206136 # 1000)
          0 (23753 # 10) (1 # 100) (25013 # 10) 0 (91562 # 10000);
    mkRow 100 (1014 # 1000) (10435 # 10000000) (1673 # 1000)
          (41894 # 100) (25065 # 10) (41904 # 100) 2257 (13069 # 10000) (73549 # 10000);
    mkRow 200 (1554 # 100) (11565 # 10000000) (12736 # 100000)
          (85065 # 100) (25953 # 10) (85245 # 100) (19407 # 10) (23309 # 10000) (64323 # 10000);
    mkRow 300 (8581 # 100) (14036 # 10000000) (2167 # 100000)
          1332 2563 1344 (14049 # 10) (32534 # 10000) (57045 # 10000) ].

(** A stand-in for the IAPWS library.  A [(T, P)] query is answered with a
    fixed superheated state up to the formulation's temperature limit
    (2273.15 K) and raises above it; a [(T, x)] query is answered with a
    fixed saturated state up to the critical temperature (647.096 K) and
    raises above it. *)
Definition iapws_sample (call : IapwsCall) : option IapwsPoint :=
  match call with
  | CallTP T_K P_MPa =>
      if Qle_bool T_K (227315 # 100)
      then Some (mkPoint (4490 # 1000) (34808 # 10) (39298 # 10) (93424 # 10000) P_MPa)
      else None
  | CallTx T_K x =>
      if Qle_bool T_K (647096 # 1000)
      then Some (mkPoint ((10435 # 10000000) + x * (1672 # 1000))
                         ((41894 # 100) + x * (20876 # 10))
                         ((41904 # 100) + x * 2257)
                         ((13069 # 10000) + x * (6048 # 1000))
                         (1014 # 10000))
      else None
  end.

(** The program with the library installed, and without it. *)
Definition env_iapws : Env := mkEnv true iapws_sample steam_table.
Definition env_csv : Env := mkEnv false (fun _ => None) steam_table.

Definition empty_store : Store := mkStore None None None.

(** A state-1 water request. *)
Definition water_request (T P : Q) (x : option Q) : GasRequest :=
  mkGasReq (Some "water"%string) (Some T) (Some P) None x None None None None
           false false.

(** A state-1 custom-gas request. *)
Definition custom_request (P v cp cv : Q) : GasRequest :=
  mkGasReq (Some "custom"%string) None (Some P) (Some v) None
           (Some cp) (Some cv) None None false false.

(** A state-2 request that fixes the volume and asks for quality 1.5. *)
Definition isochoric_request : NextStageRequest :=
  mkNextReq (Some "Isochoric"%string) None None None (Some (3 # 2)).

(** The store after a saturated state 1 at 100 degrees C and 1.014 bar. *)
Definition store_after_state1 : Store :=
  snd (submit_gas env_csv empty_store
         (water_request 100 (1014 # 1000) (Some (1 # 2)))).

(** Two states of a stored water process and the store holding them. *)
Definition sample_state1 : StatePoint :=
  mkState 100 (1014 # 1000) (837 # 1000) (146274 # 100) (154754 # 100)
          (43309 # 10000) (1 # 2).

Definition sample_state2 : StatePoint :=
  mkState 150 (1014 # 1000) (1912 # 1000) (25826 # 10) (27764 # 10)
          (76148 # 10000) 1.

Definition store_with_process : Store :=
  mkStore None None
          (Some (WaterProcess "Constant Pressure" sample_state1 sample_state2)).

(** The store after a custom gas with [cp = 1.00001], [cv = 1] was submitted
    at 100 kPa and 1 m3/kg and an adiabatic doubling of the volume was
    declared. *)
Definition store_near_unit_ratio : Store :=
  let st := snd (submit_gas env_csv empty_store
                   (custom_request 100 1 (100001 # 100000) 1)) in
  mkStore (latest_submission st) (state2_submission st)
          (Some (GasProcess "Adiabatic (n=k)" "custom" (Some 2) None None)).

(* ------------------------------------------------------------------ *)
(** ** The saturation routes and the stored-gas reader *)

(** The common shape of [get_tsat] and [get_psat]: sort by the key column,
    clamp the key, read the value column off the bracketing rows, round. *)
Definition sorted_lookup (k v : Column) (df : DataFrame) (x : Q)
  : py (option Q * bool) :=
  if empty df then Return (None, false)
  else
    let df_sorted := sort_values k df in
    let lo := col_min k df_sorted in
    let hi := col_max k df_sorted in
    let '(x, clamped) := clamp_key lo hi x in
    y <- lookup_sorted k v df_sorted x ;;
    Return (Some (py_round y 5), clamped).

(** What [/get-tsat] and [/get-psat] answer. *)
Inductive SatResponse : Type :=
| SatError (status_code : Z) (error : string)
| SatValue (value : Q) (clamped : bool).

(** [get_tsat_api(P)]; the route has no [try] of its own. *)
Definition get_tsat_api (env : Env) (P : Q) : py SatResponse :=
  r <- get_tsat (water_df env) P ;;
  match fst r with
  | None => Return (SatError 500 "Water table not loaded.")
  | Some Tsat => Return (SatValue Tsat (snd r))
  end.

(** [get_psat_api(T)] *)
Definition get_psat_api (env : Env) (T : Q) : py SatResponse :=
  r <- get_psat (water_df env) T ;;
  match fst r with
  | None => Return (SatError 500 "Water table not loaded.")
  | Some Psat => Return (SatValue Psat (snd r))
  end.

(** What [/api/k] answers. *)
Inductive KResponse : Type :=
| KValue (k : Q)
| KError (error : string).

(** [get_k()] *)
Definition get_k (st : Store) : KResponse :=
  match latest_submission st with
  | Some (GasSub g) => KValue (gs_k g)
  | _ => KError "No ideal gas data stored yet"
  end.

(** The phase field of a state-2 response, if it is one. *)
Definition response_phase (resp : Response) : option string :=
  match resp with
  | NextStage _ _ _ _ _ _ _ phase _ _ _ => Some phase
  | _ => None
  end.

(** A response that is an error with status 400. *)
Definition is_error_400 (resp : Response) : Prop :=
  exists message, resp = JSONError 400 message.

(** A state-1 request for an ideal gas named [name]. *)
Definition gas_request (name : string) (P v : option Q) (cp cv : option Q)
  : GasRequest :=
  mkGasReq (Some name) None P v None cp cv None None false false.

(** A handler body that leaves the store alone. *)
Definition pure {A : Type} (m : handler A) : Prop :=
  forall st, exists p, m st = (p, st).

(** A state-1 handler body that writes ["latest_submission"] as its last
    step before answering "success", and otherwise writes nothing. *)
Definition atomic (m : handler Response) : Prop :=
  forall st,
    (exists s, m st = (Return Success, set_latest_submission s st))
    \/ (exists message, m st = (Return (JSONError 400 message), st))
    \/ (exists e, m st = (Raise e, st)).

(** A handler body under which a relation between the store before and the
    store after always holds. *)
Definition preserves {A : Type} (R : Store -> Store -> Prop) (m : handler A)
  : Prop :=
  forall st, R st (snd (m st)).

(** The entries a state-2 update must not touch. *)
Definition same_state1_and_process (st st' : Store) : Prop :=
  latest_submission st' = latest_submission st
  /\ process_info st' = process_info st.

(* ------------------------------------------------------------------ *)
(** ** [submit_process]: the final submit *)

(** The ["state2"] object a request may carry; an absent key is [None]. *)
Record State2Json : Type := mkState2Json {
  s2_T : option Q; s2_P : option Q; s2_v : option Q; s2_u : option Q;
  s2_h : option Q; s2_s : option Q; s2_x : option Q
}.

(** The request body of [/submit-process]. *)
Record ProcessRequest : Type := mkProcReq {
  pq_process : option string;
  pq_T : option Q; pq_P : option Q; pq_x : option Q;
  pq_state2 : option State2Json;
  pq_v_ratio : option Q; pq_p_ratio : option Q; pq_n_value : option Q
}.

(** Where [state2_data] comes from: a property dictionary (stored by
    [submit_next_stage] or computed on the spot), the request's ["state2"]
    object, or nothing (the empty dictionary). *)
Inductive State2Data : Type :=
| FromProps (r : WaterProps)
| FromRequest (d : State2Json)
| NoData.

(** [not state2_data]: an empty dictionary is false. *)
Definition no_data (d : State2Data) : bool :=
  match d with
  | FromProps _ => false
  | FromRequest (mkState2Json None None None None None None None) => true
  | FromRequest _ => false
  | NoData => true
  end.

(** [float(value)] of a dictionary value that may be [None]. *)
Definition float_of (o : option Q) : py Q :=
  match o with
  | Some q => Return q
  | None =>
      Raise (TypeError
               "float() argument must be a string or a real number, not 'NoneType'")
  end.

(** The ["state2"] entry of the process record: a missing key was filled
    with 0.0 by the "required properties" loop, a [None] value makes
    [float] raise. *)
Definition state2_point (d : State2Data) : py StatePoint :=
  match d with
  | FromProps r =>
      T <- float_of (wp_T r) ;;
      P <- float_of (wp_P r) ;;
      Return (mkState T P (wp_v r) (wp_u r) (wp_h r) (wp_s r) (wp_x r))
  | FromRequest d =>
      Return (mkState (get_default (s2_T d) 0) (get_default (s2_P d) 0)
                      (get_default (s2_v d) 0) (get_default (s2_u d) 0)
                      (get_default (s2_h d) 0) (get_default (s2_s d) 0)
                      (get_default (s2_x d) 0))
  | NoData => Return (mkState 0 0 0 0 0 0 0)
  end.

(** The ["state1"] entry of the process record.  Every water record
    [submit_gas] writes has a pressure; a record without one is outside this
    model ([None]). *)
Definition state1_point (w : WaterSubmission) : option StatePoint :=
  match ws_P w with
  | Some P =>
      Some (mkState (ws_T w) P (ws_v w) (ws_u w) (ws_h w) (ws_s w) (ws_x w))
  | None => None
  end.

(** [gas_data_store.get("state2_submission", {})] *)
Definition read_state2 : handler (option WaterProps) :=
  fun st => (Return (state2_submission st), st).

(** [gas_data_store["process_info"] = p] *)
Definition write_process (p : ProcessInfo) : handler unit :=
  fun st =>
    (Return tt, mkStore (latest_submission st) (state2_submission st) (Some p)).

(** The "last resort" of the water branch: compute state 2 from the
    request's own inputs; any exception is swallowed. *)
Definition last_resort (env : Env) (w : WaterSubmission) (data : ProcessRequest)
  : State2Data :=
  let T_input := get_default (pq_T data) (ws_T_original w) in
  let P_input := get_default (pq_P data) (ws_P_original w) in
  let x_input := get_default (pq_x data) (1 # 2) in
  match snd (calculate_water_properties env T_input P_input x_input) with
  | Return r => FromProps r
  | Raise _ => NoData
  end.

(** The water branch of [submit_process]. *)
Definition submit_process_water (env : Env) (w : WaterSubmission)
    (state1 : StatePoint) (data : ProcessRequest) : handler Response :=
  stored <~ read_state2 ;;
  let state2_data :=
    match stored with Some r => FromProps r | None => NoData end in
  let state2_data :=
    if no_data state2_data then
      match pq_state2 data with
      | Some d => FromRequest d
      | None => state2_data
      end
    else state2_data in
  let state2_data :=
    if no_data state2_data then
      match last_resort env w data with
      | NoData => state2_data
      | computed => computed
      end
    else state2_data in
  if no_data state2_data then
    hret (JSONError 400
            "State 2 data not available. Please input values and recalculate.")
  else
    state2 <~ lift (state2_point state2_data) ;;
    _ <~ write_process
           (WaterProcess (get_default (pq_process data) "Unknown"%string)
                         state1 state2) ;;
    hret Success.

(** The ideal-gas branch of [submit_process]. *)
Definition submit_process_gas (gas_name : string) (data : ProcessRequest)
  : handler Response :=
  _ <~ write_process
         (GasProcess (get_default (pq_process data) "Unknown"%string) gas_name
                     (pq_v_ratio data) (pq_p_ratio data) (pq_n_value data)) ;;
  hret Success.

(** The [except] of [submit_process] answers 400 with [str(e)] alone. *)
Definition run_process (m : handler Response) (st : Store) : Response * Store :=
  match m st with
  | (Return resp, st') => (resp, st')
  | (Raise e, st') => (JSONError 400 (str_exn e), st')
  end.

(** [submit_process]; [None] only for a stored water record without a
    pressure (see [state1_point]). *)
Definition submit_process (env : Env) (st : Store) (data : ProcessRequest)
  : option (Response * Store) :=
  match latest_submission st with
  | Some (WaterSub w) =>
      match state1_point w with
      | Some state1 => Some (run_process (submit_process_water env w state1 data) st)
      | None => None
      end
  | Some (GasSub g) =>
      Some (run_process (submit_process_gas (gs_gas_name g) data) st)
  | None => Some (run_process (submit_process_gas "unknown" data) st)
  end.

(** The entries the final submit must not touch. *)
Definition same_states (st st' : Store) : Prop :=
  latest_submission st' = latest_submission st
  /\ state2_submission st' = state2_submission st.

(** A process request that only names the process. *)
Definition process_request (process : string) (v_ratio p_ratio n_value : option Q)
  : ProcessRequest :=
  mkProcReq (Some process) None None None None v_ratio p_ratio n_value.

(** [atomic], with a property of the record written. *)
Definition atomic_on (P : Submission -> Prop) (m : handler Response) : Prop :=
  forall st,
    (exists s, P s /\ m st = (Return Success, set_latest_submission s st))
    \/ (exists message, m st = (Return (JSONError 400 message), st))
    \/ (exists e, m st = (Raise e, st)).

(** The kind of record a submission under the name [gas_name] writes. *)
Definition record_for (gas_name : string) (s : Submission) : Prop :=
  match s with
  | WaterSub _ => gas_name = "water"%string
  | GasSub g => gas_name <> "water"%string /\ gs_gas_name g = gas_name
  end.

(* ------------------------------------------------------------------ *)
(** ** More sample inputs *)

(** The second row of [steam_table]. *)
Definition row_100 : Row :=
  mkRow 100 (1014 # 1000) (10435 # 10000000) (1673 # 1000)
        (41894 # 100) (25065 # 10) (41904 # 100) 2257 (13069 # 10000) (73549 # 10000).

(** The program when the saturation table failed to load. *)
Definition env_no_table : Env := mkEnv true iapws_sample [].

(** A state-2 request that names no process and gives 150 degrees C. *)
Definition isobaric_request : NextStageRequest :=
  mkNextReq None None (Some 150) None None.

(** The store after the isochoric state-2 update of [store_after_state1]. *)
Definition store_after_state2 : Store :=
  snd (submit_next_stage env_csv store_after_state1 isochoric_request).

(** The store after air was submitted at 100 kPa and 0.861 m3/kg. *)
Definition store_air : Store :=
  snd (submit_gas env_csv empty_store
         (gas_request "Air" (Some 100) (Some (861 # 1000)) None None)).

(** [store_air] with a polytropic process declared without an exponent. *)
Definition store_polytropic : Store :=
  mkStore (latest_submission store_air) None
          (Some (GasProcess "Polytropic" "air" (Some 2) None None)).

(** A custom-gas request at 100 kPa and 1 m3/kg whose [cp] and [cv] are
    JSON integers, under the name "Custom". *)
Definition integer_custom_request (cp cv : Z) : GasRequest :=
  mkGasReq (Some "Custom"%string) None (Some 100) (Some 1) None
           (Some (inject_Z cp)) (Some (inject_Z cv)) None None true true.

(** The store after a saturated state 1 at 100 degrees C, an isobaric
    update to 150 degrees C and a final submit that names the process
    "Isobaric", as [submit_next_stage] and [PROCESS_MAP] name the kind. *)
Definition store_isobaric_process : Store :=
  match submit_process env_csv
          (snd (submit_next_stage env_csv store_after_state1 isobaric_request))
          (process_request "Isobaric" None None None) with
  | Some (_, st) => st
  | None => empty_store
  end.

(** [store_with_process] with its process stored under the label
    "Adiabatic (n=k)", the adiabatic key of [PROCESS_MAP]. *)
Definition store_adiabatic_label : Store :=
  mkStore None None
          (Some (WaterProcess "Adiabatic (n=k)" sample_state1 sample_state2)).
(* ================================================================== *)
(** * Properties *)

(** ** Comparisons and bounds *)

Lemma Qlt_bool_iff (a b : Q) : Qlt_bool a b = true <-> a < b.
Proof.
  unfold Qlt_bool. rewrite negb_true_iff.
  destruct (Qle_bool b a) eqn:E.
  - apply Qle_bool_iff in E. split; [discriminate | intro H].
    exfalso. apply (Qlt_irrefl a). eapply Qlt_le_trans; eauto.
  - split; [intros _ | reflexivity].
    apply Qnot_le_lt. intro H. apply Qle_bool_iff in H. congruence.
Qed.

Lemma Qlt_bool_false_iff (a b : Q) : Qlt_bool a b = false <-> b <= a.
Proof.
  split; intro H.
  - apply Qnot_lt_le. intro L. apply Qlt_bool_iff in L. congruence.
  - destruct (Qlt_bool a b) eqn:E; trivial.
    apply Qlt_bool_iff in E. exfalso. apply (Qlt_irrefl a).
    eapply Qlt_le_trans; eauto.
Qed.

Lemma fold_min_le_init (f : Row -> Q) (rs : list Row) (m : Q) :
  fold_left (fun m r' => Qmin m (f r')) rs m <= m.
Proof.
  revert m. induction rs as [|r rs IH]; intro m; simpl.
  - apply Qle_refl.
  - eapply Qle_trans; [apply IH | apply Q.le_min_l].
Qed.

Lemma fold_min_le_in (f : Row -> Q) (rs : list Row) (m : Q) (r : Row) :
  In r rs -> fold_left (fun m r' => Qmin m (f r')) rs m <= f r.
Proof.
  revert m. induction rs as [|r0 rs IH]; intros m H; simpl in *;
    [contradiction | destruct H as [E | I]].
  - subst. eapply Qle_trans; [apply fold_min_le_init | apply Q.le_min_r].
  - now apply IH.
Qed.

Lemma fold_max_ge_init (f : Row -> Q) (rs : list Row) (m : Q) :
  m <= fold_left (fun m r' => Qmax m (f r')) rs m.
Proof.
  revert m. induction rs as [|r rs IH]; intro m; simpl.
  - apply Qle_refl.
  - eapply Qle_trans; [apply Q.le_max_l | apply IH].
Qed.

Lemma fold_max_ge_in (f : Row -> Q) (rs : list Row) (m : Q) (r : Row) :
  In r rs -> f r <= fold_left (fun m r' => Qmax m (f r')) rs m.
Proof.
  revert m. induction rs as [|r0 rs IH]; intros m H; simpl in *;
    [contradiction | destruct H as [E | I]].
  - subst. eapply Qle_trans; [apply Q.le_max_r | apply fold_max_ge_init].
  - now apply IH.
Qed.

Lemma col_min_le (c : Column) (df : DataFrame) (r : Row) :
  In r df -> col_min c df <= col c r.
Proof.
  destruct df as [|r0 rs]; intro H; simpl in *;
    [contradiction | destruct H as [E | I]].
  - subst. apply fold_min_le_init.
  - now apply fold_min_le_in.
Qed.

Lemma col_max_ge (c : Column) (df : DataFrame) (r : Row) :
  In r df -> col c r <= col_max c df.
Proof.
  destruct df as [|r0 rs]; intro H; simpl in *;
    [contradiction | destruct H as [E | I]].
  - subst. apply fold_max_ge_init.
  - now apply fold_max_ge_in.
Qed.

Lemma Qmin_cases (a b : Q) : Qmin a b = a \/ Qmin a b = b.
Proof.
  unfold Qmin, GenericMinMax.gmin. destruct (a ?= b); auto.
Qed.

Lemma Qmax_cases (a b : Q) : Qmax a b = a \/ Qmax a b = b.
Proof.
  unfold Qmax, GenericMinMax.gmax. destruct (a ?= b); auto.
Qed.

Lemma fold_min_attained (f : Row -> Q) (rs : list Row) (m : Q) :
  fold_left (fun m r' => Qmin m (f r')) rs m = m
  \/ exists r, In r rs /\ fold_left (fun m r' => Qmin m (f r')) rs m = f r.
Proof.
  revert m. induction rs as [|r0 rs IH]; intro m; simpl; auto.
  destruct (IH (Qmin m (f r0))) as [E | [r [I E]]].
  - rewrite E. destruct (Qmin_cases m (f r0)) as [-> | ->]; eauto.
  - right. eauto.
Qed.

Lemma fold_max_attained (f : Row -> Q) (rs : list Row) (m : Q) :
  fold_left (fun m r' => Qmax m (f r')) rs m = m
  \/ exists r, In r rs /\ fold_left (fun m r' => Qmax m (f r')) rs m = f r.
Proof.
  revert m. induction rs as [|r0 rs IH]; intro m; simpl; auto.
  destruct (IH (Qmax m (f r0))) as [E | [r [I E]]].
  - rewrite E. destruct (Qmax_cases m (f r0)) as [-> | ->]; eauto.
  - right. eauto.
Qed.

(** The column minimum and maximum are taken by rows of the table. *)
Lemma col_min_attained (c : Column) (df : DataFrame) :
  df <> [] -> exists r, In r df /\ col c r = col_min c df.
Proof.
  destruct df as [|r0 rs]; [congruence | intros _]. simpl.
  destruct (fold_min_attained (col c) rs (col c r0)) as [E | [r [I E]]]; eauto.
Qed.

Lemma col_max_attained (c : Column) (df : DataFrame) :
  df <> [] -> exists r, In r df /\ col c r = col_max c df.
Proof.
  destruct df as [|r0 rs]; [congruence | intros _]. simpl.
  destruct (fold_max_attained (col c) rs (col c r0)) as [E | [r [I E]]]; eauto.
Qed.

Lemma col_min_le_max (c : Column) (df : DataFrame) :
  col_min c df <= col_max c df.
Proof.
  destruct df as [|r0 rs]; [apply Qle_refl|].
  eapply Qle_trans; [apply (col_min_le c _ r0) | apply (col_max_ge c _ r0)];
    now left.
Qed.

(** A clamped key lies between the bounds. *)
Lemma clamp_key_bounds (lo hi x : Q) :
  lo <= hi -> lo <= fst (clamp_key lo hi x) <= hi.
Proof.
  intro H. unfold clamp_key.
  destruct (Qlt_bool x lo) eqn:E1; simpl.
  - split; [apply Qle_refl | exact H].
  - destruct (Qlt_bool hi x) eqn:E2; simpl.
    + split; [exact H | apply Qle_refl].
    + apply Qlt_bool_false_iff in E1, E2. now split.
Qed.

Lemma clamp_key_id (lo hi x : Q) :
  lo <= x -> x <= hi -> clamp_key lo hi x = (x, false).
Proof.
  intros H1 H2. unfold clamp_key.
  apply Qlt_bool_false_iff in H1, H2. now rewrite H1, H2.
Qed.

(** ** Selections and their first and last rows *)

Lemma iloc_last_spec (df : DataFrame) :
  df <> [] -> exists r, iloc_last df = Return r /\ In r df.
Proof.
  induction df as [|r0 rs IH]; [congruence | intros _].
  destruct rs as [|r1 rs'].
  - exists r0. simpl. auto.
  - destruct IH as [r [E I]]; [discriminate|].
    exists r. split; [exact E | now right].
Qed.

Lemma iloc_first_spec (df : DataFrame) :
  df <> [] -> exists r, iloc_first df = Return r /\ In r df.
Proof.
  destruct df as [|r0 rs]; [congruence | intros _].
  exists r0. simpl. auto.
Qed.

Lemma in_rows_le (c : Column) (x : Q) (df : DataFrame) (r : Row) :
  In r (rows_le c x df) <-> In r df /\ col c r <= x.
Proof.
  unfold rows_le. rewrite filter_In, Qle_bool_iff. reflexivity.
Qed.

Lemma in_rows_ge (c : Column) (x : Q) (df : DataFrame) (r : Row) :
  In r (rows_ge c x df) <-> In r df /\ x <= col c r.
Proof.
  unfold rows_ge. rewrite filter_In, Qle_bool_iff. reflexivity.
Qed.

(** Inside the bounds of the key column both selections are inhabited, so
    [.iloc] finds its row. *)
Lemma bracket_rows (c : Column) (df : DataFrame) (x : Q) :
  df <> [] -> col_min c df <= x -> x <= col_max c df ->
  exists lower upper,
    iloc_last (rows_le c x df) = Return lower
    /\ iloc_first (rows_ge c x df) = Return upper
    /\ In lower df /\ In upper df
    /\ col c lower <= x /\ x <= col c upper.
Proof.
  intros Hne Hlo Hhi.
  destruct (col_min_attained c df Hne) as [rmin [Imin Emin]].
  destruct (col_max_attained c df Hne) as [rmax [Imax Emax]].
  destruct (iloc_last_spec (rows_le c x df)) as [lower [El Il]].
  { intro E. assert (I : In rmin (rows_le c x df))
      by (apply in_rows_le; split; [exact Imin | now rewrite Emin]).
    rewrite E in I. exact I. }
  destruct (iloc_first_spec (rows_ge c x df)) as [upper [Eu Iu]].
  { intro E. assert (I : In rmax (rows_ge c x df))
      by (apply in_rows_ge; split; [exact Imax | now rewrite Emax]).
    rewrite E in I. exact I. }
  apply in_rows_le in Il. apply in_rows_ge in Iu.
  exists lower, upper. tauto.
Qed.

(** ** The table lookups are total on a loaded table *)

Lemma lerp_left (x1 x2 y1 y2 : Q) : lerp x1 x1 x2 y1 y2 == y1.
Proof.
  unfold lerp. setoid_replace (x1 - x1) with 0 by ring.
  unfold Qdiv. ring.
Qed.

Lemma lerp_right (x1 x2 y1 y2 : Q) : ~ x1 == x2 -> lerp x2 x1 x2 y1 y2 == y2.
Proof.
  intro H. unfold lerp. field. intro E. apply H.
  setoid_replace x1 with (x2 - (x2 - x1)) by ring. rewrite E. ring.
Qed.

(** What [interpolate_water_property_by_T] computes on a loaded table: the
    bracketing rows exist and the value is theirs or the line between them. *)
Lemma interpolate_returns (df : DataFrame) (T_C : Q) (c : Column) :
  df <> [] ->
  let T' := fst (clamp_key (col_min cT_sat df) (col_max cT_sat df) T_C) in
  exists lower upper v,
    interpolate_water_property_by_T df T_C c = Return (Some v)
    /\ In lower df /\ In upper df
    /\ T_sat lower <= T' /\ T' <= T_sat upper
    /\ ((T_sat lower == T_sat upper /\ v = col c lower)
        \/ (~ T_sat lower == T_sat upper
            /\ v = lerp T' (T_sat lower) (T_sat upper) (col c lower) (col c upper))).
Proof.
  intros Hne T'.
  destruct (clamp_key_bounds _ _ T_C (col_min_le_max cT_sat df)) as [Hlo Hhi].
  fold T' in Hlo, Hhi.
  destruct (bracket_rows cT_sat df T' Hne Hlo Hhi)
    as (lower & upper & El & Eu & Il & Iu & Ll & Lu).
  unfold interpolate_water_property_by_T.
  destruct df as [|r0 rs]; [congruence|]. cbn [empty].
  fold T'. rewrite El, Eu. cbn [bind].
  destruct (Qeq_bool (T_sat lower) (T_sat upper)) eqn:E.
  - exists lower, upper, (col c lower). apply Qeq_bool_iff in E.
    repeat split; auto.
  - exists lower, upper,
      (lerp T' (T_sat lower) (T_sat upper) (col c lower) (col c upper)).
    repeat split; auto. right. split; [|reflexivity].
    intro H. apply Qeq_bool_iff in H. congruence.
Qed.

Lemma csv_interpolation_returns (df : DataFrame) (T_C P_b x : Q) :
  df <> [] ->
  exists r, csv_interpolation df T_C P_b x = Return r
            /\ wp_x r = x
            /\ wp_source r = "CSV Interpolation"%string
            /\ wp_T r = Some T_C
            /\ (exists psat,
                   interpolate_water_property_by_T df T_C cP_bar = Return (Some psat)
                   /\ wp_P_sat r = psat
                   /\ wp_P r = Some (if Qle_bool 0 x && Qle_bool x 1 then psat else P_b)).
Proof.
  intro Hne. unfold csv_interpolation.
  destruct (interpolate_returns df T_C cvf Hne) as (? & ? & v1 & -> & _).
  destruct (interpolate_returns df T_C cvg Hne) as (? & ? & v2 & -> & _).
  destruct (interpolate_returns df T_C cuf Hne) as (? & ? & v3 & -> & _).
  destruct (interpolate_returns df T_C cug Hne) as (? & ? & v4 & -> & _).
  destruct (interpolate_returns df T_C chf Hne) as (? & ? & v5 & -> & _).
  destruct (interpolate_returns df T_C chfg Hne) as (? & ? & v6 & -> & _).
  destruct (interpolate_returns df T_C csf Hne) as (? & ? & v7 & -> & _).
  destruct (interpolate_returns df T_C csg Hne) as (? & ? & v8 & -> & _).
  destruct (interpolate_returns df T_C cP_bar Hne) as (? & ? & v9 & -> & _).
  cbn [bind]. eexists. split; [reflexivity|]. cbn.
  repeat split. exists v9. repeat split.
Qed.

Lemma lerp_at_left (x x1 x2 y1 y2 : Q) : x == x1 -> lerp x x1 x2 y1 y2 == y1.
Proof.
  intro H. unfold lerp. setoid_replace (x - x1) with 0 by (rewrite H; ring).
  unfold Qdiv. ring.
Qed.

Lemma lerp_at_right (x x1 x2 y1 y2 : Q) :
  x == x2 -> ~ x1 == x2 -> lerp x x1 x2 y1 y2 == y2.
Proof.
  intros H N. unfold lerp.
  setoid_replace (x - x1) with (x2 - x1) by (rewrite H; ring).
  field. intro E. apply N.
  setoid_replace x1 with (x2 - (x2 - x1)) by ring. rewrite E. ring.
Qed.

Lemma clamp_key_below (lo hi x : Q) : x < lo -> clamp_key lo hi x = (lo, true).
Proof.
  intro H. unfold clamp_key. apply Qlt_bool_iff in H. now rewrite H.
Qed.

Lemma clamp_key_above (lo hi x : Q) :
  lo <= hi -> hi < x -> clamp_key lo hi x = (hi, true).
Proof.
  intros L H. unfold clamp_key.
  assert (E : Qlt_bool x lo = false).
  { apply Qlt_bool_false_iff. apply Qlt_le_weak. eapply Qle_lt_trans; eauto. }
  apply Qlt_bool_iff in H. now rewrite E, H.
Qed.

(** C10. On a non-empty saturation table [interpolate_water_property_by_T]
    always returns a number: it neither raises nor returns [None].  A
    temperature below the smallest tabulated [T_sat] yields the value of a
    row at that smallest temperature, one above the largest yields the value
    of a row at the largest, and the result carries no flag.  Hence the
    table-interpolation path of the resolver returns a property record for
    every temperature, pressure and quality. *)
Theorem interpolate_water_property_by_T_total
    (df : DataFrame) (T_C : Q) (c : Column) :
  df <> [] ->
  exists v,
    interpolate_water_property_by_T df T_C c = Return (Some v)
    /\ (T_C < col_min cT_sat df ->
        exists r, In r df /\ T_sat r == col_min cT_sat df /\ v == col c r)
    /\ (col_max cT_sat df < T_C ->
        exists r, In r df /\ T_sat r == col_max cT_sat df /\ v == col c r)
    /\ (forall P_b x, exists props, csv_interpolation df T_C P_b x = Return props).
Proof.
  intro Hne.
  destruct (interpolate_returns df T_C c Hne)
    as (lower & upper & v & Ev & Il & Iu & Ll & Lu & Hv).
  exists v. split; [exact Ev|]. split; [|split].
  - intro Hlt. rewrite (clamp_key_below _ _ _ Hlt) in Ll, Lu, Hv. cbn [fst] in *.
    assert (El : T_sat lower == col_min cT_sat df).
    { apply Qle_antisym; [exact Ll | apply (col_min_le cT_sat df lower Il)]. }
    exists lower. split; [exact Il|]. split; [exact El|].
    destruct Hv as [[_ ->] | [_ ->]]; [reflexivity|].
    apply lerp_at_left. symmetry. exact El.
  - intro Hgt.
    rewrite (clamp_key_above _ _ _ (col_min_le_max cT_sat df) Hgt) in Ll, Lu, Hv.
    cbn [fst] in *.
    assert (Eu : T_sat upper == col_max cT_sat df).
    { apply Qle_antisym; [apply (col_max_ge cT_sat df upper Iu) | exact Lu]. }
    destruct Hv as [[E ->] | [N ->]].
    + exists lower. split; [exact Il|]. split; [|reflexivity].
      rewrite E. exact Eu.
    + exists upper. split; [exact Iu|]. split; [exact Eu|].
      apply lerp_at_right; [symmetry; exact Eu | exact N].
  - intros P_b x.
    destruct (csv_interpolation_returns df T_C P_b x Hne) as (r & E & _).
    exists r. exact E.
Qed.

(** ** Sorting by a column *)


Lemma in_insert_row (c : Column) (r r' : Row) (df : DataFrame) :
  In r' (insert_row c r df) <-> r' = r \/ In r' df.
Proof.
  induction df as [|r0 rs IH]; simpl.
  - intuition.
  - destruct (Qlt_bool (col c r) (col c r0)); simpl; [intuition|].
    rewrite IH. intuition.
Qed.

Lemma insert_row_ascending (c : Column) (r : Row) (df : DataFrame) :
  ascending c df -> ascending c (insert_row c r df).
Proof.
  unfold ascending. induction 1 as [|r0 rs Hs IH Hall]; simpl.
  - constructor; constructor.
  - destruct (Qlt_bool (col c r) (col c r0)) eqn:E.
    + apply Qlt_bool_iff in E. constructor; [now constructor|].
      constructor; [now apply Qlt_le_weak|].
      rewrite Forall_forall in *. intros y Hy.
      eapply Qle_trans; [apply Qlt_le_weak; exact E | now apply Hall].
    + apply Qlt_bool_false_iff in E. constructor; [exact IH|].
      rewrite Forall_forall in *. intros y Hy.
      apply in_insert_row in Hy. destruct Hy as [-> | Hy]; auto.
Qed.

Lemma fold_insert_spec (c : Column) (df acc : DataFrame) :
  ascending c acc ->
  ascending c (fold_left (fun acc r => insert_row c r acc) df acc)
  /\ forall r, In r (fold_left (fun acc r => insert_row c r acc) df acc)
               <-> In r df \/ In r acc.
Proof.
  revert acc. induction df as [|r0 rs IH]; intros acc Hacc; simpl.
  - split; [exact Hacc | intuition].
  - destruct (IH (insert_row c r0 acc) (insert_row_ascending c r0 acc Hacc))
      as [Hs Hin].
    split; [exact Hs|]. intro r. rewrite Hin, in_insert_row. intuition.
Qed.

Lemma sort_values_ascending (c : Column) (df : DataFrame) :
  ascending c (sort_values c df).
Proof. apply fold_insert_spec. constructor. Qed.

Lemma in_sort_values (c : Column) (df : DataFrame) (r : Row) :
  In r (sort_values c df) <-> In r df.
Proof.
  unfold sort_values.
  destruct (fold_insert_spec c df [] (SSorted_nil _)) as [_ H].
  rewrite H. simpl. intuition.
Qed.

Lemma sort_values_nonempty (c : Column) (df : DataFrame) :
  df <> [] -> sort_values c df <> [].
Proof.
  destruct df as [|r0 rs]; [congruence | intros _ E].
  assert (I : In r0 (sort_values c (r0 :: rs))) by (apply in_sort_values; now left).
  rewrite E in I. exact I.
Qed.

Lemma filter_ascending (c : Column) (f : Row -> bool) (df : DataFrame) :
  ascending c df -> ascending c (filter f df).
Proof.
  unfold ascending. induction 1 as [|r0 rs Hs IH Hall]; simpl; [constructor|].
  destruct (f r0); [|exact IH].
  constructor; [exact IH|].
  rewrite Forall_forall in *. intros y Hy. apply filter_In in Hy. now apply Hall.
Qed.

Lemma iloc_first_least (c : Column) (df : DataFrame) (r : Row) :
  ascending c df -> iloc_first df = Return r ->
  forall r', In r' df -> col c r <= col c r'.
Proof.
  intros Hs E r' I. destruct df as [|r0 rs]; [discriminate|].
  simpl in E. injection E as ->. inversion Hs as [|? ? _ Hall]; subst.
  destruct I as [-> | I]; [apply Qle_refl|].
  rewrite Forall_forall in Hall. now apply Hall.
Qed.

Lemma iloc_last_greatest (c : Column) (df : DataFrame) (r : Row) :
  ascending c df -> iloc_last df = Return r ->
  forall r', In r' df -> col c r' <= col c r.
Proof.
  unfold ascending. induction 1 as [|r0 rs Hs IH Hall]; intros E r' I;
    [contradiction|].
  destruct rs as [|r1 rs'].
  - simpl in E. injection E as ->. destruct I as [-> | []]. apply Qle_refl.
  - change (iloc_last (r1 :: rs') = Return r) in E.
    destruct I as [-> | I]; [|now apply IH].
    destruct (iloc_last_spec (r1 :: rs')) as [r2 [E2 I2]]; [discriminate|].
    rewrite E in E2. injection E2 as <-.
    rewrite Forall_forall in Hall. now apply Hall.
Qed.

Lemma lookup_sorted_returns (k v : Column) (df : DataFrame) (x : Q) :
  df <> [] -> ascending k df -> col_min k df <= x -> x <= col_max k df ->
  exists lower upper,
    brackets k df x lower upper
    /\ lookup_sorted k v df x =
       Return (if Qeq_bool (col k lower) (col k upper) then col v lower
               else lerp x (col k lower) (col k upper) (col v lower) (col v upper)).
Proof.
  intros Hne Hs Hlo Hhi.
  destruct (bracket_rows k df x Hne Hlo Hhi)
    as (lower & upper & El & Eu & Il & Iu & Ll & Lu).
  exists lower, upper. split.
  - constructor; auto.
    + intros r I L. apply (iloc_last_greatest k (rows_le k x df) lower).
      * now apply filter_ascending.
      * exact El.
      * apply in_rows_le. now split.
    + intros r I L. apply (iloc_first_least k (rows_ge k x df) upper).
      * now apply filter_ascending.
      * exact Eu.
      * apply in_rows_ge. now split.
  - unfold lookup_sorted. rewrite El, Eu. cbn [bind].
    now destruct (Qeq_bool (col k lower) (col k upper)).
Qed.

(** ** Monotonicity of the sorted lookups *)

Lemma strictly_increasing_comonotone (k v : Column) (df : DataFrame) :
  strictly_increasing k df -> strictly_increasing v df -> comonotone k v df.
Proof.
  unfold strictly_increasing, comonotone.
  induction df as [|r0 rs IH]; intros Hk Hv r1 r2 I1 I2 L; [contradiction|].
  inversion Hk as [|? ? Hk' Ak]; inversion Hv as [|? ? Hv' Av]; subst.
  rewrite Forall_forall in Ak, Av.
  destruct I1 as [<- | I1], I2 as [<- | I2].
  - apply Qle_refl.
  - apply Qlt_le_weak. now apply Av.
  - exfalso. apply (Qlt_irrefl (col k r0)).
    eapply Qlt_le_trans; [apply Ak; exact I1 | exact L].
  - now apply IH.
Qed.

Lemma strictly_increasing_ascending (c : Column) (df : DataFrame) :
  strictly_increasing c df -> ascending c df.
Proof.
  unfold strictly_increasing, ascending.
  induction 1 as [|r0 rs Hs IH Hall]; constructor; auto.
  rewrite Forall_forall in *. intros y Hy. apply Qlt_le_weak. now apply Hall.
Qed.

Lemma comonotone_sort_values (k v c : Column) (df : DataFrame) :
  comonotone k v df -> comonotone k v (sort_values c df).
Proof.
  intros H r1 r2 I1 I2. apply in_sort_values in I1, I2. now apply H.
Qed.

Lemma lerp_compat (x x1 x2 y1 y2 x1' x2' y1' y2' : Q) :
  x1 == x1' -> x2 == x2' -> y1 == y1' -> y2 == y2' ->
  lerp x x1 x2 y1 y2 == lerp x x1' x2' y1' y2'.
Proof.
  intros E1 E2 E3 E4. unfold lerp. now rewrite E1, E2, E3, E4.
Qed.

Lemma lerp_mono (x x' x1 x2 y1 y2 : Q) :
  x1 < x2 -> y1 <= y2 -> x <= x' ->
  lerp x x1 x2 y1 y2 <= lerp x' x1 x2 y1 y2.
Proof.
  intros Hx Hy L. unfold lerp, Qdiv.
  assert (Hz : 0 < / (x2 - x1)).
  { apply Qinv_lt_0_compat. lra. }
  set (z := / (x2 - x1)) in *.
  assert (Ha : 0 <= (y2 - y1) * z).
  { apply Qmult_le_0_compat; lra. }
  setoid_replace ((y2 - y1) * (x - x1) * z) with ((x - x1) * ((y2 - y1) * z)) by ring.
  setoid_replace ((y2 - y1) * (x' - x1) * z) with ((x' - x1) * ((y2 - y1) * z)) by ring.
  apply Qplus_le_r. apply Qmult_le_compat_r; [lra | exact Ha].
Qed.

Lemma lerp_bounds (x x1 x2 y1 y2 : Q) :
  x1 < x2 -> y1 <= y2 -> x1 <= x -> x <= x2 ->
  y1 <= lerp x x1 x2 y1 y2 <= y2.
Proof.
  intros Hx Hy L1 L2. split.
  - rewrite <- (lerp_left x1 x2 y1 y2) at 1. now apply lerp_mono.
  - rewrite <- (lerp_right x1 x2 y1 y2) at 2 by lra. now apply lerp_mono.
Qed.

Section SortedLookup.

Variables (k v : Column) (df : DataFrame).
Hypothesis Hco : comonotone k v df.

Lemma brackets_ordered lower upper x :
  brackets k df x lower upper -> col k lower <= col k upper.
Proof.
  intros [_ _ L U _ _]. eapply Qle_trans; eauto.
Qed.

Lemma bracket_value_bounds lower upper x :
  brackets k df x lower upper ->
  col v lower <= bracket_value k v lower upper x <= col v upper.
Proof.
  intro B. pose proof (brackets_ordered _ _ _ B) as Lk.
  destruct B as [Il Iu L U _ _].
  assert (Lv : col v lower <= col v upper) by now apply Hco.
  unfold bracket_value.
  destruct (Qeq_bool (col k lower) (col k upper)) eqn:E.
  - split; [apply Qle_refl | exact Lv].
  - apply lerp_bounds; auto.
    apply Qle_lteq in Lk. destruct Lk as [Lk | Lk]; [exact Lk|].
    apply Qeq_bool_iff in Lk. congruence.
Qed.

Lemma same_key_same_value r1 r2 :
  In r1 df -> In r2 df -> col k r1 == col k r2 -> col v r1 == col v r2.
Proof.
  intros I1 I2 E. apply Qle_antisym; apply Hco; auto; rewrite E; apply Qle_refl.
Qed.

(** The interpolated value does not decrease with the key. *)
Lemma bracket_value_mono xa xb la ua lb ub :
  brackets k df xa la ua -> brackets k df xb lb ub -> xa <= xb ->
  bracket_value k v la ua xa <= bracket_value k v lb ub xb.
Proof.
  intros Ba Bb L.
  destruct (Qlt_le_dec (col k lb) (col k ua)) as [Hlt | Hle].
  - (* both keys fall between the same two rows *)
    destruct Ba as [Ila Iua Lla Lua Mla Mua], Bb as [Ilb Iub Llb Lub Mlb Mub].
    assert (H1 : col k lb < xa).
    { apply Qnot_le_lt. intro H. specialize (Mua lb Ilb H). lra. }
    assert (H2 : xb < col k ua).
    { apply Qnot_le_lt. intro H. specialize (Mlb ua Iua H). lra. }
    assert (El : col k la == col k lb).
    { apply Qle_antisym; [apply Mlb; auto; lra | apply Mla; auto; lra]. }
    assert (Eu : col k ua == col k ub).
    { apply Qle_antisym; [apply Mua; auto; lra | apply Mub; auto; lra]. }
    pose proof (same_key_same_value la lb Ila Ilb El) as Evl.
    pose proof (same_key_same_value ua ub Iua Iub Eu) as Evu.
    unfold bracket_value.
    assert (Na : Qeq_bool (col k la) (col k ua) = false).
    { destruct (Qeq_bool (col k la) (col k ua)) eqn:E; trivial.
      apply Qeq_bool_iff in E. lra. }
    assert (Nb : Qeq_bool (col k lb) (col k ub) = false).
    { destruct (Qeq_bool (col k lb) (col k ub)) eqn:E; trivial.
      apply Qeq_bool_iff in E. lra. }
    rewrite Na, Nb.
    rewrite <- (lerp_compat xb _ _ _ _ _ _ _ _ El Eu Evl Evu).
    apply lerp_mono; [lra | apply Hco; auto; lra | exact L].
  - (* the brackets do not overlap *)
    pose proof (bracket_value_bounds _ _ _ Ba) as [_ Ha].
    pose proof (bracket_value_bounds _ _ _ Bb) as [Hb _].
    destruct Ba as [_ Iua _ _ _ _], Bb as [Ilb _ _ _ _ _].
    eapply Qle_trans; [exact Ha|].
    eapply Qle_trans; [|exact Hb]. now apply Hco.
Qed.

End SortedLookup.

(** ** Rounding keeps the order *)

Lemma round_half_even_mono (x y : Q) :
  x <= y -> (round_half_even x <= round_half_even y)%Z.
Proof.
  intro L. unfold round_half_even.
  pose proof (Qfloor_resp_le x y L) as Lf.
  pose proof (Qfloor_le x) as X1. pose proof (Qlt_floor x) as X2.
  pose proof (Qfloor_le y) as Y1. pose proof (Qlt_floor y) as Y2.
  destruct (Z.eq_dec (Qfloor x) (Qfloor y)) as [E | N].
  - rewrite <- E in *.
    destruct (Qcompare_spec (x - inject_Z (Qfloor x)) (1 # 2)) as [Cx | Cx | Cx];
    destruct (Qcompare_spec (y - inject_Z (Qfloor x)) (1 # 2)) as [Cy | Cy | Cy];
    destruct (Z.even (Qfloor x)); try lia; exfalso; lra.
  - assert (Qfloor x + 1 <= Qfloor y)%Z by lia.
    destruct (Qcompare (x - inject_Z (Qfloor x)) (1 # 2));
    destruct (Qcompare (y - inject_Z (Qfloor y)) (1 # 2));
    destruct (Z.even (Qfloor x)); destruct (Z.even (Qfloor y)); lia.
Qed.

Lemma py_round_mono (x y : Q) (n : nat) : x <= y -> py_round x n <= py_round y n.
Proof.
  intro L. unfold py_round.
  assert (Hs : 0 < inject_Z (10 ^ Z.of_nat n)).
  { change 0 with (inject_Z 0). rewrite <- Zlt_Qlt. apply Z.pow_pos_nonneg; lia. }
  set (s := inject_Z (10 ^ Z.of_nat n)) in *.
  unfold Qdiv. apply Qmult_le_compat_r.
  - rewrite <- Zle_Qle. apply round_half_even_mono.
    apply Qmult_le_compat_r; [exact L | lra].
  - apply Qlt_le_weak. now apply Qinv_lt_0_compat.
Qed.

(** ** [get_tsat] on a table in bounds *)

Lemma col_min_sort_values (c c' : Column) (df : DataFrame) :
  df <> [] -> col_min c (sort_values c' df) == col_min c df.
Proof.
  intro Hne. pose proof (sort_values_nonempty c' df Hne) as Hne'.
  destruct (col_min_attained c df Hne) as [r [I E]].
  destruct (col_min_attained c _ Hne') as [r' [I' E']].
  apply Qle_antisym.
  - rewrite <- E. apply col_min_le. now apply in_sort_values.
  - rewrite <- E'. apply col_min_le. now apply in_sort_values in I'.
Qed.

Lemma col_max_sort_values (c c' : Column) (df : DataFrame) :
  df <> [] -> col_max c (sort_values c' df) == col_max c df.
Proof.
  intro Hne. pose proof (sort_values_nonempty c' df Hne) as Hne'.
  destruct (col_max_attained c df Hne) as [r [I E]].
  destruct (col_max_attained c _ Hne') as [r' [I' E']].
  apply Qle_antisym.
  - rewrite <- E'. apply col_max_ge. now apply in_sort_values in I'.
  - rewrite <- E. apply col_max_ge. now apply in_sort_values.
Qed.

Lemma get_tsat_in_bounds (df : DataFrame) (P : Q) :
  df <> [] -> col_min cP_bar df <= P -> P <= col_max cP_bar df ->
  exists lower upper,
    brackets cP_bar (sort_values cP_bar df) P lower upper
    /\ get_tsat df P =
       Return (Some (py_round (bracket_value cP_bar cT_sat lower upper P) 5), false).
Proof.
  intros Hne Hlo Hhi.
  rewrite <- (col_min_sort_values cP_bar cP_bar df Hne) in Hlo.
  rewrite <- (col_max_sort_values cP_bar cP_bar df Hne) in Hhi.
  destruct (lookup_sorted_returns cP_bar cT_sat (sort_values cP_bar df) P
              (sort_values_nonempty _ _ Hne) (sort_values_ascending _ _) Hlo Hhi)
    as (lower & upper & B & E).
  exists lower, upper. split; [exact B|].
  unfold get_tsat. destruct df as [|r0 rs]; [congruence|]. cbn [empty].
  rewrite (clamp_key_id _ _ _ Hlo Hhi), E. reflexivity.
Qed.

(** C8. On a loaded table whose [T_sat] and [P_bar] columns both increase
    strictly down the rows, for two pressures [P_a < P_b] inside the table
    bounds [get_tsat] returns, unclamped, saturation temperatures with
    [get_tsat(P_a) <= get_tsat(P_b)]. *)
Theorem get_tsat_monotone (df : DataFrame) (P_a P_b : Q) :
  df <> [] ->
  strictly_increasing cT_sat df -> strictly_increasing cP_bar df ->
  col_min cP_bar df <= P_a -> P_a < P_b -> P_b <= col_max cP_bar df ->
  exists Ta Tb,
    get_tsat df P_a = Return (Some Ta, false)
    /\ get_tsat df P_b = Return (Some Tb, false)
    /\ Ta <= Tb.
Proof.
  intros Hne HT HP Hlo Hab Hhi.
  destruct (get_tsat_in_bounds df P_a Hne Hlo) as (la & ua & Ba & Ea); [lra|].
  destruct (get_tsat_in_bounds df P_b Hne) as (lb & ub & Bb & Eb); [lra | exact Hhi|].
  eexists _, _. split; [exact Ea|]. split; [exact Eb|].
  apply py_round_mono.
  apply (bracket_value_mono cP_bar cT_sat (sort_values cP_bar df)); auto.
  - apply comonotone_sort_values. now apply strictly_increasing_comonotone.
  - now apply Qlt_le_weak.
Qed.

(** ** The resolver's choice of property source *)

Lemma above_spec (o : option Q) (T_C : Q) :
  above o T_C = true -> exists ts, o = Some ts /\ ts < T_C.
Proof.
  destruct o as [ts|]; [|discriminate]. unfold above.
  rewrite andb_true_iff. intros [_ H]. apply Qlt_bool_iff in H. eauto.
Qed.

Lemma below_spec (o : option Q) (T_C : Q) :
  below o T_C = true -> exists ts, o = Some ts /\ T_C < ts.
Proof.
  destruct o as [ts|]; [|discriminate]. unfold below.
  rewrite andb_true_iff. intros [_ H]. apply Qlt_bool_iff in H. eauto.
Qed.

Lemma above_at_saturation (ts T_C : Q) : T_C == ts -> above (Some ts) T_C = false.
Proof.
  intro E. unfold above. apply andb_false_iff. right.
  apply Qlt_bool_false_iff. rewrite E. apply Qle_refl.
Qed.

Lemma below_at_saturation (ts T_C : Q) : T_C == ts -> below (Some ts) T_C = false.
Proof.
  intro E. unfold below. apply andb_false_iff. right.
  apply Qlt_bool_false_iff. rewrite E. apply Qle_refl.
Qed.

(** On a loaded table both saturation lookups return a number. *)
Lemma get_tsat_returns (df : DataFrame) (P : Q) :
  df <> [] -> exists ts c, get_tsat df P = Return (Some ts, c).
Proof.
  intro Hne. pose proof (sort_values_nonempty cP_bar df Hne) as Hne'.
  unfold get_tsat. destruct df as [|r0 rs]; [congruence|]. cbn [empty].
  set (s := sort_values cP_bar (r0 :: rs)) in *.
  pose proof (clamp_key_bounds (col_min cP_bar s) (col_max cP_bar s) P
                (col_min_le_max _ _)) as [Hlo Hhi].
  destruct (clamp_key (col_min cP_bar s) (col_max cP_bar s) P) as [P' c].
  cbn [fst] in Hlo, Hhi.
  destruct (lookup_sorted_returns cP_bar cT_sat s P' Hne'
              (sort_values_ascending _ _) Hlo Hhi) as (l & u & _ & E).
  rewrite E. cbn [bind]. eauto.
Qed.

Lemma get_psat_returns (df : DataFrame) (T_C : Q) :
  df <> [] -> exists ps c, get_psat df T_C = Return (Some ps, c).
Proof.
  intro Hne. pose proof (sort_values_nonempty cT_sat df Hne) as Hne'.
  unfold get_psat. destruct df as [|r0 rs]; [congruence|]. cbn [empty].
  set (s := sort_values cT_sat (r0 :: rs)) in *.
  pose proof (clamp_key_bounds (col_min cT_sat s) (col_max cT_sat s) T_C
                (col_min_le_max _ _)) as [Hlo Hhi].
  destruct (clamp_key (col_min cT_sat s) (col_max cT_sat s) T_C) as [T' c].
  cbn [fst] in Hlo, Hhi.
  destruct (lookup_sorted_returns cT_sat cP_bar s T' Hne'
              (sort_values_ascending _ _) Hlo Hhi) as (l & u & _ & E).
  rewrite E. cbn [bind]. eauto.
Qed.

(** The resolver, once both lookups have returned. *)
Lemma calculate_water_properties_unfold env T_C P_b x ts c ps c' :
  get_tsat (water_df env) P_b = Return (ts, c) ->
  get_psat (water_df env) T_C = Return (ps, c') ->
  calculate_water_properties env T_C P_b x =
  (let '(calls, iapws_result) :=
     if IAPWS_AVAILABLE env && (above ts T_C || below ts T_C)
     then calculate_water_properties_iapws env T_C P_b x
     else ([], None) in
   match iapws_result with
   | Some r =>
       (calls,
        Return (if above ts T_C then set_x 1 r
                else if below ts T_C then set_x 0 r
                else r))
   | None => (calls, csv_interpolation (water_df env) T_C P_b x)
   end).
Proof.
  intros E1 E2. unfold calculate_water_properties. now rewrite E1, E2.
Qed.

(** With no table loaded the resolver never reaches the library. *)
Lemma calculate_water_properties_empty env T_C P_b x :
  water_df env = [] ->
  calculate_water_properties env T_C P_b x
  = ([], csv_interpolation [] T_C P_b x).
Proof.
  intro E. unfold calculate_water_properties, get_tsat, get_psat.
  rewrite E. cbn. now rewrite andb_false_r.
Qed.

(** The IAPWS branch makes no call when the library is missing, and a
    returned record carries the IAPWS tag. *)
Lemma iapws_source env T_C P_b x r :
  snd (calculate_water_properties_iapws env T_C P_b x) = Some r ->
  wp_source r = "IAPWS-IF97"%string /\ wp_P r = Some P_b.
Proof.
  unfold calculate_water_properties_iapws.
  destruct (IAPWS_AVAILABLE env); cbn [negb]; [|discriminate].
  destruct (IAPWS97 env _) as [water|]; [|discriminate].
  destruct (iapws_saturation env _) as [sat_calls [[l g]|]]; cbn;
    intro H; injection H as <-; auto.
Qed.

(** C5. The IAPWS library is called only when it is available and the
    temperature lies strictly above or strictly below the saturation
    temperature [get_tsat] gives for the pressure.  At exactly the
    saturation temperature no call is made and the record is the one the
    table-interpolation path computes, whatever the library would answer. *)
Theorem iapws_only_for_strictly_single_phase (env : Env) (T_C P_b x : Q) :
  (fst (calculate_water_properties env T_C P_b x) = []
   \/ (IAPWS_AVAILABLE env = true
       /\ exists ts c, get_tsat (water_df env) P_b = Return (Some ts, c)
                       /\ (ts < T_C \/ T_C < ts)))
  /\ (forall ts c,
        get_tsat (water_df env) P_b = Return (Some ts, c) -> T_C == ts ->
        calculate_water_properties env T_C P_b x
        = ([], csv_interpolation (water_df env) T_C P_b x)).
Proof.
  destruct (water_df env) as [|r0 rs] eqn:Edf.
  { rewrite (calculate_water_properties_empty env T_C P_b x Edf). split.
    - now left.
    - intros ts c H. discriminate H. }
  assert (Hne : water_df env <> []) by (rewrite Edf; discriminate).
  rewrite <- Edf.
  destruct (get_tsat_returns _ P_b Hne) as (ts & c & E1).
  destruct (get_psat_returns _ T_C Hne) as (ps & c' & E2).
  rewrite (calculate_water_properties_unfold env T_C P_b x _ _ _ _ E1 E2).
  split.
  - destruct (IAPWS_AVAILABLE env) eqn:Ea; cbn [andb]; [|left; reflexivity].
    destruct (above (Some ts) T_C || below (Some ts) T_C) eqn:Eph.
    + right. split; [reflexivity|]. exists ts, c. split; [exact E1|].
      apply orb_true_iff in Eph. destruct Eph as [H | H].
      * apply above_spec in H. destruct H as (? & [= <-] & H). now left.
      * apply below_spec in H. destruct H as (? & [= <-] & H). now right.
    + left. reflexivity.
  - intros ts' c0 E1' Heq. rewrite E1 in E1'. injection E1' as <- <-.
    rewrite (above_at_saturation _ _ Heq), (below_at_saturation _ _ Heq).
    cbn [orb]. rewrite andb_false_r. reflexivity.
Qed.

(** ** Failures of the library *)




(** The resolver returns a record on every input once the table is loaded. *)
Lemma calculate_water_properties_returns env T_C P_b x :
  water_df env <> [] ->
  exists r, snd (calculate_water_properties env T_C P_b x) = Return r.
Proof.
  intro Hne.
  destruct (get_tsat_returns _ P_b Hne) as (ts & c & E1).
  destruct (get_psat_returns _ T_C Hne) as (ps & c' & E2).
  rewrite (calculate_water_properties_unfold env T_C P_b x _ _ _ _ E1 E2).
  destruct (csv_interpolation_returns _ T_C P_b x Hne) as (r & Er & _).
  destruct (IAPWS_AVAILABLE env && _).
  - destruct (calculate_water_properties_iapws env T_C P_b x) as [calls [r'|]];
      cbn; eauto.
  - cbn. eauto.
Qed.




(** ** State 1: phase tag, reported quality and reported pressure *)

(** C1, the code at three inputs.  The table gives [T_sat = 100] at 1.014 bar.
    (i) With the library installed, 150 degrees C and no quality in the
    request (it defaults to 0): the record is tagged "subcooled_liquid"
    although the temperature is above saturation, next to a quality of 1.
    (ii) Without the library, 50 degrees C and quality 0.5: the tag is
    "subcooled_liquid" but the reported quality stays 0.5.
    (iii) Without the library, 150 degrees C and quality 0.5: the tag is
    "superheated_vapor" but the reported quality stays 0.5. *)
Lemma state1_phase_and_quality_at_failing_inputs :
  (exists w,
      stored_water (snd (submit_gas env_iapws empty_store
                           (water_request 150 (1014 # 1000) None))) = Some w
      /\ (exists ts, ws_T_sat_at_P w = Some ts /\ ts == 100)
      /\ ws_phase w = "subcooled_liquid"%string /\ ws_x w = 1)
  /\ (exists w,
         stored_water (snd (submit_gas env_csv empty_store
                              (water_request 50 (1014 # 1000) (Some (1 # 2))))) = Some w
         /\ (exists ts, ws_T_sat_at_P w = Some ts /\ ts == 100)
         /\ ws_phase w = "subcooled_liquid"%string /\ ws_x w = 1 # 2)
  /\ (exists w,
         stored_water (snd (submit_gas env_csv empty_store
                              (water_request 150 (1014 # 1000) (Some (1 # 2))))) = Some w
         /\ (exists ts, ws_T_sat_at_P w = Some ts /\ ts == 100)
         /\ ws_phase w = "superheated_vapor"%string /\ ws_x w = 1 # 2).
Proof.
  repeat split; eexists; (split; [vm_compute; reflexivity|]);
    (split; [eexists; split; [reflexivity | reflexivity]|]);
    split; reflexivity.
Qed.

(** C4, the code at three inputs.
    (i) Without the library, 150 degrees C at 1.014 bar with quality 1, a
    superheated state: the reported pressure is the table's saturation
    pressure at 150 degrees C (8.277 bar), not the 1.014 bar given.
    (ii) With the library installed but raising (2500 degrees C, 1 bar): the
    reported pressure is the table's 85.81 bar, not the 1 bar given.
    (iii) At exactly the saturation temperature (300 degrees C for 100 bar,
    clamped) with quality 1.5: the reported pressure is the 100 bar given,
    not the table's 85.81 bar. *)
Lemma reported_pressure_at_failing_inputs :
  (exists r ts c p,
      snd (calculate_water_properties env_csv 150 (1014 # 1000) 1) = Return r
      /\ get_tsat steam_table (1014 # 1000) = Return (Some ts, c) /\ ts < 150
      /\ wp_P r = Some p /\ p == 8277 # 1000 /\ ~ p == 1014 # 1000)
  /\ (exists r ts c p,
         snd (calculate_water_properties env_iapws 2500 1 1) = Return r
         /\ get_tsat steam_table 1 = Return (Some ts, c) /\ ts < 2500
         /\ wp_P r = Some p /\ p == 8581 # 100 /\ ~ p == 1)
  /\ (exists r ts c psat,
         snd (calculate_water_properties env_iapws 300 100 (3 # 2)) = Return r
         /\ get_tsat steam_table 100 = Return (Some ts, c) /\ ts == 300
         /\ interpolate_water_property_by_T steam_table 300 cP_bar
            = Return (Some psat)
         /\ psat == 8581 # 100 /\ wp_P r = Some 100).
Proof.
  repeat split; do 4 eexists;
    (split; [vm_compute; reflexivity|]);
    (split; [vm_compute; reflexivity|]);
    (split; [reflexivity|]);
    (split; [reflexivity|]);
    split; try reflexivity; discriminate.
Qed.

(** ** Quality bounds of the resolver *)

Lemma clamp01_bounds (x : Q) : 0 <= clamp01 x <= 1.
Proof.
  unfold clamp01. split.
  - apply Q.le_max_l.
  - apply Q.max_lub; [discriminate | apply Q.le_min_l].
Qed.

Lemma csv_interpolation_quality (df : DataFrame) (T_C P_b x : Q) (r : WaterProps) :
  csv_interpolation df T_C P_b x = Return r -> wp_x r = x.
Proof.
  destruct df as [|r0 rs].
  - cbn. discriminate.
  - destruct (csv_interpolation_returns (r0 :: rs) T_C P_b x) as (r' & E & Hx & _);
      [discriminate|].
    rewrite E. now intros [= <-].
Qed.

(** A quality in [[0, 1]] goes in, a quality in [[0, 1]] comes out. *)
Lemma resolver_quality_bounds env T_C P_b x r :
  snd (calculate_water_properties env T_C P_b x) = Return r ->
  0 <= x <= 1 -> 0 <= wp_x r <= 1.
Proof.
  intros E Hx. unfold calculate_water_properties in E.
  destruct (get_tsat (water_df env) P_b) as [[ts c]|e]; [|discriminate].
  destruct (get_psat (water_df env) T_C) as [[ps c']|e]; [|discriminate].
  destruct (IAPWS_AVAILABLE env && (above ts T_C || below ts T_C)) eqn:G.
  - destruct (calculate_water_properties_iapws env T_C P_b x) as [calls [r0|]];
      cbn [snd] in E.
    + injection E as <-.
      apply andb_true_iff in G. destruct G as [_ G]. apply orb_true_iff in G.
      destruct (above ts T_C); [cbn; split; discriminate|].
      destruct (below ts T_C); [cbn; split; discriminate|].
      destruct G; discriminate.
    + now rewrite (csv_interpolation_quality _ _ _ _ _ E).
  - cbn [snd] in E. now rewrite (csv_interpolation_quality _ _ _ _ _ E).
Qed.

(** ** The state-2 update writes a clamped quality *)


(** ** State 1 stores the resolver's quality as it comes *)



(** ** Rejection of a custom gas *)

(** C7. A custom gas whose [cp] does not exceed its [cv] is answered with a
    400 error and the store is left exactly as it was.  When the request
    carries [P] and [v] the error is "Invalid cp/cv for custom gas". *)
Theorem custom_gas_rejected_store_unchanged
    (env : Env) (st : Store) (rq : GasRequest) (name : string) (cp cv : Q) :
  rq_gas_name rq = Some name -> lower name = "custom"%string ->
  rq_cp rq = Some cp -> rq_cv rq = Some cv -> cp <= cv ->
  snd (submit_gas env st rq) = st
  /\ (exists message, fst (submit_gas env st rq) = JSONError 400 message)
  /\ (rq_P rq <> None -> rq_v rq <> None ->
      fst (submit_gas env st rq) = JSONError 400 "Invalid cp/cv for custom gas").
Proof.
  intros En El Ecp Ecv Hle. apply Qle_bool_iff in Hle.
  unfold submit_gas, submit_gas_body, hbind, lift, hret.
  rewrite En. cbn [item]. rewrite El. cbn [String.eqb Ascii.eqb Bool.eqb].
  destruct (rq_P rq) as [P|]; cbn [item].
  - destruct (rq_v rq) as [v|]; cbn [item negb].
    + rewrite Ecp, Ecv, Hle. cbn. repeat split; eauto.
    + cbn. repeat split; eauto. intros _ H. now contradiction H.
  - cbn. repeat split; eauto. intros H. now contradiction H.
Qed.

(** ** The water process evaluator *)

(** C3. [get_water_results] picks the work by the process label:
    "Constant Pressure" gives [P1 * 100 * (v2 - v1)] (bar to kPa),
    "Constant Volume" gives 0, "Isothermal" gives
    [(P1 + P2) / 2 * 100 * (v2 - v1)], "Adiabatic" gives [-(u2 - u1)], any
    other label gives 0; the heat is [delta_u + W] for every label.  The
    handler answers with these values rounded, unless one of its printed
    ratios divides by zero. *)
Theorem water_work_and_heat (state1 state2 : StatePoint) :
  let delta_u := sp_u state2 - sp_u state1 in
  pr_W (water_process "Constant Pressure" state1 state2)
  = sp_P state1 * 100 * (sp_v state2 - sp_v state1)
  /\ pr_W (water_process "Constant Volume" state1 state2) = 0
  /\ pr_W (water_process "Isothermal" state1 state2)
     = (sp_P state1 + sp_P state2) / 2 * 100 * (sp_v state2 - sp_v state1)
  /\ pr_W (water_process "Adiabatic" state1 state2) = - delta_u
  /\ (forall process_type,
         pr_delta_u (water_process process_type state1 state2) = delta_u
         /\ pr_Q (water_process process_type state1 state2)
            = delta_u + pr_W (water_process process_type state1 state2))
  /\ (forall process_type,
         String.eqb process_type "Constant Pressure" = false ->
         String.eqb process_type "Constant Volume" = false ->
         String.eqb process_type "Isothermal" = false ->
         String.eqb process_type "Adiabatic" = false ->
         pr_W (water_process process_type state1 state2) = 0)
  /\ (forall process_type st,
         process_info st = Some (WaterProcess process_type state1 state2) ->
         get_water_results st
         = WaterOk process_type (round_state state1) (round_state state2)
                   (round_processed (water_process process_type state1 state2))
         \/ get_water_results st
            = WaterError 500 "Failed to get water results: float division by zero").
Proof.
  cbv zeta. repeat split.
  { intros process_type E1 E2 E3 E4. unfold water_process.
    cbn [pr_W]. now rewrite E1, E2, E3, E4. }
  intros process_type st E. unfold get_water_results. rewrite E.
  unfold scaling_analysis, py_div.
  destruct (Qeq_bool (Qmin _ _) 0); cbn; auto.
  destruct (Qeq_bool (Qmin _ _) 0); cbn; auto.
  destruct (Qeq_bool (sp_v state1) 0); cbn; auto.
Qed.

(** The per-kind formulas are not applied to every water process: the work
    follows the stored label, and only four labels select a formula.  After
    an isobaric update from saturation at 100 degrees C to 150 degrees C, a
    final submit that names the process "Isobaric" is evaluated with
    [W = 0], although [P1 * 100 * (v2 - v1)] is not 0; a process stored
    under "Adiabatic (n=k)" is evaluated with [W = 0], although
    [-(u2 - u1)] is not 0. *)
Lemma water_work_under_other_labels :
  (exists state1 state2 processed,
      get_water_results store_isobaric_process
      = WaterOk "Isobaric" state1 state2 processed
      /\ pr_W processed == 0
      /\ ~ sp_P state1 * 100 * (sp_v state2 - sp_v state1) == 0)
  /\ (exists state1 state2 processed,
         get_water_results store_adiabatic_label
         = WaterOk "Adiabatic (n=k)" state1 state2 processed
         /\ pr_W processed == 0
         /\ ~ - (sp_u state2 - sp_u state1) == 0).
Proof.
  split; eexists _, _, _; (split; [vm_compute; reflexivity|]);
    split; vm_compute; [reflexivity | discriminate | reflexivity | discriminate].
Qed.

(** ** The ideal-gas process evaluator *)

Local Close Scope Q_scope.
Local Open Scope R_scope.

Lemma py_divR_nonzero (a b : R) : b <> 0 -> py_divR a b = Return (a / b).
Proof.
  intro H. unfold py_divR. destruct (Req_dec_T b 0); [contradiction | reflexivity].
Qed.

Lemma isclose_refl (a : R) : isclose a a = true.
Proof.
  unfold isclose. destruct (Rle_dec _ _) as [_ | N]; [reflexivity|].
  exfalso. apply N. rewrite Rminus_diag, Rabs_R0.
  pose proof (Rabs_pos a). Lra.lra.
Qed.

Lemma not_isclose_1 (e : R) : isclose e 1 = false -> 1 - e <> 0.
Proof.
  intros H E. replace e with 1 in H by Lra.lra.
  rewrite isclose_refl in H. discriminate.
Qed.

Section IdealGasProcess.

Variables cp cv Rg k T1 P1 v1 v_ratio : R.
Variable p_ratio : option R.
Hypothesis T1_pos : 0 < T1.
Hypothesis P1_pos : 0 < P1.
Hypothesis v1_pos : 0 < v1.
Hypothesis v_ratio_pos : 0 < v_ratio.

Lemma v2_nonzero : v1 * v_ratio <> 0.
Proof. apply Rgt_not_eq. now apply Rmult_lt_0_compat. Qed.

Lemma T1_nonzero : T1 <> 0.
Proof. now apply Rgt_not_eq. Qed.

Lemma P1_nonzero : P1 <> 0.
Proof. now apply Rgt_not_eq. Qed.

Lemma v1_nonzero : v1 <> 0.
Proof. now apply Rgt_not_eq. Qed.

(** The second state of a process with a finite exponent [e]. *)
Lemma exponent_state2 (e : R) :
  let v2 := v1 * v_ratio in
  (r <- py_divR v1 v2 ;;
   Return (Some (P1 * py_pow r e, T1 * py_pow r (e - 1), v2, Finite e)))
  = Return (Some (P1 * py_pow (v1 / v2) e, T1 * py_pow (v1 / v2) (e - 1),
                  v2, Finite e)).
Proof.
  cbv zeta. now rewrite (py_divR_nonzero _ _ v2_nonzero).
Qed.

(** A process with a finite exponent [e]: the adiabatic one ([e = k]) and
    the polytropic one ([e = n]) share this computation. *)
Lemma exponent_process (process_type : string) (n : option R) (e : R) :
  let v2 := v1 * v_ratio in
  state2_calculations process_type k T1 P1 v1 (Some v_ratio) p_ratio n
  = Return (Some (P1 * py_pow (v1 / v2) e, T1 * py_pow (v1 / v2) (e - 1),
                  v2, Finite e)) ->
  String.eqb process_type "isochoric" = false ->
  String.eqb process_type "isobaric" = false ->
  String.eqb process_type "isothermal" = false ->
  String.eqb process_type "polytropic"
  || String.eqb process_type "adiabatic" = true ->
  ideal_gas_process process_type cp cv Rg k T1 P1 v1
                    (Some v_ratio) p_ratio n
  = Return (Some (closed_form cp cv Rg T1 P1 v2
                    (P1 * Rpower (v1 / v2) e)
                    (T1 * Rpower (v1 / v2) (e - 1))
                    (polytropic_work Rg T1 P1 v1
                       (P1 * Rpower (v1 / v2) e) v2 e))).
Proof.
  cbv zeta. intros Es E1 E2 E3 E4.
  unfold ideal_gas_process. rewrite Es. cbn [bind].
  unfold work_calculation, polytropic_work, py_pow. rewrite E1, E2, E3, E4.
  rewrite (py_divR_nonzero _ T1 T1_nonzero), (py_divR_nonzero _ P1 P1_nonzero).
  destruct (isclose e 1) eqn:Ec.
  - rewrite (py_divR_nonzero _ v1 v1_nonzero). reflexivity.
  - rewrite (py_divR_nonzero _ _ (not_isclose_1 e Ec)). reflexivity.
Qed.

(** C2, as the code has it.  For a positive first state ([T1], [P1],
    [v1] above 0) and a stored positive [v_ratio] the evaluator returns, for
    each process kind, the second state and work of the table: isochoric,
    for a stored positive [p_ratio], [v2 = v1], [P2 = P1 p_ratio],
    [T2 = T1 p_ratio], [W = 0]; isobaric [v2 = v1 v_ratio], [P2 = P1],
    [T2 = T1 v_ratio], [W = P1 (v2 - v1)]; isothermal [P2 = P1 v1 / v2],
    [T2 = T1], [W = R T1 ln(v2/v1)]; adiabatic [P2 = P1 (v1/v2)^k],
    [T2 = T1 (v1/v2)^(k-1)] and polytropic the same with [n] (1 when [n] is
    missing), both with [W = (P2 v2 - P1 v1)/(1 - e)], or [R T1 ln(v2/v1)]
    when the exponent [e] is within [np.isclose] of 1.  For every kind
    [Q = delta_u + W], [delta_s = cp ln(T2/T1) - R ln(P2/P1)] and
    [s1 = cp ln T1 - R ln P1].  The kinds other than the isochoric one do
    not read [p_ratio], stored or not.  An isochoric evaluation without a
    stored [p_ratio], and every evaluation without a stored [v_ratio],
    whatever the kind, raises the [TypeError] of a product with [None]
    instead. *)
Theorem ideal_gas_process_closed_forms :
  let v2 := v1 * v_ratio in
  let evaluate process_type n :=
    ideal_gas_process process_type cp cv Rg k T1 P1 v1
                      (Some v_ratio) p_ratio n in
  let expect v2 P2 T2 W :=
    Return (Some (closed_form cp cv Rg T1 P1 v2 P2 T2 W)) in
  let type_error : py (option GasCalc) :=
    Raise (TypeError
             "unsupported operand type(s) for *: 'float' and 'NoneType'") in
  (forall n pr,
      p_ratio = Some pr -> 0 < pr ->
      evaluate "isochoric"%string n = expect v1 (P1 * pr) (T1 * pr) 0)
  /\ (forall n,
         evaluate "isobaric"%string n
         = expect v2 P1 (T1 * v_ratio) (P1 * (v2 - v1)))
  /\ (forall n,
         evaluate "isothermal"%string n
         = expect v2 (P1 * v1 / v2) T1 (Rg * T1 * ln (v2 / v1)))
  /\ (forall n,
         let P2 := P1 * Rpower (v1 / v2) k in
         evaluate "adiabatic"%string n
         = expect v2 P2 (T1 * Rpower (v1 / v2) (k - 1))
                  (if isclose k 1 then Rg * T1 * ln (v2 / v1)
                   else (P2 * v2 - P1 * v1) / (1 - k)))
  /\ (forall n,
         let P2 := P1 * Rpower (v1 / v2) n in
         evaluate "polytropic"%string (Some n)
         = expect v2 P2 (T1 * Rpower (v1 / v2) (n - 1))
                  (if isclose n 1 then Rg * T1 * ln (v2 / v1)
                   else (P2 * v2 - P1 * v1) / (1 - n)))
  /\ evaluate "polytropic"%string None
     = expect v2 (P1 * Rpower (v1 / v2) 1) (T1 * Rpower (v1 / v2) (1 - 1))
              (Rg * T1 * ln (v2 / v1))
  /\ (forall n,
         p_ratio = None -> evaluate "isochoric"%string n = type_error)
  /\ (forall process_type n,
         ideal_gas_process process_type cp cv Rg k T1 P1 v1 None p_ratio n
         = type_error).
Proof using All.
  pose proof v2_nonzero as Hv2. pose proof T1_nonzero as HT1.
  pose proof P1_nonzero as HP1. pose proof v1_nonzero as Hv1.
  cbv zeta. repeat split; intros.
  - subst p_ratio. unfold ideal_gas_process, state2_calculations. cbn.
    now rewrite (py_divR_nonzero _ T1 HT1), (py_divR_nonzero _ P1 HP1).
  - unfold ideal_gas_process, state2_calculations. cbn.
    now rewrite (py_divR_nonzero _ T1 HT1), (py_divR_nonzero _ P1 HP1).
  - unfold ideal_gas_process, state2_calculations. cbn.
    rewrite (py_divR_nonzero _ _ Hv2). cbn.
    rewrite (py_divR_nonzero _ v1 Hv1). cbn.
    rewrite (py_divR_nonzero _ T1 HT1), (py_divR_nonzero _ P1 HP1). cbn.
    replace (P1 * (v1 / (v1 * v_ratio))) with (P1 * v1 / (v1 * v_ratio))
      by (unfold Rdiv; ring).
    reflexivity.
  - apply (exponent_process "adiabatic" n k); try reflexivity.
    apply (exponent_state2 k).
  - apply (exponent_process "polytropic" (Some n) n); try reflexivity.
    apply (exponent_state2 n).
  - rewrite (exponent_process "polytropic" None 1); try reflexivity.
    + unfold polytropic_work. now rewrite isclose_refl.
    + apply (exponent_state2 1).
  - subst p_ratio. reflexivity.
Qed.

End IdealGasProcess.

(** The adiabatic work is not [(P2 v2 - P1 v1)/(1 - k)] for every [k].  A
    custom gas with [cp = 1.00001] and [cv = 1] has [k = 1.00001], which
    [np.isclose] takes for 1: the evaluator then returns [R T1 ln(v2/v1)],
    a different number.  Here
    [R = 0.00001], [T1 = 10000000], [P1 = 100], [v1 = 1] and [v_ratio = 2]. *)
Lemma adiabatic_work_near_unit_exponent :
  exists c,
    ideal_gas_process "adiabatic" (100001 / 100000) 1 (1 / 100000)
                      (100001 / 100000) 10000000 100 1 (Some 2) (Some 1) None
    = Return (Some c)
    /\ gc_W c <> (gc_P2 c * gc_v2 c - 100 * 1) / (1 - 100001 / 100000).
Proof.
  assert (Hclose : isclose (100001 / 100000) 1 = true).
  { unfold isclose. destruct (Rle_dec _ _) as [_ | N]; [reflexivity|].
    exfalso. apply N. rewrite Rabs_R1, Rabs_right; Lra.lra. }
  eexists. split.
  { apply (exponent_process (100001 / 100000) 1 (1 / 100000) (100001 / 100000)
             10000000 100 1 2 (Some 1)); try Lra.lra; try reflexivity.
    apply exponent_state2; Lra.lra. }
  unfold polytropic_work. rewrite Hclose. cbn [gc_W gc_P2 gc_v2 closed_form].
  replace (1 * 2 / 1) with 2 by field.
  replace (1 / (1 * 2)) with (/ 2) by field.
  replace (100001 / 100000) with (1 + 1 / 100000) by field.
  rewrite Rpower_plus, Rpower_1 by Lra.lra.
  unfold Rpower. rewrite ln_Rinv by Lra.lra.
  pose proof ln_lt_2 as L2.
  set (L := ln 2) in *.
  assert (Hexp : 1 + 1 / 100000 * - L < exp (1 / 100000 * - L)).
  { apply exp_ineq1. Lra.lra. }
  set (E := exp (1 / 100000 * - L)) in *.
  intro Heq.
  replace ((100 * (/ 2 * E) * (1 * 2) - 100 * 1) / (1 - (1 + 1 / 100000)))
    with (10000000 * (1 - E)) in Heq by field.
  Lra.lra.
Qed.

(** [get_results] answers with the evaluator's numbers rounded to five
    places. *)
Lemma get_results_gas_rounds (st : Store) (gas : GasSubmission)
    (raw_process gas_name process_type : string)
    (v_ratio p_ratio n_value : option Q) (c : GasCalc) :
  latest_submission st = Some (GasSub gas) ->
  process_info st
  = Some (GasProcess raw_process gas_name v_ratio p_ratio n_value) ->
  String.eqb (lower gas_name) "water" = false ->
  PROCESS_MAP raw_process = Some process_type ->
  ideal_gas_process process_type (Q2R (gs_cp gas)) (Q2R (gs_cv gas))
                    (Q2R (gs_R gas)) (Q2R (gs_k gas)) (Q2R (gs_T gas))
                    (Q2R (gs_P gas)) (Q2R (gs_v gas))
                    (option_map Q2R v_ratio) (option_map Q2R p_ratio)
                    (option_map Q2R n_value)
  = Return (Some c) ->
  pv_plot process_type (option_map Q2R n_value) = Return tt ->
  get_results st
  = ResultsGas (gs_gas_name gas) process_type
      (mkGasState (py_roundR (Q2R (gs_T gas)) 5) (py_roundR (Q2R (gs_P gas)) 5)
         (py_roundR (Q2R (gs_v gas)) 5) (py_roundR (gc_u1 c) 5)
         (py_roundR (gc_h1 c) 5) (py_roundR (gc_s1 c) 5))
      (mkGasState (py_roundR (gc_T2 c) 5) (py_roundR (gc_P2 c) 5)
         (py_roundR (gc_v2 c) 5) (py_roundR (gc_u2 c) 5)
         (py_roundR (gc_h2 c) 5) (py_roundR (gc_s2 c) 5))
      (mkGasProcessed (py_roundR (gc_W c) 5) (py_roundR (gc_Q c) 5)
         (py_roundR (gc_delta_u c) 5) (py_roundR (gc_delta_h c) 5)
         (py_roundR (gc_delta_s c) 5)).
Proof.
  intros El Ep Ew Em Ec Eplot.
  unfold get_results. rewrite Ep, Ew.
  unfold get_results_gas. rewrite El, Em. cbn [gas_record bind].
  rewrite Ec. cbn [bind]. rewrite Eplot. reflexivity.
Qed.

(** A gas with [k = 1.00001] is one [submit_gas] stores: for [cp = 1.00001],
    [cv = 1] at 100 kPa and 1 m3/kg the record reads [k = 1.00001],
    [R = 0.00001], [T = 10000000]. *)
Lemma near_unit_ratio_gas_is_stored :
  exists gas,
    latest_submission store_near_unit_ratio = Some (GasSub gas)
    /\ Q2R (gs_cp gas) = 100001 / 100000 /\ Q2R (gs_cv gas) = 1
    /\ Q2R (gs_R gas) = 1 / 100000 /\ Q2R (gs_k gas) = 100001 / 100000
    /\ Q2R (gs_T gas) = 10000000 /\ Q2R (gs_P gas) = 100 /\ Q2R (gs_v gas) = 1.
Proof.
  eexists. split; [vm_compute; reflexivity|].
  unfold Q2R; cbn [gs_cp gs_cv gs_R gs_k gs_T gs_P gs_v Qnum Qden].
  repeat split; field.
Qed.

Local Close Scope R_scope.
Local Open Scope Q_scope.

(* ================================================================== *)
(** * Further properties of the table lookups *)

Lemma get_tsat_sorted_lookup (df : DataFrame) (P : Q) :
  get_tsat df P = sorted_lookup cP_bar cT_sat df P.
Proof. reflexivity. Qed.

Lemma get_psat_sorted_lookup (df : DataFrame) (T_C : Q) :
  get_psat df T_C = sorted_lookup cT_sat cP_bar df T_C.
Proof. reflexivity. Qed.

Lemma py_round_compat (x y : Q) (n : nat) : x == y -> py_round x n == py_round y n.
Proof.
  intro E. apply Qle_antisym; apply py_round_mono; rewrite E; apply Qle_refl.
Qed.

Lemma clamp_key_mono (lo hi x y : Q) :
  lo <= hi -> x <= y -> fst (clamp_key lo hi x) <= fst (clamp_key lo hi y).
Proof.
  intros H L. unfold clamp_key.
  destruct (Qlt_bool x lo) eqn:X1; destruct (Qlt_bool y lo) eqn:Y1; cbn [fst];
    try (destruct (Qlt_bool hi x) eqn:X2); try (destruct (Qlt_bool hi y) eqn:Y2);
    cbn [fst];
    repeat match goal with
           | E : Qlt_bool _ _ = true |- _ => apply Qlt_bool_iff in E
           | E : Qlt_bool _ _ = false |- _ => apply Qlt_bool_false_iff in E
           end; lra.
Qed.

Lemma clamp_key_flag (lo hi x : Q) :
  lo <= hi -> (snd (clamp_key lo hi x) = true <-> x < lo \/ hi < x).
Proof.
  intro H. unfold clamp_key.
  destruct (Qlt_bool x lo) eqn:X1; [|destruct (Qlt_bool hi x) eqn:X2]; cbn [snd];
    repeat match goal with
           | E : Qlt_bool _ _ = true |- _ => apply Qlt_bool_iff in E
           | E : Qlt_bool _ _ = false |- _ => apply Qlt_bool_false_iff in E
           end.
  - split; auto.
  - split; auto.
  - split; [discriminate | intros [L | L]; exfalso; lra].
Qed.

Section SortedLookupSpec.

Variables (k v : Column) (df : DataFrame).
Hypothesis Hne : df <> [].

(** The clamped key of a lookup. *)
Lemma sorted_lookup_spec (x : Q) :
  let s := sort_values k df in
  let x' := fst (clamp_key (col_min k s) (col_max k s) x) in
  exists lower upper,
    brackets k s x' lower upper
    /\ sorted_lookup k v df x
       = Return (Some (py_round (bracket_value k v lower upper x') 5),
                 snd (clamp_key (col_min k s) (col_max k s) x)).
Proof.
  cbv zeta. pose proof (sort_values_nonempty k df Hne) as Hne'.
  unfold sorted_lookup. destruct df as [|r0 rs]; [congruence|]. cbn [empty].
  set (s := sort_values k (r0 :: rs)) in *.
  pose proof (clamp_key_bounds (col_min k s) (col_max k s) x
                (col_min_le_max _ _)) as [Hlo Hhi].
  destruct (clamp_key (col_min k s) (col_max k s) x) as [x' c].
  cbn [fst snd] in *.
  destruct (lookup_sorted_returns k v s x' Hne'
              (sort_values_ascending _ _) Hlo Hhi) as (l & u & B & E).
  exists l, u. split; [exact B|]. rewrite E. reflexivity.
Qed.

Hypothesis Hco : comonotone k v df.

Lemma comonotone_sorted : comonotone k v (sort_values k df).
Proof. now apply comonotone_sort_values. Qed.

(** The lookup never decreases with the key, clamped or not. *)
Lemma sorted_lookup_mono (xa xb : Q) :
  xa <= xb ->
  exists ya ca yb cb,
    sorted_lookup k v df xa = Return (Some ya, ca)
    /\ sorted_lookup k v df xb = Return (Some yb, cb)
    /\ ya <= yb.
Proof.
  intro L.
  destruct (sorted_lookup_spec xa) as (la & ua & Ba & Ea).
  destruct (sorted_lookup_spec xb) as (lb & ub & Bb & Eb).
  eexists _, _, _, _. split; [exact Ea|]. split; [exact Eb|].
  apply py_round_mono.
  apply (bracket_value_mono k v (sort_values k df) comonotone_sorted); auto.
  apply clamp_key_mono; [apply col_min_le_max | exact L].
Qed.

(** A key that is the key of a row reads that row's value. *)
Lemma bracket_value_at_row (x : Q) (r lower upper : Row) :
  In r df -> x == col k r ->
  brackets k (sort_values k df) x lower upper ->
  bracket_value k v lower upper x == col v r.
Proof.
  intros Ir Ex [Il Iu Ll Lu Ml Mu].
  assert (Ir' : In r (sort_values k df)) by now apply in_sort_values.
  assert (El : col k lower == col k r).
  { apply Qle_antisym; [lra | apply Ml; auto; lra]. }
  assert (Eu : col k upper == col k r).
  { apply Qle_antisym; [apply Mu; auto; lra | lra]. }
  unfold bracket_value.
  assert (Eb : Qeq_bool (col k lower) (col k upper) = true).
  { apply Qeq_bool_iff. now rewrite El, Eu. }
  rewrite Eb.
  apply (same_key_same_value k v (sort_values k df) comonotone_sorted); auto.
Qed.

Lemma sorted_lookup_at_row (x : Q) (r : Row) :
  In r df -> x == col k r ->
  exists y,
    sorted_lookup k v df x = Return (Some y, false)
    /\ y == py_round (col v r) 5.
Proof.
  intros Ir Ex.
  assert (Ir' : In r (sort_values k df)) by now apply in_sort_values.
  destruct (sorted_lookup_spec x) as (l & u & B & E).
  assert (Hlo : col_min k (sort_values k df) <= x).
  { rewrite Ex. now apply col_min_le. }
  assert (Hhi : x <= col_max k (sort_values k df)).
  { rewrite Ex. now apply col_max_ge. }
  rewrite (clamp_key_id _ _ _ Hlo Hhi) in B, E. cbn [fst snd] in B, E.
  eexists. split; [exact E|].
  apply py_round_compat. now apply (bracket_value_at_row x r).
Qed.

(** The rounded value stays between the rounded extremes of the value
    column. *)
Lemma sorted_lookup_range (x : Q) :
  exists y c,
    sorted_lookup k v df x = Return (Some y, c)
    /\ py_round (col_min v df) 5 <= y <= py_round (col_max v df) 5.
Proof.
  destruct (sorted_lookup_spec x) as (l & u & B & E).
  eexists _, _. split; [exact E|].
  pose proof (bracket_value_bounds k v _ comonotone_sorted _ _ _ B) as [H1 H2].
  destruct B as [Il Iu _ _ _ _]. apply in_sort_values in Il, Iu.
  split; apply py_round_mono.
  - eapply Qle_trans; [apply (col_min_le v df l Il) | exact H1].
  - eapply Qle_trans; [exact H2 | apply (col_max_ge v df u Iu)].
Qed.

(** Below the smallest key the lookup answers with the smallest value and
    the flag raised; above the largest key with the largest value. *)
Lemma sorted_lookup_clamped_low (x : Q) :
  x < col_min k df ->
  exists y,
    sorted_lookup k v df x = Return (Some y, true)
    /\ y == py_round (col_min v df) 5.
Proof.
  intro L.
  destruct (sorted_lookup_spec x) as (l & u & B & E).
  rewrite <- (col_min_sort_values k k df Hne) in L.
  rewrite (clamp_key_below _ _ _ L) in B, E. cbn [fst snd] in B, E.
  eexists. split; [exact E|]. apply py_round_compat.
  destruct (col_min_attained k _ (sort_values_nonempty k df Hne)) as (rm & Im & Em).
  assert (Im' : In rm df) by now apply in_sort_values in Im.
  assert (Ek : col_min k (sort_values k df) == col k rm)
    by (rewrite Em; apply Qeq_refl).
  rewrite (bracket_value_at_row _ rm l u Im' Ek B).
  apply Qle_antisym.
  - destruct (col_min_attained v df Hne) as (rv & Iv & Ev). rewrite <- Ev.
    apply Hco; auto. rewrite Em.
    apply col_min_le. now apply in_sort_values.
  - now apply col_min_le.
Qed.

Lemma sorted_lookup_clamped_high (x : Q) :
  col_max k df < x ->
  exists y,
    sorted_lookup k v df x = Return (Some y, true)
    /\ y == py_round (col_max v df) 5.
Proof.
  intro L.
  destruct (sorted_lookup_spec x) as (l & u & B & E).
  rewrite <- (col_max_sort_values k k df Hne) in L.
  rewrite (clamp_key_above _ _ _ (col_min_le_max _ _) L) in B, E.
  cbn [fst snd] in B, E.
  eexists. split; [exact E|]. apply py_round_compat.
  destruct (col_max_attained k _ (sort_values_nonempty k df Hne)) as (rm & Im & Em).
  assert (Im' : In rm df) by now apply in_sort_values in Im.
  assert (Ek : col_max k (sort_values k df) == col k rm)
    by (rewrite Em; apply Qeq_refl).
  rewrite (bracket_value_at_row _ rm l u Im' Ek B).
  apply Qle_antisym.
  - now apply col_max_ge.
  - destruct (col_max_attained v df Hne) as (rv & Iv & Ev). rewrite <- Ev.
    apply Hco; auto. rewrite Em.
    apply col_max_ge. now apply in_sort_values.
Qed.

End SortedLookupSpec.

(** ** Both saturation lookups, in range and clamped *)

(** X1. On a loaded table whose [T_sat] and [P_bar] columns both increase
    strictly down the rows, [get_tsat] and [get_psat] never decrease with
    their argument, for every pair of arguments: clamping to the table range
    keeps the order. *)
Theorem saturation_lookups_monotone (df : DataFrame) (a b : Q) :
  df <> [] ->
  strictly_increasing cT_sat df -> strictly_increasing cP_bar df ->
  a <= b ->
  (exists Ta ca Tb cb,
      get_tsat df a = Return (Some Ta, ca)
      /\ get_tsat df b = Return (Some Tb, cb) /\ Ta <= Tb)
  /\ (exists Pa ca Pb cb,
         get_psat df a = Return (Some Pa, ca)
         /\ get_psat df b = Return (Some Pb, cb) /\ Pa <= Pb).
Proof.
  intros Hne HT HP L. split.
  - rewrite !get_tsat_sorted_lookup.
    apply sorted_lookup_mono; auto. now apply strictly_increasing_comonotone.
  - rewrite !get_psat_sorted_lookup.
    apply sorted_lookup_mono; auto. now apply strictly_increasing_comonotone.
Qed.

(** X2. [get_tsat] on such a table: a pressure below the smallest tabulated
    one yields the smallest saturation temperature (rounded to five places)
    with [clamped = True], one above the largest yields the largest with
    [clamped = True], and a pressure inside the range is answered with
    [clamped = False].  [get_psat] does the same with the columns swapped. *)
Theorem saturation_lookups_clamp (df : DataFrame) (x : Q) :
  df <> [] ->
  strictly_increasing cT_sat df -> strictly_increasing cP_bar df ->
  (x < col_min cP_bar df ->
   exists T, get_tsat df x = Return (Some T, true)
             /\ T == py_round (col_min cT_sat df) 5)
  /\ (col_max cP_bar df < x ->
      exists T, get_tsat df x = Return (Some T, true)
                /\ T == py_round (col_max cT_sat df) 5)
  /\ (col_min cP_bar df <= x <= col_max cP_bar df ->
      exists T, get_tsat df x = Return (Some T, false))
  /\ (x < col_min cT_sat df ->
      exists P, get_psat df x = Return (Some P, true)
                /\ P == py_round (col_min cP_bar df) 5)
  /\ (col_max cT_sat df < x ->
      exists P, get_psat df x = Return (Some P, true)
                /\ P == py_round (col_max cP_bar df) 5)
  /\ (col_min cT_sat df <= x <= col_max cT_sat df ->
      exists P, get_psat df x = Return (Some P, false)).
Proof.
  intros Hne HT HP.
  pose proof (strictly_increasing_comonotone cP_bar cT_sat df HP HT) as C1.
  pose proof (strictly_increasing_comonotone cT_sat cP_bar df HT HP) as C2.
  repeat split.
  - intro L. rewrite get_tsat_sorted_lookup. now apply sorted_lookup_clamped_low.
  - intro L. rewrite get_tsat_sorted_lookup. now apply sorted_lookup_clamped_high.
  - intros [L1 L2]. rewrite get_tsat_sorted_lookup.
    destruct (sorted_lookup_spec cP_bar cT_sat df Hne x) as (l & u & _ & E).
    rewrite <- (col_min_sort_values cP_bar cP_bar df Hne) in L1.
    rewrite <- (col_max_sort_values cP_bar cP_bar df Hne) in L2.
    rewrite (clamp_key_id _ _ _ L1 L2) in E. eexists. exact E.
  - intro L. rewrite get_psat_sorted_lookup. now apply sorted_lookup_clamped_low.
  - intro L. rewrite get_psat_sorted_lookup. now apply sorted_lookup_clamped_high.
  - intros [L1 L2]. rewrite get_psat_sorted_lookup.
    destruct (sorted_lookup_spec cT_sat cP_bar df Hne x) as (l & u & _ & E).
    rewrite <- (col_min_sort_values cT_sat cT_sat df Hne) in L1.
    rewrite <- (col_max_sort_values cT_sat cT_sat df Hne) in L2.
    rewrite (clamp_key_id _ _ _ L1 L2) in E. eexists. exact E.
Qed.

(** X3. On such a table the two lookups agree with the rows and with each
    other: the tabulated pressure of a row yields that row's [T_sat] rounded
    to five places, the tabulated temperature yields its [P_bar] rounded,
    both unclamped; and when the row's [T_sat] has no more than five decimal
    places, [get_psat(get_tsat(P_bar))] is the row's pressure rounded. *)
Theorem saturation_lookups_round_trip (df : DataFrame) (r : Row) :
  df <> [] ->
  strictly_increasing cT_sat df -> strictly_increasing cP_bar df ->
  In r df ->
  exists T P,
    get_tsat df (P_bar r) = Return (Some T, false)
    /\ T == py_round (T_sat r) 5
    /\ get_psat df (T_sat r) = Return (Some P, false)
    /\ P == py_round (P_bar r) 5
    /\ (py_round (T_sat r) 5 == T_sat r ->
        exists P', get_psat df T = Return (Some P', false)
                   /\ P' == py_round (P_bar r) 5).
Proof.
  intros Hne HT HP Ir.
  pose proof (strictly_increasing_comonotone cP_bar cT_sat df HP HT) as C1.
  pose proof (strictly_increasing_comonotone cT_sat cP_bar df HT HP) as C2.
  destruct (sorted_lookup_at_row cP_bar cT_sat df Hne C1 (P_bar r) r Ir (Qeq_refl _))
    as (T & ET & HT').
  destruct (sorted_lookup_at_row cT_sat cP_bar df Hne C2 (T_sat r) r Ir (Qeq_refl _))
    as (P & EP & HP').
  exists T, P. repeat split; auto.
  intro Hround.
  apply (sorted_lookup_at_row cT_sat cP_bar df Hne C2 T r Ir).
  cbn [col]. now rewrite HT'.
Qed.

(** X4. On such a table the saturation temperature [get_tsat] returns never
    leaves the table: it lies between the smallest and the largest tabulated
    [T_sat], each rounded to five places; likewise the pressure [get_psat]
    returns lies between the rounded extremes of [P_bar]. *)
Theorem saturation_lookups_range (df : DataFrame) (x : Q) :
  df <> [] ->
  strictly_increasing cT_sat df -> strictly_increasing cP_bar df ->
  (exists T c,
      get_tsat df x = Return (Some T, c)
      /\ py_round (col_min cT_sat df) 5 <= T <= py_round (col_max cT_sat df) 5)
  /\ (exists P c,
         get_psat df x = Return (Some P, c)
         /\ py_round (col_min cP_bar df) 5 <= P <= py_round (col_max cP_bar df) 5).
Proof.
  intros Hne HT HP. split.
  - rewrite get_tsat_sorted_lookup.
    apply sorted_lookup_range; auto. now apply strictly_increasing_comonotone.
  - rewrite get_psat_sorted_lookup.
    apply sorted_lookup_range; auto. now apply strictly_increasing_comonotone.
Qed.

(** ** The unsorted lookup against the sorted one *)

Lemma insert_row_last (c : Column) (r : Row) (acc : DataFrame) :
  (forall a, In a acc -> col c a <= col c r) ->
  insert_row c r acc = acc ++ [r].
Proof.
  induction acc as [|a acc IH]; intro H; simpl; [reflexivity|].
  assert (E : Qlt_bool (col c r) (col c a) = false).
  { apply Qlt_bool_false_iff. apply H. now left. }
  rewrite E, IH; [reflexivity|]. intros a' I. apply H. now right.
Qed.

Lemma ascending_app_le (c : Column) (acc rs : DataFrame) (r : Row) :
  ascending c (acc ++ r :: rs) -> forall a, In a acc -> col c a <= col c r.
Proof.
  unfold ascending. induction acc as [|a0 acc IH]; intros H a I; [contradiction|].
  simpl in H. inversion H as [|? ? Hs Hall]; subst.
  destruct I as [-> | I]; [|now apply IH].
  rewrite Forall_forall in Hall. apply Hall. apply in_or_app. right. now left.
Qed.

Lemma fold_insert_ascending (c : Column) (rs acc : DataFrame) :
  ascending c (acc ++ rs) ->
  fold_left (fun acc r => insert_row c r acc) rs acc = acc ++ rs.
Proof.
  revert acc. induction rs as [|r rs IH]; intros acc H; simpl.
  - now rewrite app_nil_r.
  - rewrite (insert_row_last c r acc (ascending_app_le c acc rs r H)).
    rewrite IH; rewrite <- app_assoc; [reflexivity | exact H].
Qed.

(** Sorting a frame that is already in order changes nothing. *)
Lemma sort_values_ascending_id (c : Column) (df : DataFrame) :
  ascending c df -> sort_values c df = df.
Proof.
  intro H. unfold sort_values. now rewrite (fold_insert_ascending c df []).
Qed.

(** The two rows [interpolate_water_property_by_T] works with do not depend
    on the property asked for. *)
Lemma interpolate_rows (df : DataFrame) (T_C : Q) :
  df <> [] ->
  let T' := fst (clamp_key (col_min cT_sat df) (col_max cT_sat df) T_C) in
  exists lower upper,
    In lower df /\ In upper df
    /\ T_sat lower <= T' /\ T' <= T_sat upper
    /\ forall c,
         interpolate_water_property_by_T df T_C c
         = Return (Some (bracket_value cT_sat c lower upper T')).
Proof.
  intros Hne T'.
  destruct (clamp_key_bounds _ _ T_C (col_min_le_max cT_sat df)) as [Hlo Hhi].
  fold T' in Hlo, Hhi.
  destruct (bracket_rows cT_sat df T' Hne Hlo Hhi)
    as (lower & upper & El & Eu & Il & Iu & Ll & Lu).
  exists lower, upper. repeat split; auto.
  intro c. unfold interpolate_water_property_by_T, bracket_value.
  destruct df as [|r0 rs]; [congruence|]. cbn [empty].
  fold T'. rewrite El, Eu. cbn [bind col].
  now destruct (Qeq_bool (T_sat lower) (T_sat upper)).
Qed.

(** X5. On a loaded table whose rows are in ascending order of [T_sat],
    [get_psat(T)] is [interpolate_water_property_by_T(T, "P_bar")] rounded to
    five places: the resolver's two ways of reading the saturation pressure
    agree up to that rounding, for every temperature. *)
Theorem get_psat_is_rounded_interpolation (df : DataFrame) (T_C : Q) :
  df <> [] -> ascending cT_sat df ->
  exists P c,
    interpolate_water_property_by_T df T_C cP_bar = Return (Some P)
    /\ get_psat df T_C = Return (Some (py_round P 5), c).
Proof.
  intros Hne Hs.
  destruct (clamp_key_bounds _ _ T_C (col_min_le_max cT_sat df)) as [Hlo Hhi].
  destruct (bracket_rows cT_sat df _ Hne Hlo Hhi)
    as (lower & upper & El & Eu & _).
  unfold get_psat, lookup_sorted, interpolate_water_property_by_T.
  rewrite (sort_values_ascending_id cT_sat df Hs).
  destruct df as [|r0 rs]; [congruence|]. cbn [empty].
  destruct (clamp_key _ _ T_C) as [T' c]. cbn [fst] in *.
  rewrite El, Eu. cbn [bind col].
  destruct (Qeq_bool (T_sat lower) (T_sat upper)); eexists _, _; split; reflexivity.
Qed.

(** ** The mixing law keeps a property between its saturation values *)

Lemma lerp_le (x x1 x2 y1 y2 z1 z2 : Q) :
  x1 <= x -> x <= x2 -> ~ x1 == x2 -> y1 <= z1 -> y2 <= z2 ->
  lerp x x1 x2 y1 y2 <= lerp x x1 x2 z1 z2.
Proof.
  intros L1 L2 N H1 H2. unfold lerp, Qdiv.
  assert (Hd : 0 < x2 - x1).
  { destruct (Qlt_le_dec x1 x2) as [H | H]; [lra|].
    exfalso. apply N. apply Qle_antisym; lra. }
  assert (Hz : 0 < / (x2 - x1)) by now apply Qinv_lt_0_compat.
  set (t := (x - x1) * / (x2 - x1)).
  assert (Ht0 : 0 <= t) by (apply Qmult_le_0_compat; lra).
  assert (Ht1 : t <= 1).
  { unfold t. apply Qle_shift_div_r; lra. }
  setoid_replace (y1 + (y2 - y1) * (x - x1) * / (x2 - x1))
    with (y1 * (1 - t) + y2 * t) by (unfold t; ring).
  setoid_replace (z1 + (z2 - z1) * (x - x1) * / (x2 - x1))
    with (z1 * (1 - t) + z2 * t) by (unfold t; ring).
  apply Qplus_le_compat; apply Qmult_le_compat_r; lra.
Qed.

Lemma bracket_value_le (c1 c2 : Column) (lower upper : Row) (x : Q) :
  T_sat lower <= x -> x <= T_sat upper ->
  col c1 lower <= col c2 lower -> col c1 upper <= col c2 upper ->
  bracket_value cT_sat c1 lower upper x <= bracket_value cT_sat c2 lower upper x.
Proof.
  intros L1 L2 H1 H2. unfold bracket_value. cbn [col].
  destruct (Qeq_bool (T_sat lower) (T_sat upper)) eqn:E; [exact H1|].
  apply lerp_le; auto. intro H. apply Qeq_bool_iff in H. congruence.
Qed.

Lemma bracket_value_nonneg (c : Column) (lower upper : Row) (x : Q) :
  T_sat lower <= x -> x <= T_sat upper ->
  0 <= col c lower -> 0 <= col c upper ->
  0 <= bracket_value cT_sat c lower upper x.
Proof.
  intros L1 L2 H1 H2. unfold bracket_value. cbn [col].
  destruct (Qeq_bool (T_sat lower) (T_sat upper)) eqn:E; [exact H1|].
  assert (N : ~ T_sat lower == T_sat upper).
  { intro H. apply Qeq_bool_iff in H. congruence. }
  assert (Z : lerp x (T_sat lower) (T_sat upper) 0 0 == 0).
  { unfold lerp, Qdiv. ring. }
  rewrite <- Z. now apply lerp_le.
Qed.

(** The table path keeps each property between its saturation values. *)
Lemma csv_interpolation_between_saturation_values
    (df : DataFrame) (T_C P_b x : Q) (r : WaterProps) :
  (forall row, In row df ->
               vf row <= vg row /\ uf row <= ug row
               /\ sf row <= sg row /\ 0 <= hfg row) ->
  0 <= x <= 1 ->
  csv_interpolation df T_C P_b x = Return r ->
  wp_vf r <= wp_v r <= wp_vg r
  /\ wp_uf r <= wp_u r <= wp_ug r
  /\ wp_sf r <= wp_s r <= wp_sg r
  /\ wp_hf r <= wp_h r <= wp_hf r + wp_hfg r.
Proof.
  intros Hrows [Hx0 Hx1] E.
  destruct df as [|r0 rs]; [cbn in E; discriminate|].
  destruct (interpolate_rows (r0 :: rs) T_C) as (l & u & Il & Iu & Ll & Lu & Hv);
    [discriminate|].
  unfold csv_interpolation in E. rewrite !Hv in E. cbn [bind] in E.
  injection E as <-.
  cbn [wp_v wp_u wp_h wp_s wp_vf wp_vg wp_uf wp_ug wp_hf wp_hfg wp_sf wp_sg].
  destruct (Hrows l Il) as (Hl1 & Hl2 & Hl3 & Hl4).
  destruct (Hrows u Iu) as (Hu1 & Hu2 & Hu3 & Hu4).
  pose proof (bracket_value_le cvf cvg l u _ Ll Lu Hl1 Hu1) as Hvv.
  pose proof (bracket_value_le cuf cug l u _ Ll Lu Hl2 Hu2) as Huu.
  pose proof (bracket_value_le csf csg l u _ Ll Lu Hl3 Hu3) as Hss.
  pose proof (bracket_value_nonneg chfg l u _ Ll Lu Hl4 Hu4) as Hhh.
  set (T' := fst (clamp_key _ _ T_C)) in *.
  generalize dependent (bracket_value cT_sat cvf l u T').
  generalize dependent (bracket_value cT_sat cvg l u T').
  generalize dependent (bracket_value cT_sat cuf l u T').
  generalize dependent (bracket_value cT_sat cug l u T').
  generalize dependent (bracket_value cT_sat csf l u T').
  generalize dependent (bracket_value cT_sat csg l u T').
  generalize dependent (bracket_value cT_sat chf l u T').
  generalize dependent (bracket_value cT_sat chfg l u T').
  intros. repeat split; nra.
Qed.

(** ** What the source tag of a resolved record tells *)

Lemma csv_interpolation_record (df : DataFrame) (T_C P_b x : Q) (r : WaterProps) :
  csv_interpolation df T_C P_b x = Return r ->
  wp_source r = "CSV Interpolation"%string
  /\ wp_x r = x /\ wp_T r = Some T_C
  /\ wp_P r = Some (if Qle_bool 0 x && Qle_bool x 1 then wp_P_sat r else P_b)
  /\ interpolate_water_property_by_T df T_C cP_bar = Return (Some (wp_P_sat r)).
Proof.
  destruct df as [|r0 rs]; [cbn; discriminate|].
  destruct (csv_interpolation_returns (r0 :: rs) T_C P_b x)
    as (r' & E & Hx & Hs & HT & psat & Hp & Hps & HP); [discriminate|].
  rewrite E. intros [= <-]. subst psat. auto.
Qed.

(** A record the resolver returns was built by one of its two paths. *)
Lemma resolver_cases env T_C P_b x r :
  snd (calculate_water_properties env T_C P_b x) = Return r ->
  (exists ts c r0,
      IAPWS_AVAILABLE env = true
      /\ get_tsat (water_df env) P_b = Return (Some ts, c)
      /\ snd (calculate_water_properties_iapws env T_C P_b x) = Some r0
      /\ ((ts < T_C /\ r = set_x 1 r0) \/ (T_C < ts /\ r = set_x 0 r0)))
  \/ csv_interpolation (water_df env) T_C P_b x = Return r.
Proof.
  intro E. unfold calculate_water_properties in E.
  destruct (get_tsat (water_df env) P_b) as [[ts c]|e] eqn:Ets; [|discriminate].
  destruct (get_psat (water_df env) T_C) as [[ps c']|e]; [|discriminate].
  destruct (IAPWS_AVAILABLE env) eqn:Ea; cbn [andb] in E; [|right; exact E].
  destruct (above ts T_C || below ts T_C) eqn:G; [|right; exact E].
  destruct (calculate_water_properties_iapws env T_C P_b x) as [calls [r0|]];
    cbn [snd] in E |- *; [|right; exact E].
  left. injection E as <-.
  destruct (above ts T_C) eqn:Ab.
  - apply above_spec in Ab. destruct Ab as (ts' & -> & L).
    exists ts', c, r0. repeat split; auto.
  - cbn [orb] in G. rewrite G. apply below_spec in G.
    destruct G as (ts' & -> & L). exists ts', c, r0. repeat split; auto.
Qed.

(** X6. When every row of the table has [vf <= vg], [uf <= ug],
    [sf <= sg] and [hfg >= 0], every record the resolver tags
    "CSV Interpolation" for a quality in [[0, 1]] has each property between
    its saturated-liquid and saturated-vapour value: [vf <= v <= vg],
    [uf <= u <= ug], [sf <= s <= sg] and [hf <= h <= hf + hfg]. *)
Theorem table_record_between_saturation_values
    (env : Env) (T_C P_b x : Q) (r : WaterProps) :
  (forall row, In row (water_df env) ->
               vf row <= vg row /\ uf row <= ug row
               /\ sf row <= sg row /\ 0 <= hfg row) ->
  0 <= x <= 1 ->
  snd (calculate_water_properties env T_C P_b x) = Return r ->
  wp_source r = "CSV Interpolation"%string ->
  wp_vf r <= wp_v r <= wp_vg r
  /\ wp_uf r <= wp_u r <= wp_ug r
  /\ wp_sf r <= wp_s r <= wp_sg r
  /\ wp_hf r <= wp_h r <= wp_hf r + wp_hfg r.
Proof.
  intros Hrows Hx E Hs.
  destruct (resolver_cases env T_C P_b x r E)
    as [(ts & c & r0 & _ & _ & E0 & Hr) | Ecsv].
  - exfalso. apply iapws_source in E0. destruct E0 as [Hi _].
    assert (Hr' : wp_source r = wp_source r0)
      by (destruct Hr as [[_ ->] | [_ ->]]; reflexivity).
    rewrite Hr', Hi in Hs. discriminate.
  - now apply (csv_interpolation_between_saturation_values
                 (water_df env) T_C P_b x r).
Qed.

(** X7. A record the resolver tags "IAPWS-IF97" reports the temperature and
    the pressure that were passed in, and a quality of exactly 1 when the
    temperature is above [get_tsat(P)] and exactly 0 when it is below; a
    record tagged "CSV Interpolation" reports the quality that was passed
    in, unchanged, and the table's interpolated saturation pressure as
    [P_sat].  No other tag occurs. *)
Theorem resolved_record_by_source (env : Env) (T_C P_b x : Q) (r : WaterProps) :
  snd (calculate_water_properties env T_C P_b x) = Return r ->
  (wp_source r = "IAPWS-IF97"%string
   /\ wp_T r = Some T_C /\ wp_P r = Some P_b
   /\ exists ts c,
        get_tsat (water_df env) P_b = Return (Some ts, c)
        /\ ((ts < T_C /\ wp_x r = 1) \/ (T_C < ts /\ wp_x r = 0)))
  \/ (wp_source r = "CSV Interpolation"%string
      /\ wp_T r = Some T_C /\ wp_x r = x
      /\ interpolate_water_property_by_T (water_df env) T_C cP_bar
         = Return (Some (wp_P_sat r))).
Proof.
  intro E.
  destruct (resolver_cases env T_C P_b x r E)
    as [(ts & c & r0 & _ & Ets & E0 & Hr) | Ecsv].
  - left. pose proof (iapws_source env T_C P_b x r0 E0) as [Hs HP].
    assert (HT : wp_T r0 = Some T_C).
    { revert E0. unfold calculate_water_properties_iapws.
      destruct (IAPWS_AVAILABLE env); cbn [negb]; [|discriminate].
      destruct (IAPWS97 env _) as [water|]; [|discriminate].
      destruct (iapws_saturation env _) as [sat_calls [[l g]|]]; cbn;
        intro H; injection H as <-; reflexivity. }
    destruct Hr as [[L ->] | [L ->]]; cbn [set_x wp_source wp_T wp_P wp_x];
      repeat split; auto; exists ts, c; split; auto.
  - right. destruct (csv_interpolation_record _ _ _ _ _ Ecsv)
      as (Hs & Hx & HT & _ & Hp).
    repeat split; auto.
Qed.

(** ** With no table loaded *)

(** X8. When the saturation table failed to load (the frame is empty),
    [get_tsat] and [get_psat] return [(None, False)], both saturation routes
    answer 500 "Water table not loaded.", the resolver raises its
    [ValueError] without consulting the library, and a water submission to
    [submit_gas] is answered 400 with that message and leaves the store
    untouched. *)
Theorem no_table_no_water (env : Env) (st : Store) (T P : Q) (x : option Q) :
  water_df env = [] ->
  get_tsat (water_df env) P = Return (None, false)
  /\ get_psat (water_df env) T = Return (None, false)
  /\ get_tsat_api env P = Return (SatError 500 "Water table not loaded.")
  /\ get_psat_api env T = Return (SatError 500 "Water table not loaded.")
  /\ (forall x',
         calculate_water_properties env T P x'
         = ([], Raise (ValueError
                         "Required water property data could not be interpolated.")))
  /\ submit_gas env st (water_request T P x)
     = (JSONError 400
          "Submission failed: Required water property data could not be interpolated.",
        st).
Proof.
  intro E.
  assert (Hc : forall x',
             calculate_water_properties env T P x'
             = ([], Raise (ValueError
                             "Required water property data could not be interpolated."))).
  { intro x'. now rewrite (calculate_water_properties_empty env T P x' E). }
  unfold get_tsat_api, get_psat_api, submit_gas, submit_gas_body, hbind, lift.
  cbn. rewrite Hc. rewrite E. cbn. repeat split; auto.
Qed.

(** X9. On a loaded table both saturation routes always answer with a
    value and a flag: they neither raise nor report the table as missing. *)
Theorem saturation_routes_answer (env : Env) (x : Q) :
  water_df env <> [] ->
  (exists T c, get_tsat_api env x = Return (SatValue T c))
  /\ (exists P c, get_psat_api env x = Return (SatValue P c)).
Proof.
  intro Hne. unfold get_tsat_api, get_psat_api.
  destruct (get_tsat_returns _ x Hne) as (T & c & ->).
  destruct (get_psat_returns _ x Hne) as (P & c' & ->).
  cbn. split; eauto.
Qed.

(** ** [submit_gas]: what a submission does to the store *)

Lemma pure_lift {A : Type} (p : py A) : pure (lift p).
Proof. intro st. now exists p. Qed.

Lemma pure_hret {A : Type} (a : A) : pure (hret a).
Proof. intro st. now exists (Return a). Qed.

Lemma pure_bind {A B : Type} (m : handler A) (k : A -> handler B) :
  pure m -> (forall a, pure (k a)) -> pure (hbind m k).
Proof.
  intros Hm Hk st. unfold hbind. destruct (Hm st) as [p ->].
  destruct p as [a|e]; [apply Hk | now exists (Raise e)].
Qed.

Lemma atomic_bind_pure {A : Type} (m : handler A) (k : A -> handler Response) :
  pure m -> (forall a, atomic (k a)) -> atomic (hbind m k).
Proof.
  intros Hm Hk st. unfold hbind. destruct (Hm st) as [p ->].
  destruct p as [a|e]; [apply Hk | right; right; now exists e].
Qed.

Lemma atomic_error (message : string) : atomic (hret (JSONError 400 message)).
Proof. intro st. right. left. now exists message. Qed.

Lemma atomic_write (s : Submission) :
  atomic (hbind (write_latest s) (fun _ => hret Success)).
Proof. intro st. left. now exists s. Qed.

(** The body of [submit_gas] writes last or not at all. *)
Lemma submit_gas_body_atomic (env : Env) (data_json : GasRequest) :
  atomic (submit_gas_body env data_json).
Proof.
  unfold submit_gas_body.
  apply atomic_bind_pure; [apply pure_lift | intro name].
  destruct (String.eqb (lower name) "water").
  - repeat (apply atomic_bind_pure; [apply pure_lift | intro]).
    apply atomic_write.
  - repeat (apply atomic_bind_pure; [apply pure_lift | intro]).
    apply atomic_bind_pure.
    + destruct (negb _).
      * apply pure_bind; [apply pure_lift | intros [Rg k]].
        apply pure_bind; [apply pure_lift | intro; apply pure_hret].
      * destruct (rq_cp data_json); [|apply pure_hret].
        destruct (rq_cv data_json); [|apply pure_hret].
        destruct (Qle_bool _ _); [apply pure_hret|].
        apply pure_bind; [apply pure_lift | intro; apply pure_hret].
    + intros [[[[cp cv] Rg] k]|]; [|apply atomic_error].
      apply atomic_bind_pure; [apply pure_lift | intro T].
      apply atomic_write.
Qed.

(** X10. [submit_gas] either answers "success" having replaced exactly the
    ["latest_submission"] entry, or answers a 400 error and leaves the store
    exactly as it was; it never writes ["state2_submission"] or
    ["process_info"], so an earlier state-2 record survives a new state 1. *)
Theorem submit_gas_writes_state1_or_nothing
    (env : Env) (st : Store) (data_json : GasRequest) :
  (fst (submit_gas env st data_json) = Success
   /\ exists s, snd (submit_gas env st data_json) = set_latest_submission s st)
  \/ (is_error_400 (fst (submit_gas env st data_json))
      /\ snd (submit_gas env st data_json) = st).
Proof.
  unfold submit_gas, is_error_400.
  destruct (submit_gas_body_atomic env data_json st)
    as [[s ->] | [[message ->] | [e ->]]]; cbn; eauto.
Qed.

(** ** [submit_gas]: which ideal-gas submissions are accepted *)

Lemma Qeq_bool_false_iff (a b : Q) : Qeq_bool a b = false <-> ~ a == b.
Proof.
  split.
  - intros E H. apply Qeq_bool_iff in H. congruence.
  - intro N. destruct (Qeq_bool a b) eqn:E; trivial.
    apply Qeq_bool_iff in E. contradiction.
Qed.

Lemma Qle_bool_false_iff (a b : Q) : Qle_bool a b = false <-> b < a.
Proof.
  split.
  - intro E. apply Qnot_le_lt. intro H. apply Qle_bool_iff in H. congruence.
  - intro L. destruct (Qle_bool a b) eqn:E; trivial.
    apply Qle_bool_iff in E. exfalso. lra.
Qed.

Lemma py_div_nonzero (a b : Q) : ~ b == 0 -> py_div a b = Return (a / b).
Proof.
  intro N. unfold py_div. apply Qeq_bool_false_iff in N. now rewrite N.
Qed.

Lemma py_div_zero (a b : Q) :
  b == 0 -> py_div a b = Raise (ZeroDivisionError "float division by zero").
Proof.
  intro E. unfold py_div. apply Qeq_bool_iff in E. now rewrite E.
Qed.

Lemma py_truediv_nonzero (a_int b_int : bool) (a b : Q) :
  ~ b == 0 -> py_truediv a_int b_int a b = Return (a / b).
Proof.
  intro N. unfold py_truediv. apply Qeq_bool_false_iff in N. now rewrite N.
Qed.

Lemma py_truediv_zero (a_int b_int : bool) (a b : Q) :
  b == 0 ->
  py_truediv a_int b_int a b
  = Raise (ZeroDivisionError
             (if a_int && b_int then "division by zero"
              else "float division by zero")).
Proof.
  intro E. unfold py_truediv. apply Qeq_bool_iff in E. now rewrite E.
Qed.

(** X11. A custom-gas submission carrying [P] and [v] is accepted exactly
    when [cp] and [cv] are both given, [cp > cv] and [cv] is not zero.  With
    [cp > cv] but [cv = 0] the ratio [cp / cv] raises and the answer is 400
    with the text of the [ZeroDivisionError], not the cp/cv message:
    "Submission failed: division by zero" when [cp] and [cv] both arrived
    as JSON integers, "Submission failed: float division by zero"
    otherwise. *)
Theorem custom_gas_accepted_iff
    (env : Env) (st : Store) (data_json : GasRequest) (name : string)
    (P v : Q) :
  rq_gas_name data_json = Some name ->
  lower name = "custom"%string ->
  rq_P data_json = Some P -> rq_v data_json = Some v ->
  (fst (submit_gas env st data_json) = Success
   <-> exists a b, rq_cp data_json = Some a /\ rq_cv data_json = Some b
                   /\ b < a /\ ~ b == 0)
  /\ (forall a b,
         rq_cp data_json = Some a -> rq_cv data_json = Some b ->
         b < a -> b == 0 ->
         submit_gas env st data_json
         = (JSONError 400
              ("Submission failed: "
               ++ (if rq_cp_int data_json && rq_cv_int data_json
                   then "division by zero" else "float division by zero")),
            st)).
Proof.
  intros En El EP Ev.
  unfold submit_gas, submit_gas_body, hbind, lift, hret.
  rewrite En, EP, Ev. cbn [item]. rewrite El.
  cbn [String.eqb Ascii.eqb Bool.eqb negb].
  split; [split|].
  - destruct (rq_cp data_json) as [a|]; [|cbn; discriminate].
    destruct (rq_cv data_json) as [b|]; [|cbn; discriminate].
    destruct (Qle_bool a b) eqn:Ele; [cbn; discriminate|].
    apply Qle_bool_false_iff in Ele.
    destruct (Qeq_bool b 0) eqn:Ez.
    + unfold py_truediv. rewrite Ez. cbn. discriminate.
    + intros _. exists a, b. repeat split; auto.
      now apply Qeq_bool_false_iff.
  - intros (a & b & -> & -> & L & N).
    apply Qle_bool_false_iff in L. rewrite L.
    rewrite (py_truediv_nonzero _ _ a b N).
    rewrite py_div_nonzero; [reflexivity|].
    apply Qle_bool_false_iff in L. intro H. lra.
  - intros a b -> -> L Z.
    apply Qle_bool_false_iff in L. rewrite L.
    now rewrite (py_truediv_zero _ _ a b Z).
Qed.

Lemma lower_ascii_idempotent (c : ascii) :
  lower_ascii (lower_ascii c) = lower_ascii c.
Proof.
  destruct c as [[] [] [] [] [] [] [] []]; reflexivity.
Qed.

Lemma lower_idempotent (s : string) : lower (lower s) = lower s.
Proof.
  induction s as [|c s IH]; simpl; [reflexivity|].
  now rewrite lower_ascii_idempotent, IH.
Qed.

(** What [repr] does to a printable character other than the single quote
    and the backslash. *)
Lemma repr_char_plain (c : ascii) :
  (32 <=? nat_of_ascii c)%nat && (nat_of_ascii c <? 127)%nat
  && negb (Ascii.eqb c "'") && negb (Ascii.eqb c "\") = true ->
  repr_char "'" c = String c EmptyString /\ Ascii.eqb "'" c = false.
Proof.
  destruct c as [[] [] [] [] [] [] [] []]; cbv; intro H;
    try discriminate H; split; reflexivity.
Qed.

Lemma repr_plain (s : string) :
  plain s = true -> repr s = ("'" ++ s ++ "'")%string.
Proof.
  intro H.
  assert (Hs : contains "'" s = false /\ repr_body "'" s = s).
  { induction s as [|c s IH]; [split; reflexivity|].
    cbn [plain] in H. apply andb_prop in H. destruct H as [Hc Hs].
    destruct (repr_char_plain c Hc) as [Er Eq].
    destruct (IH Hs) as [IH1 IH2].
    cbn [contains repr_body]. rewrite Er, Eq, IH1, IH2. split; reflexivity. }
  destruct Hs as [Hq Hb]. unfold repr. rewrite Hq. cbn [andb].
  rewrite Hb. reflexivity.
Qed.

(** X12. For a gas name of ASCII characters, [submit_gas] reads the name
    through [lower()] only: a request and the same request with its name in
    lower case produce the same response and the same store.  Each of the
    four predefined names is accepted for every [P] and [v]; a name that is
    none of them, nor "water", nor "custom", is answered 400 with
    "Submission failed: " followed by [str] of the [KeyError], which is
    [repr] of the lower-case name (the name between single quotes when it
    consists of printable characters other than the single quote and the
    backslash), and nothing is stored. *)
Theorem gas_name_handling
    (env : Env) (st : Store) (name : string) (P v : Q) (cp cv : option Q) :
  isascii name = true ->
  submit_gas env st (gas_request name (Some P) (Some v) cp cv)
  = submit_gas env st (gas_request (lower name) (Some P) (Some v) cp cv)
  /\ (In (lower name) ["air"; "nitrogen"; "methane"; "oxygen"]%string ->
      fst (submit_gas env st (gas_request name (Some P) (Some v) cp cv)) = Success)
  /\ (~ In (lower name)
          ["water"; "custom"; "air"; "nitrogen"; "methane"; "oxygen"]%string ->
      submit_gas env st (gas_request name (Some P) (Some v) cp cv)
      = (JSONError 400 ("Submission failed: " ++ repr (lower name)), st)
      /\ (plain (lower name) = true ->
          submit_gas env st (gas_request name (Some P) (Some v) cp cv)
          = (JSONError 400 ("Submission failed: '" ++ lower name ++ "'"), st))).
Proof.
  intros _. split; [|split].
  - unfold submit_gas, submit_gas_body, gas_request, hbind, lift, hret.
    cbn [rq_gas_name item]. now rewrite lower_idempotent.
  - intro H. unfold submit_gas, submit_gas_body, gas_request, hbind, lift, hret.
    cbn [rq_gas_name rq_P rq_v rq_cp rq_cv item].
    cbn in H. destruct H as [<- | [<- | [<- | [<- | []]]]]; reflexivity.
  - intro H.
    assert (E : submit_gas env st (gas_request name (Some P) (Some v) cp cv)
                = (JSONError 400 ("Submission failed: " ++ repr (lower name)), st)).
    { unfold submit_gas, submit_gas_body, gas_request, hbind, lift, hret.
      cbn [rq_gas_name rq_P rq_v rq_cp rq_cv item].
      assert (Hn : forall s,
                 In s ["water"; "custom"; "air"; "nitrogen"; "methane"; "oxygen"]%string ->
                 String.eqb (lower name) s = false).
      { intros s Hs. apply String.eqb_neq. intro E. apply H. now rewrite E. }
      rewrite (Hn "water"%string) by (cbn; auto).
      rewrite (Hn "custom"%string) by (cbn; auto).
      cbn [negb]. unfold predefined_gases.
      rewrite (Hn "air"%string) by (cbn; auto 10).
      rewrite (Hn "nitrogen"%string) by (cbn; auto 10).
      rewrite (Hn "methane"%string) by (cbn; auto 10).
      rewrite (Hn "oxygen"%string) by (cbn; auto 10).
      reflexivity. }
    split; [exact E|].
    intro Hp. rewrite E, (repr_plain _ Hp). reflexivity.
Qed.

(** ** Which state-1 record enables what *)

Lemma atomic_on_bind_pure {A : Type} (P : Submission -> Prop)
    (m : handler A) (k : A -> handler Response) :
  pure m -> (forall a, atomic_on P (k a)) -> atomic_on P (hbind m k).
Proof.
  intros Hm Hk st. unfold hbind. destruct (Hm st) as [p ->].
  destruct p as [a|e]; [apply Hk | right; right; now exists e].
Qed.

Lemma atomic_on_bind_return {A : Type} (P : Submission -> Prop)
    (a : A) (k : A -> handler Response) :
  atomic_on P (k a) -> atomic_on P (hbind (lift (Return a)) k).
Proof. intros H st. exact (H st). Qed.

Lemma atomic_on_error (P : Submission -> Prop) (message : string) :
  atomic_on P (hret (JSONError 400 message)).
Proof. intro st. right. left. now exists message. Qed.

Lemma atomic_on_write (P : Submission -> Prop) (s : Submission) :
  P s -> atomic_on P (hbind (write_latest s) (fun _ => hret Success)).
Proof. intros H st. left. now exists s. Qed.

(** The record [submit_gas] writes is a water record under the name
    "water" and a gas record carrying the lower-case name otherwise. *)
Lemma submit_gas_body_record (env : Env) (data_json : GasRequest) (name : string) :
  rq_gas_name data_json = Some name ->
  atomic_on (record_for (lower name)) (submit_gas_body env data_json).
Proof.
  intro En. unfold submit_gas_body. rewrite En. cbn [item].
  apply atomic_on_bind_return. cbv zeta.
  destruct (String.eqb (lower name) "water") eqn:Ew.
  - apply String.eqb_eq in Ew.
    repeat (apply atomic_on_bind_pure; [apply pure_lift | intro]).
    apply atomic_on_write. exact Ew.
  - apply String.eqb_neq in Ew.
    repeat (apply atomic_on_bind_pure; [apply pure_lift | intro]).
    apply atomic_on_bind_pure.
    + destruct (negb _).
      * apply pure_bind; [apply pure_lift | intros [Rg k]].
        apply pure_bind; [apply pure_lift | intro; apply pure_hret].
      * destruct (rq_cp data_json); [|apply pure_hret].
        destruct (rq_cv data_json); [|apply pure_hret].
        destruct (Qle_bool _ _); [apply pure_hret|].
        apply pure_bind; [apply pure_lift | intro; apply pure_hret].
    + intros [[[[cp cv] Rg] k]|]; [|apply atomic_on_error].
      apply atomic_on_bind_pure; [apply pure_lift | intro T].
      apply atomic_on_write. now split.
Qed.

(** X27. What an accepted state 1 enables.  After [submit_gas] answered
    "success" for the name "water" (in any letter case), [get_k] answers
    "No ideal gas data stored yet"; after it answered "success" for any
    other name, [get_k] answers with the stored [k] and every
    [submit_next_stage] request is refused with 400 "State 1 data not found
    or is not water." and writes nothing. *)
Theorem accepted_state1_enables
    (env : Env) (st : Store) (data_json : GasRequest) (name : string)
    (update : NextStageRequest) :
  rq_gas_name data_json = Some name ->
  fst (submit_gas env st data_json) = Success ->
  let st' := snd (submit_gas env st data_json) in
  (lower name = "water"%string ->
   get_k st' = KError "No ideal gas data stored yet"
   /\ exists w, stored_water st' = Some w)
  /\ (lower name <> "water"%string ->
      (exists g, latest_submission st' = Some (GasSub g)
                 /\ gs_gas_name g = lower name
                 /\ get_k st' = KValue (gs_k g))
      /\ submit_next_stage env st' update
         = (JSONError 400 "State 1 data not found or is not water.", st')).
Proof.
  intros En Hs. cbv zeta. revert Hs. unfold submit_gas.
  destruct (submit_gas_body_record env data_json name En st)
    as [(s & Hrec & ->) | [[message ->] | [e ->]]]; cbn [fst snd];
    try discriminate.
  intros _. unfold get_k, stored_water, submit_next_stage,
    submit_next_stage_body, hbind, read_latest.
  cbn [set_latest_submission latest_submission].
  destruct s as [w|g]; cbn in Hrec.
  - split; [intros _ | intro N; contradiction].
    split; [reflexivity | now exists w].
  - destruct Hrec as [N Hg]. split; [intro E; contradiction | intros _].
    split; [exists g; auto | reflexivity].
Qed.

(* ------------------------------------------------------------------ *)
(** ** The theorems at sample inputs *)

(** [interpolate_water_property_by_T] far above the table: 500 degrees C. *)
Lemma interpolate_water_property_by_T_total_at_500 :
  steam_table <> []
  /\ exists v,
       interpolate_water_property_by_T steam_table 500 cvf = Return (Some v)
       /\ (500 < col_min cT_sat steam_table ->
           exists r, In r steam_table
                     /\ T_sat r == col_min cT_sat steam_table /\ v == col cvf r)
       /\ (col_max cT_sat steam_table < 500 ->
           exists r, In r steam_table
                     /\ T_sat r == col_max cT_sat steam_table /\ v == col cvf r)
       /\ (forall P_b x,
              exists props, csv_interpolation steam_table 500 P_b x = Return props).
Proof.
  split; [discriminate|].
  apply (interpolate_water_property_by_T_total steam_table 500 cvf).
  discriminate.
Defined.

(** [get_tsat] at 1 bar and 10 bar. *)
Lemma get_tsat_monotone_at_1_and_10 :
  exists Ta Tb,
    get_tsat steam_table 1 = Return (Some Ta, false)
    /\ get_tsat steam_table 10 = Return (Some Tb, false)
    /\ Ta <= Tb.
Proof.
  apply (get_tsat_monotone steam_table 1 10).
  - discriminate.
  - repeat constructor.
  - repeat constructor.
  - vm_compute. discriminate.
  - reflexivity.
  - vm_compute. discriminate.
Defined.

(** The resolver at exactly the saturation temperature of 1.014 bar, with
    the library installed. *)
Lemma iapws_not_consulted_at_saturation :
  calculate_water_properties env_iapws 100 (1014 # 1000) (1 # 2)
  = ([], csv_interpolation steam_table 100 (1014 # 1000) (1 # 2)).
Proof.
  apply (proj2 (iapws_only_for_strictly_single_phase
                  env_iapws 100 (1014 # 1000) (1 # 2))
               (10000000 # 100000) false).
  - vm_compute. reflexivity.
  - reflexivity.
Defined.



(** The spec's rejection case: [cp = cv = 1.0]. *)
Lemma custom_gas_rejected_at_cp_eq_cv :
  snd (submit_gas env_csv store_after_state1 (custom_request 100 1 1 1))
  = store_after_state1
  /\ fst (submit_gas env_csv store_after_state1 (custom_request 100 1 1 1))
     = JSONError 400 "Invalid cp/cv for custom gas".
Proof.
  destruct (custom_gas_rejected_store_unchanged
              env_csv store_after_state1 (custom_request 100 1 1 1)
              "custom" 1 1 eq_refl eq_refl eq_refl eq_refl
              ltac:(discriminate))
    as (Hst & _ & Hmsg).
  split; [exact Hst|].
  apply Hmsg; discriminate.
Defined.

(** A constant-pressure water process from 100 to 150 degrees C. *)
Lemma water_work_and_heat_at_constant_pressure :
  get_water_results store_with_process
  = WaterOk "Constant Pressure" (round_state sample_state1)
            (round_state sample_state2)
            (round_processed
               (water_process "Constant Pressure" sample_state1 sample_state2))
  /\ pr_W (water_process "Constant Pressure" sample_state1 sample_state2)
     = sp_P sample_state1 * 100 * (sp_v sample_state2 - sp_v sample_state1).
Proof.
  destruct (water_work_and_heat sample_state1 sample_state2)
    as (HW & _ & _ & _ & _ & _ & Hres).
  split; [|exact HW].
  destruct (Hres "Constant Pressure"%string store_with_process eq_refl)
    as [H | H]; [exact H|].
  exfalso. vm_compute in H. discriminate H.
Defined.

(** ** [submit_next_stage]: what a state-2 update touches *)

Lemma same_state1_and_process_refl (st : Store) : same_state1_and_process st st.
Proof. now split. Qed.

Lemma same_state1_and_process_trans (a b c : Store) :
  same_state1_and_process a b -> same_state1_and_process b c ->
  same_state1_and_process a c.
Proof.
  intros [H1 H2] [H3 H4]. split; congruence.
Qed.

Lemma preserves_lift {A : Type} (p : py A) :
  preserves same_state1_and_process (lift p).
Proof. intro st. apply same_state1_and_process_refl. Qed.

Lemma preserves_hret {A : Type} (a : A) :
  preserves same_state1_and_process (hret a).
Proof. intro st. apply same_state1_and_process_refl. Qed.

Lemma preserves_read_latest : preserves same_state1_and_process read_latest.
Proof. intro st. apply same_state1_and_process_refl. Qed.

Lemma preserves_write_state2 (r : WaterProps) :
  preserves same_state1_and_process (write_state2 r).
Proof. intro st. now split. Qed.

Lemma preserves_bind {A B : Type} (m : handler A) (k : A -> handler B) :
  preserves same_state1_and_process m ->
  (forall a, preserves same_state1_and_process (k a)) ->
  preserves same_state1_and_process (hbind m k).
Proof.
  intros Hm Hk st. unfold hbind. specialize (Hm st).
  destruct (m st) as [[a|e] st']; cbn [snd] in *; [|exact Hm].
  eapply same_state1_and_process_trans; [exact Hm | apply Hk].
Qed.

Lemma submit_next_stage_body_preserves (env : Env) (data : NextStageRequest) :
  preserves same_state1_and_process (submit_next_stage_body env data).
Proof.
  unfold submit_next_stage_body.
  apply preserves_bind; [apply preserves_read_latest | intros [[w|g]|]];
    try apply preserves_hret.
  apply preserves_bind; [apply preserves_lift | intro ts].
  apply preserves_bind; [apply preserves_lift | intro ps].
  destruct (process_constraints _ _ _ _ _ _ _) as [[[dT dP] cT] cP].
  apply preserves_bind; [apply preserves_lift | intro cx].
  destruct (snd (calculate_water_properties env _ _ _)) as [r0|e].
  - apply preserves_bind; [apply preserves_write_state2 | intros _].
    apply preserves_bind; [apply preserves_lift | intro T].
    apply preserves_bind; [apply preserves_lift | intro P].
    apply preserves_hret.
  - destruct e; apply preserves_lift.
Qed.

(** X13. [submit_next_stage] never changes the ["latest_submission"] or
    the ["process_info"] entry, whatever the request; and when
    ["latest_submission"] does not hold a water record (nothing stored, or an
    ideal gas) it answers 400 "State 1 data not found or is not water."
    and writes nothing. *)
Theorem submit_next_stage_needs_water_state1
    (env : Env) (st : Store) (data : NextStageRequest) :
  same_state1_and_process st (snd (submit_next_stage env st data))
  /\ (stored_water st = None ->
      submit_next_stage env st data
      = (JSONError 400 "State 1 data not found or is not water.", st)).
Proof.
  split.
  - pose proof (submit_next_stage_body_preserves env data st) as H.
    unfold submit_next_stage.
    destruct (submit_next_stage_body env data st) as [[resp|e] st']; exact H.
  - unfold stored_water, submit_next_stage, submit_next_stage_body, hbind,
      read_latest.
    destruct (latest_submission st) as [[w|g]|]; [discriminate | |]; reflexivity.
Qed.

(** ** [submit_next_stage]: a constant-pressure update *)

Lemma clamp01_fixes_unit : clamp01 1 = 1 /\ clamp01 0 = 0.
Proof. split; reflexivity. Qed.

(** The resolver's quality once the side of saturation is known. *)
Lemma resolver_quality_by_side env T_C P_b x r ts c :
  snd (calculate_water_properties env T_C P_b x) = Return r ->
  get_tsat (water_df env) P_b = Return (Some ts, c) ->
  (ts < T_C -> x = 1 -> wp_x r = 1)
  /\ (T_C < ts -> x = 0 -> wp_x r = 0)
  /\ (T_C == ts -> wp_x r = x).
Proof.
  intros E Ets.
  destruct (resolver_cases env T_C P_b x r E)
    as [(ts' & c' & r0 & _ & Ets' & _ & Hr) | Ecsv].
  - rewrite Ets in Ets'. injection Ets' as <- <-.
    repeat split.
    + intros L _. destruct Hr as [[_ ->] | [L' _]]; [reflexivity | exfalso; lra].
    + intros L _. destruct Hr as [[L' _] | [_ ->]]; [exfalso; lra | reflexivity].
    + intro Heq. destruct Hr as [[L' _] | [L' _]]; exfalso; lra.
  - apply csv_interpolation_record in Ecsv. destruct Ecsv as (_ & Hx & _).
    repeat split; intros; congruence.
Qed.

(** X14. An "Isobaric" state-2 update (also the default when the request
    names no process) on a loaded table, with a temperature [T] in the
    request: the stored record carries state 1's pressure and the
    saturation temperature [ts] at that pressure, not [T].  When [ts] is
    not 0.0, the quality is 1 and the response says "superheated_vapor"
    for [T] above [ts], 0 and "subcooled_liquid" for [T] below it, and the
    request's quality clamped to [[0, 1]] (0.5 if none) for [T] equal to
    it, with or without the IAPWS library.  When [ts] is 0.0 the code's
    truth test [if T_sat_at_fixed_P:] fails and nothing is classified:
    without the IAPWS library the stored quality is the request's clamped
    quality (0.5 if none) whatever [T] is. *)
Theorem isobaric_update_classifies_by_temperature
    (env : Env) (st : Store) (data : NextStageRequest)
    (w : WaterSubmission) (ts T : Q) (c : bool) :
  water_df env <> [] ->
  stored_water st = Some w ->
  get_default (ns_process data) "Isobaric"%string = "Isobaric"%string ->
  ns_T data = Some T ->
  get_tsat (water_df env) (ws_P_original w) = Return (Some ts, c) ->
  exists r,
    state2_submission (snd (submit_next_stage env st data)) = Some r
    /\ wp_T r = Some ts /\ wp_P r = Some (ws_P_original w)
    /\ response_phase (fst (submit_next_stage env st data))
       = Some (next_stage_phase (wp_x r))
    /\ (~ ts == 0 ->
        (ts < T -> wp_x r = 1
                   /\ next_stage_phase (wp_x r) = "superheated_vapor"%string)
        /\ (T < ts -> wp_x r = 0
                      /\ next_stage_phase (wp_x r) = "subcooled_liquid"%string)
        /\ (T == ts -> wp_x r = clamp01 (if_not_none (ns_x data) (1 # 2))))
    /\ (ts == 0 -> IAPWS_AVAILABLE env = false ->
        wp_x r = clamp01 (if_not_none (ns_x data) (1 # 2))).
Proof.
  intros Hne Hw Hproc HT Ets.
  destruct (get_psat_returns _ (ws_T_original w) Hne) as (ps & c' & Eps).
  unfold stored_water in Hw.
  destruct (latest_submission st) as [[w'|g]|] eqn:El; try discriminate.
  injection Hw as ->.
  set (x_in := if_not_none (ns_x data) (1 # 2)).
  set (cx := if truthy (Some ts)
             then if Qlt_bool ts T then 1
                  else if Qlt_bool T ts then 0 else x_in
             else x_in).
  destruct (calculate_water_properties_returns env T (ws_P_original w)
              (clamp01 cx) Hne) as (r0 & E0).
  assert (Hrun : submit_next_stage env st data
                 = (NextStage (py_round ts 2) (py_round (ws_P_original w) 3)
                      (py_round (wp_v r0) 6) (py_round (wp_x r0) 4)
                      (py_round (wp_u r0) 2) (py_round (wp_h r0) 2)
                      (py_round (wp_s r0) 4) (next_stage_phase (wp_x r0))
                      (Some ts) (Some ps) (wp_source r0),
                    set_state2_submission
                      (set_T_P (Some ts) (Some (ws_P_original w)) r0) st)).
  { unfold submit_next_stage, submit_next_stage_body, hbind, read_latest, lift,
      hret, write_state2.
    rewrite El, Ets, Eps, Hproc. cbn [fst process_constraints String.eqb
      Ascii.eqb Bool.eqb]. rewrite HT.
    unfold adjust_quality. cbn [String.eqb Ascii.eqb Bool.eqb].
    rewrite Ets. cbn [bind fst].
    assert (Ecx : (if truthy (Some ts)
                   then if Qlt_bool ts T then Return 1
                        else if Qlt_bool T ts then Return 0
                        else Return (if_not_none (ns_x data) (1 # 2))
                   else Return (if_not_none (ns_x data) (1 # 2)))
                  = Return cx).
    { unfold cx, x_in. destruct (truthy (Some ts)); [|reflexivity].
      destruct (Qlt_bool ts T); [reflexivity|].
      now destruct (Qlt_bool T ts). }
    rewrite Ecx. cbn [if_not_none]. rewrite E0.
    cbn [orb set_T_P wp_T wp_P wp_x wp_v wp_u wp_h wp_s wp_source round_opt].
    reflexivity. }
  rewrite Hrun. cbn [fst snd set_state2_submission state2_submission
                     response_phase].
  eexists. split; [reflexivity|].
  cbn [set_T_P wp_T wp_P wp_x].
  split; [reflexivity|]. split; [reflexivity|]. split; [reflexivity|].
  split.
  - intro Hnz.
    assert (Htruthy : truthy (Some ts) = true).
    { cbn. now apply Qeq_bool_false_iff in Hnz as ->. }
    unfold cx in E0. rewrite Htruthy in E0.
    destruct (resolver_quality_by_side env T (ws_P_original w) _ r0 ts c
                E0 Ets) as (Ha & Hb & Hc).
    assert (H1 : ts < T -> wp_x r0 = 1).
    { intro L. apply Ha; auto. apply Qlt_bool_iff in L. now rewrite L. }
    assert (H0 : T < ts -> wp_x r0 = 0).
    { intro L. apply Hb; auto.
      assert (E1 : Qlt_bool ts T = false) by (apply Qlt_bool_false_iff; lra).
      apply Qlt_bool_iff in L. now rewrite E1, L. }
    split; [|split].
    + intro L. split; [now apply H1 | now rewrite H1].
    + intro L. split; [now apply H0 | now rewrite H0].
    + intro Heq. rewrite (Hc Heq).
      assert (E1 : Qlt_bool ts T = false) by (apply Qlt_bool_false_iff; lra).
      assert (E2 : Qlt_bool T ts = false) by (apply Qlt_bool_false_iff; lra).
      now rewrite E1, E2.
  - intros Hz Hoff.
    assert (Hfalsy : truthy (Some ts) = false).
    { cbn. apply Qeq_bool_iff in Hz. now rewrite Hz. }
    unfold cx in E0. rewrite Hfalsy in E0.
    destruct (resolver_cases env T (ws_P_original w) _ r0 E0)
      as [(ts' & c'' & r1 & Hon & _) | Ecsv]; [congruence|].
    apply csv_interpolation_record in Ecsv. now destruct Ecsv as (_ & Hx & _).
Qed.

Local Close Scope Q_scope.
Local Open Scope R_scope.

(** Air at 300 K and 100 kPa, expanded isothermally to twice the volume,
    declared with a volume ratio only. *)
Lemma ideal_gas_isothermal_doubling :
  ideal_gas_process "isothermal" (10045 / 10000) (7175 / 10000) (287 / 1000)
                    (14 / 10) 300 100 (861 / 1000) (Some 2) None None
  = Return (Some (closed_form (10045 / 10000) (7175 / 10000) (287 / 1000) 300 100
                    (861 / 1000 * 2)
                    (100 * (861 / 1000) / (861 / 1000 * 2))
                    300
                    (287 / 1000 * 300 * ln (861 / 1000 * 2 / (861 / 1000))))).
Proof.
  destruct (ideal_gas_process_closed_forms
              (10045 / 10000) (7175 / 10000) (287 / 1000) (14 / 10)
              300 100 (861 / 1000) 2 None)
    as (_ & _ & Hiso & _); try Lra.lra.
  exact (Hiso None).
Defined.

Local Close Scope R_scope.
Local Open Scope Q_scope.

(** ** [submit_process]: the final submit *)

Lemma stored_water_latest (st : Store) (w : WaterSubmission) :
  stored_water st = Some w -> latest_submission st = Some (WaterSub w).
Proof.
  unfold stored_water. destruct (latest_submission st) as [[w'|g]|];
    try discriminate. now intros [= ->].
Qed.

(** The final submit of a water process whose state 2 is in the store. *)
Lemma submit_process_stored_state2
    (env : Env) (st : Store) (data : ProcessRequest)
    (w : WaterSubmission) (state1 : StatePoint) (r : WaterProps) (T2 P2 : Q) :
  latest_submission st = Some (WaterSub w) -> state1_point w = Some state1 ->
  state2_submission st = Some r -> wp_T r = Some T2 -> wp_P r = Some P2 ->
  submit_process env st data
  = Some (Success,
          mkStore (latest_submission st) (state2_submission st)
            (Some (WaterProcess (get_default (pq_process data) "Unknown"%string)
                     state1
                     (mkState T2 P2 (wp_v r) (wp_u r) (wp_h r) (wp_s r) (wp_x r))))).
Proof.
  intros Hw H1 H2 HT HP.
  unfold submit_process. rewrite Hw, H1.
  unfold run_process, submit_process_water, hbind, read_state2.
  rewrite H2. cbn [no_data]. unfold lift, state2_point.
  rewrite HT, HP. cbn [float_of bind]. unfold write_process, hret.
  now rewrite Hw, H2.
Qed.

(** X15. When the store holds a water state 1 and a state-2 record (with its
    temperature and pressure), [submit_process] answers "success" and
    records the process with exactly that stored state 2, whatever
    temperature, pressure, quality or ["state2"] object the request itself
    carries; only the process label is taken from the request ("Unknown" if
    it has none). *)
Theorem final_submit_uses_stored_state2
    (env : Env) (st : Store) (data : ProcessRequest)
    (w : WaterSubmission) (state1 : StatePoint) (r : WaterProps) (T2 P2 : Q) :
  stored_water st = Some w -> state1_point w = Some state1 ->
  state2_submission st = Some r -> wp_T r = Some T2 -> wp_P r = Some P2 ->
  submit_process env st data
  = Some (Success,
          mkStore (latest_submission st) (state2_submission st)
            (Some (WaterProcess (get_default (pq_process data) "Unknown"%string)
                     state1
                     (mkState T2 P2 (wp_v r) (wp_u r) (wp_h r) (wp_s r) (wp_x r))))).
Proof.
  intros Hw. apply stored_water_latest in Hw.
  now apply submit_process_stored_state2.
Qed.

Lemma submit_process_water_outcome env w state1 data st :
  (exists p,
      submit_process_water env w state1 data st
      = (Return Success,
         mkStore (latest_submission st) (state2_submission st) (Some p)))
  \/ (exists message,
         submit_process_water env w state1 data st
         = (Return (JSONError 400 message), st))
  \/ (exists e, submit_process_water env w state1 data st = (Raise e, st)).
Proof.
  unfold submit_process_water, hbind, read_state2.
  match goal with
  | |- context [if no_data ?d then hret _ else _] => destruct (no_data d)
  end.
  - right. left. eexists. reflexivity.
  - unfold lift. match goal with
    | |- context [state2_point ?d] => destruct (state2_point d) as [s2|e]
    end.
    + left. eexists. reflexivity.
    + right. right. eexists. reflexivity.
Qed.

(** X16. [submit_process] never changes the ["latest_submission"] or the
    ["state2_submission"] entry.  It either answers "success" having written
    ["process_info"], or answers a 400 error having written nothing. *)
Theorem final_submit_writes_process_or_nothing
    (env : Env) (st : Store) (data : ProcessRequest)
    (resp : Response) (st' : Store) :
  submit_process env st data = Some (resp, st') ->
  same_states st st'
  /\ ((resp = Success /\ process_info st' <> None)
      \/ (is_error_400 resp /\ st' = st)).
Proof.
  unfold submit_process, same_states, is_error_400.
  destruct (latest_submission st) as [[w|g]|] eqn:El.
  - destruct (state1_point w) as [state1|]; [|discriminate].
    unfold run_process.
    destruct (submit_process_water_outcome env w state1 data st)
      as [[p ->] | [[message ->] | [e ->]]]; intros [= <- <-];
      (split; [split; cbn; congruence|]).
    + left. split; [reflexivity | discriminate].
    + right. split; [eexists; reflexivity | reflexivity].
    + right. split; [eexists; reflexivity | reflexivity].
  - intros [= <- <-]. split; [split; cbn; congruence|].
    left. split; [reflexivity | discriminate].
  - intros [= <- <-]. split; [split; cbn; congruence|].
    left. split; [reflexivity | discriminate].
Qed.

(** ** From the final submit to the results *)

Lemma lower_unknown_not_water : String.eqb (lower "unknown") "water" = false.
Proof. reflexivity. Qed.

(** X17. For an ideal gas [submit_process] validates nothing: with a gas
    record stored it answers "success" for every request and stores the
    label and the ratios as they came.  The checks happen in [get_results]:
    a label outside [PROCESS_MAP] is answered 400 "Unknown process type:
    <label>" there. *)
Theorem gas_final_submit_defers_validation
    (env : Env) (st : Store) (data : ProcessRequest) (g : GasSubmission) :
  latest_submission st = Some (GasSub g) ->
  String.eqb (lower (gs_gas_name g)) "water" = false ->
  let label := get_default (pq_process data) "Unknown"%string in
  let st' := mkStore (latest_submission st) (state2_submission st)
               (Some (GasProcess label (gs_gas_name g) (pq_v_ratio data)
                                 (pq_p_ratio data) (pq_n_value data))) in
  submit_process env st data = Some (Success, st')
  /\ (PROCESS_MAP label = None ->
      get_results st' = ResultsError 400 ("Unknown process type: " ++ label)).
Proof.
  intros El Hn. cbv zeta. split.
  - unfold submit_process. rewrite El.
    unfold run_process, submit_process_gas, hbind, write_process, hret.
    now rewrite El.
  - intro Hmap. unfold get_results. cbn [process_info]. rewrite Hn.
    unfold get_results_gas. cbn [latest_submission]. rewrite El, Hmap.
    reflexivity.
Qed.

(** ** A new state 1 under an old state 2 *)

(** Every record the resolver returns has a pressure. *)
Lemma resolver_pressure env T_C P_b x r :
  snd (calculate_water_properties env T_C P_b x) = Return r ->
  exists p, wp_P r = Some p.
Proof.
  intro E.
  destruct (resolver_cases env T_C P_b x r E)
    as [(ts & c & r0 & _ & _ & E0 & Hr) | Ecsv].
  - apply iapws_source in E0. destruct E0 as [_ HP].
    exists P_b. destruct Hr as [[_ ->] | [_ ->]]; exact HP.
  - apply csv_interpolation_record in Ecsv.
    destruct Ecsv as (_ & _ & _ & HP & _). eauto.
Qed.

(** What a water submission stores on a loaded table. *)
Lemma submit_gas_water_store env st T P x :
  water_df env <> [] ->
  exists w p,
    submit_gas env st (water_request T P x)
    = (Success, set_latest_submission (WaterSub w) st)
    /\ ws_T_original w = T /\ ws_P_original w = P /\ ws_T w = T
    /\ ws_P w = Some p.
Proof.
  intro Hne.
  destruct (get_tsat_returns _ P Hne) as (ts & c & E1).
  destruct (get_psat_returns _ T Hne) as (ps & c' & E2).
  destruct (calculate_water_properties_returns env T P (get_default x 0) Hne)
    as (props & E3).
  destruct (resolver_pressure _ _ _ _ _ E3) as (p & Hp).
  unfold submit_gas, submit_gas_body, hbind, lift, water_request.
  cbn. rewrite E1, E2. cbn. rewrite E3. cbn.
  eexists _, p. repeat split. exact Hp.
Qed.

(** X18. A new water state 1 does not reset state 2.  On a loaded table,
    when the store already holds a state-2 record, a water submission to
    [submit_gas] followed by [submit_process] answers "success" and records a
    process that pairs the new state 1 with the old state-2 record, computed
    for the state 1 that was there before. *)
Theorem new_state1_is_paired_with_old_state2
    (env : Env) (st : Store) (T P : Q) (x : option Q) (data : ProcessRequest)
    (r : WaterProps) (T2 P2 : Q) :
  water_df env <> [] ->
  state2_submission st = Some r -> wp_T r = Some T2 -> wp_P r = Some P2 ->
  exists w state1,
    stored_water (snd (submit_gas env st (water_request T P x))) = Some w
    /\ ws_T_original w = T /\ ws_P_original w = P
    /\ sp_T state1 = T
    /\ submit_process env (snd (submit_gas env st (water_request T P x))) data
       = Some (Success,
               mkStore (Some (WaterSub w)) (Some r)
                 (Some (WaterProcess
                          (get_default (pq_process data) "Unknown"%string)
                          state1
                          (mkState T2 P2 (wp_v r) (wp_u r) (wp_h r) (wp_s r)
                                   (wp_x r))))).
Proof.
  intros Hne H2 HT HP.
  destruct (submit_gas_water_store env st T P x Hne)
    as (w & p & -> & Ho1 & Ho2 & Hwt & Hwp).
  cbn [snd].
  exists w, (mkState (ws_T w) p (ws_v w) (ws_u w) (ws_h w) (ws_s w) (ws_x w)).
  repeat split; auto.
  rewrite (submit_process_stored_state2 env _ data w
             (mkState (ws_T w) p (ws_v w) (ws_u w) (ws_h w) (ws_s w) (ws_x w))
             r T2 P2); auto.
  - cbn. now rewrite H2.
  - unfold state1_point. now rewrite Hwp.
Qed.

(** ** From a state-2 update to the results *)

Lemma py_round_unit_interval (x : Q) (n : nat) :
  0 <= x <= 1 -> 0 <= py_round x n <= 1.
Proof.
  intros [H0 H1].
  assert (R0 : py_round 0 n == 0).
  { unfold py_round. setoid_replace (0 * inject_Z (10 ^ Z.of_nat n)) with 0 by ring.
    unfold Qdiv. change (round_half_even 0) with 0%Z. ring. }
  assert (R1 : py_round 1 n == 1).
  { unfold py_round.
    assert (Hs : 0 < inject_Z (10 ^ Z.of_nat n)).
    { change 0 with (inject_Z 0). rewrite <- Zlt_Qlt. apply Z.pow_pos_nonneg; lia. }
    assert (E : round_half_even (1 * inject_Z (10 ^ Z.of_nat n))
                = (10 ^ Z.of_nat n)%Z).
    { unfold round_half_even.
      assert (Ef : Qfloor (1 * inject_Z (10 ^ Z.of_nat n)) = (10 ^ Z.of_nat n)%Z).
      { rewrite Qmult_1_l. apply Qfloor_Z. }
      rewrite Ef.
      destruct (Qcompare_spec (1 * inject_Z (10 ^ Z.of_nat n)
                               - inject_Z (10 ^ Z.of_nat n)) (1 # 2))
        as [C | C | C]; [exfalso; lra | reflexivity | exfalso; lra]. }
    rewrite E. field. lra. }
  split.
  - rewrite <- R0. now apply py_round_mono.
  - rewrite <- R1. now apply py_round_mono.
Qed.

(** A state-2 update that answers with a state leaves a complete record. *)
Lemma submit_next_stage_success env st data phase :
  response_phase (fst (submit_next_stage env st data)) = Some phase ->
  exists r T2 P2,
    state2_submission (snd (submit_next_stage env st data)) = Some r
    /\ wp_T r = Some T2 /\ wp_P r = Some P2 /\ 0 <= wp_x r <= 1.
Proof.
  unfold submit_next_stage, submit_next_stage_body, hbind, read_latest.
  destruct (latest_submission st) as [[w|g]|]; cbn; try discriminate.
  unfold lift.
  destruct (get_tsat (water_df env) (ws_P_original w)) as [ts|e]; cbn;
    try discriminate.
  destruct (get_psat (water_df env) (ws_T_original w)) as [ps|e]; cbn;
    try discriminate.
  destruct (process_constraints _ _ _ _ _ _ _) as [[[dT dP] cT] cP].
  destruct (adjust_quality _ _ _ _ _ _) as [cx|e]; cbn; try discriminate.
  destruct (snd (calculate_water_properties env _ _ (clamp01 cx))) as [r0|e] eqn:E.
  - pose proof (resolver_quality_bounds _ _ _ _ _ E (clamp01_bounds cx)) as Hb.
    set (r := if (_ || _)%bool then set_T_P dT dP r0 else r0).
    assert (Hr : wp_x r = wp_x r0) by (subst r; now destruct (_ || _)%bool).
    unfold write_state2, round_opt.
    destruct (wp_T r) as [T2|] eqn:ET; cbn; try discriminate.
    destruct (wp_P r) as [P2|] eqn:EP; cbn; try discriminate.
    intros _. exists r, T2, P2. rewrite Hr. repeat split; tauto.
  - destruct e; cbn; discriminate.
Qed.

(** X19. After a state-2 update that answered with a state, the final
    submit answers "success", and [get_results] then answers either with the
    water results, whose state-2 quality lies in [[0, 1]], or with the 500
    error of a zero division in its printed ratios: the clamping done in
    [submit_next_stage] reaches the results. *)
Theorem clamped_quality_reaches_results
    (env : Env) (st : Store) (data : NextStageRequest) (final : ProcessRequest)
    (w : WaterSubmission) (state1 : StatePoint) (phase : string) :
  stored_water st = Some w -> state1_point w = Some state1 ->
  response_phase (fst (submit_next_stage env st data)) = Some phase ->
  exists st',
    submit_process env (snd (submit_next_stage env st data)) final
    = Some (Success, st')
    /\ (get_results st'
        = ResultsWater
            (WaterError 500 "Failed to get water results: float division by zero")
        \/ exists process_type s1 s2 processed,
             get_results st'
             = ResultsWater (WaterOk process_type s1 s2 processed)
             /\ 0 <= sp_x s2 <= 1).
Proof.
  intros Hw H1 Hresp. apply stored_water_latest in Hw.
  destruct (submit_next_stage_success env st data phase Hresp)
    as (r & T2 & P2 & Hr & HT & HP & Hx).
  pose proof (submit_next_stage_body_preserves env data st) as Hframe.
  assert (Hl : latest_submission (snd (submit_next_stage env st data))
               = Some (WaterSub w)).
  { unfold submit_next_stage.
    destruct (submit_next_stage_body env data st) as [[resp|e] st1];
      cbn [snd] in *; destruct Hframe as [Hf _]; congruence. }
  eexists. split.
  - apply (submit_process_stored_state2 env _ final w state1 r T2 P2); auto.
  - unfold get_results, get_water_results. cbn [process_info].
    unfold scaling_analysis, py_div. cbn [sp_v sp_P].
    destruct (Qeq_bool (Qmin _ _) 0); cbn; auto.
    destruct (Qeq_bool (Qmin _ _) 0); cbn; auto.
    destruct (Qeq_bool (sp_v state1) 0); cbn; auto.
    right. eexists _, _, _, _. split; [reflexivity|].
    cbn [round_state sp_x]. now apply py_round_unit_interval.
Qed.

(** X20. [get_water_results] on a stored water process answers with the
    rounded states and process quantities exactly when the smaller of the two
    specific volumes, the smaller of the two pressures and the state-1
    specific volume are all non-zero; otherwise the ratios it prints divide
    by zero and it answers 500, although work and heat were computed. *)
Theorem water_results_iff_nonzero
    (st : Store) (process_type : string) (state1 state2 : StatePoint) :
  process_info st = Some (WaterProcess process_type state1 state2) ->
  (get_water_results st
   = WaterOk process_type (round_state state1) (round_state state2)
             (round_processed (water_process process_type state1 state2))
   <-> ~ Qmin (sp_v state1) (sp_v state2) == 0
       /\ ~ Qmin (sp_P state1) (sp_P state2) == 0
       /\ ~ sp_v state1 == 0)
  /\ (get_water_results st
      = WaterOk process_type (round_state state1) (round_state state2)
                (round_processed (water_process process_type state1 state2))
      \/ get_water_results st
         = WaterError 500 "Failed to get water results: float division by zero").
Proof.
  intro E. unfold get_water_results. rewrite E.
  unfold scaling_analysis, py_div.
  destruct (Qeq_bool (Qmin (sp_v state1) (sp_v state2)) 0) eqn:E1; cbn.
  { apply Qeq_bool_iff in E1. split; [|now right].
    split; [discriminate | intros [N _]; contradiction]. }
  destruct (Qeq_bool (Qmin (sp_P state1) (sp_P state2)) 0) eqn:E2; cbn.
  { apply Qeq_bool_iff in E2. split; [|now right].
    split; [discriminate | intros (_ & N & _); contradiction]. }
  destruct (Qeq_bool (sp_v state1) 0) eqn:E3; cbn.
  { apply Qeq_bool_iff in E3. split; [|now right].
    split; [discriminate | intros (_ & _ & N); contradiction]. }
  apply Qeq_bool_false_iff in E1, E2, E3. split; [|now left].
  split; auto.
Qed.

(* ================================================================== *)
(** * Further properties of the ideal-gas evaluator *)

Local Close Scope Q_scope.
Local Open Scope R_scope.

Section IdealGasLaws.

Variables cp cv Rg k T1 P1 v1 v_ratio p_ratio : R.
Hypothesis T1_pos : 0 < T1.
Hypothesis P1_pos : 0 < P1.
Hypothesis v1_pos : 0 < v1.
Hypothesis v_ratio_pos : 0 < v_ratio.
Hypothesis p_ratio_pos : 0 < p_ratio.

Lemma isochoric_process (n : option R) :
  ideal_gas_process "isochoric" cp cv Rg k T1 P1 v1
                    (Some v_ratio) (Some p_ratio) n
  = Return (Some (closed_form cp cv Rg T1 P1 v1 (P1 * p_ratio) (T1 * p_ratio) 0)).
Proof.
  unfold ideal_gas_process, state2_calculations. cbn.
  now rewrite (py_divR_nonzero _ T1 (T1_nonzero T1 T1_pos)),
    (py_divR_nonzero _ P1 (P1_nonzero P1 P1_pos)).
Qed.

Lemma isobaric_process (n : option R) :
  ideal_gas_process "isobaric" cp cv Rg k T1 P1 v1
                    (Some v_ratio) (Some p_ratio) n
  = Return (Some (closed_form cp cv Rg T1 P1 (v1 * v_ratio) P1 (T1 * v_ratio)
                    (P1 * (v1 * v_ratio - v1)))).
Proof.
  unfold ideal_gas_process, state2_calculations. cbn.
  now rewrite (py_divR_nonzero _ T1 (T1_nonzero T1 T1_pos)),
    (py_divR_nonzero _ P1 (P1_nonzero P1 P1_pos)).
Qed.

Lemma isothermal_process (n : option R) :
  ideal_gas_process "isothermal" cp cv Rg k T1 P1 v1
                    (Some v_ratio) (Some p_ratio) n
  = Return (Some (closed_form cp cv Rg T1 P1 (v1 * v_ratio)
                    (P1 * (v1 / (v1 * v_ratio))) T1
                    (Rg * T1 * ln (v1 * v_ratio / v1)))).
Proof.
  unfold ideal_gas_process, state2_calculations. cbn.
  rewrite (py_divR_nonzero _ _ (v2_nonzero v1 v_ratio v1_pos v_ratio_pos)). cbn.
  rewrite (py_divR_nonzero _ v1 (v1_nonzero v1 v1_pos)). cbn.
  now rewrite (py_divR_nonzero _ T1 (T1_nonzero T1 T1_pos)),
    (py_divR_nonzero _ P1 (P1_nonzero P1 P1_pos)).
Qed.

(** The volume ratio [v1 / v2] and its powers. *)
Lemma volume_ratio_pos : 0 < v1 / (v1 * v_ratio).
Proof.
  apply Rdiv_lt_0_compat; [exact v1_pos | now apply Rmult_lt_0_compat].
Qed.

Lemma Rpower_succ (r e : R) : 0 < r -> Rpower r e = Rpower r (e - 1) * r.
Proof.
  intro H. replace e with (e - 1 + 1) at 1 by ring.
  now rewrite Rpower_plus, Rpower_1.
Qed.

Lemma exponent_state_on_surface (e : R) :
  P1 * v1 = Rg * T1 ->
  P1 * Rpower (v1 / (v1 * v_ratio)) e * (v1 * v_ratio)
  = Rg * (T1 * Rpower (v1 / (v1 * v_ratio)) (e - 1)).
Proof.
  intro Hlaw. rewrite (Rpower_succ _ e volume_ratio_pos).
  set (p := Rpower (v1 / (v1 * v_ratio)) (e - 1)).
  replace (P1 * (p * (v1 / (v1 * v_ratio))) * (v1 * v_ratio))
    with (P1 * v1 * p).
  - rewrite Hlaw. ring.
  - field. split; apply Rgt_not_eq; assumption.
Qed.

(** X21. Every process kind keeps the state on the ideal-gas surface: when
    the first state satisfies [P1 v1 = R T1] (positive state, positive
    ratios), the evaluator returns a second state with [P2 v2 = R T2], for
    the isochoric, isobaric, isothermal, adiabatic and polytropic kind and
    for every exponent. *)
Theorem process_keeps_gas_law (process_type : string) (n : option R) :
  P1 * v1 = Rg * T1 ->
  In process_type
     ["isochoric"; "isobaric"; "isothermal"; "adiabatic"; "polytropic"]%string ->
  exists c,
    ideal_gas_process process_type cp cv Rg k T1 P1 v1
                      (Some v_ratio) (Some p_ratio) n
    = Return (Some c)
    /\ gc_P2 c * gc_v2 c = Rg * gc_T2 c.
Proof using All.
  intros Hlaw Hin.
  pose proof (v1_nonzero v1 v1_pos) as Hv1.
  pose proof (v2_nonzero v1 v_ratio v1_pos v_ratio_pos) as Hv2.
  cbn in Hin.
  destruct Hin as [<- | [<- | [<- | [<- | [<- | []]]]]].
  - eexists. split; [apply isochoric_process|]. cbn.
    replace (P1 * p_ratio * v1) with (P1 * v1 * p_ratio) by ring.
    rewrite Hlaw. ring.
  - eexists. split; [apply isobaric_process|]. cbn.
    replace (P1 * (v1 * v_ratio)) with (P1 * v1 * v_ratio) by ring.
    rewrite Hlaw. ring.
  - eexists. split; [apply isothermal_process|]. cbn.
    replace (P1 * (v1 / (v1 * v_ratio)) * (v1 * v_ratio)) with (P1 * v1)
      by (field; split; apply Rgt_not_eq; assumption).
    exact Hlaw.
  - eexists. split.
    + apply (exponent_process cp cv Rg k T1 P1 v1 v_ratio (Some p_ratio)
               T1_pos P1_pos v1_pos "adiabatic" n k); try reflexivity.
      apply (exponent_state2 T1 P1 v1 v_ratio v1_pos v_ratio_pos).
    + cbn. now apply exponent_state_on_surface.
  - destruct n as [e|]; eexists; split.
    + apply (exponent_process cp cv Rg k T1 P1 v1 v_ratio (Some p_ratio)
               T1_pos P1_pos v1_pos "polytropic" (Some e) e); try reflexivity.
      apply (exponent_state2 T1 P1 v1 v_ratio v1_pos v_ratio_pos).
    + cbn. now apply exponent_state_on_surface.
    + apply (exponent_process cp cv Rg k T1 P1 v1 v_ratio (Some p_ratio)
               T1_pos P1_pos v1_pos "polytropic" None 1); try reflexivity.
      apply (exponent_state2 T1 P1 v1 v_ratio v1_pos v_ratio_pos).
    + cbn. now apply exponent_state_on_surface.
Qed.






End IdealGasLaws.

(** The isothermal evaluation does not read the pressure ratio. *)
Lemma isothermal_process_any (cp cv Rg k T1 P1 v1 v_ratio : R)
    (p_ratio n : option R) :
  0 < T1 -> 0 < P1 -> 0 < v1 -> 0 < v_ratio ->
  ideal_gas_process "isothermal" cp cv Rg k T1 P1 v1 (Some v_ratio) p_ratio n
  = Return (Some (closed_form cp cv Rg T1 P1 (v1 * v_ratio)
                    (P1 * (v1 / (v1 * v_ratio))) T1
                    (Rg * T1 * ln (v1 * v_ratio / v1)))).
Proof.
  intros HT HP Hv Hr.
  unfold ideal_gas_process, state2_calculations. cbn.
  rewrite (py_divR_nonzero _ _ (v2_nonzero v1 v_ratio Hv Hr)). cbn.
  rewrite (py_divR_nonzero _ v1 (v1_nonzero v1 Hv)). cbn.
  now rewrite (py_divR_nonzero _ T1 (T1_nonzero T1 HT)),
    (py_divR_nonzero _ P1 (P1_nonzero P1 HP)).
Qed.

(** X25. A polytropic process stored without an exponent never yields
    results: although the evaluator would compute it with exponent 1,
    [get_results] always answers with an error, because the P-v curve is
    drawn with the missing [n]. *)
Theorem polytropic_without_exponent_fails
    (st : Store) (g : GasSubmission) (gas_name : string)
    (v_ratio p_ratio : option Q) :
  latest_submission st = Some (GasSub g) ->
  process_info st
  = Some (GasProcess "Polytropic" gas_name v_ratio p_ratio None) ->
  String.eqb (lower gas_name) "water" = false ->
  exists status_code message, get_results st = ResultsError status_code message.
Proof.
  intros El Ep Hn. unfold get_results. rewrite Ep, Hn.
  unfold get_results_gas. rewrite El.
  cbn [PROCESS_MAP String.eqb Ascii.eqb Bool.eqb gas_record bind option_map].
  destruct (ideal_gas_process _ _ _ _ _ _ _ _ _ _ _) as [[c|]|e];
    cbn; eauto.
Qed.

(** X26. From the final submit to the results of an isothermal process: for
    a stored ideal gas with positive [T], [P], [v], a final submit labelled
    "Isothermal" with a positive volume ratio is accepted and [get_results]
    then answers with results in which state 2 has the temperature of state
    1, the internal energy change is [round(0, 5)] and the heat is the
    work. *)
Theorem isothermal_results
    (env : Env) (st : Store) (g : GasSubmission) (data : ProcessRequest)
    (vr : Q) :
  latest_submission st = Some (GasSub g) ->
  String.eqb (lower (gs_gas_name g)) "water" = false ->
  0 < Q2R (gs_T g) -> 0 < Q2R (gs_P g) -> 0 < Q2R (gs_v g) ->
  pq_process data = Some "Isothermal"%string ->
  pq_v_ratio data = Some vr -> 0 < Q2R vr ->
  exists st' state1 state2 processed,
    submit_process env st data = Some (Success, st')
    /\ get_results st'
       = ResultsGas (gs_gas_name g) "isothermal" state1 state2 processed
    /\ st_T state2 = st_T state1
    /\ gp_delta_u processed = py_roundR 0 5
    /\ gp_Q processed = gp_W processed.
Proof.
  intros El Hn HT HP Hv Hproc Hvr Hpos.
  eexists _, _, _, _. split; [|split].
  - unfold submit_process. rewrite El. reflexivity.
  - apply (get_results_gas_rounds _ g "Isothermal" (gs_gas_name g) "isothermal"
             (Some vr) (pq_p_ratio data) (pq_n_value data)).
    + exact El.
    + cbn. now rewrite Hproc, Hvr.
    + exact Hn.
    + reflexivity.
    + apply isothermal_process_any; assumption.
    + reflexivity.
  - cbn [st_T gp_delta_u gp_Q gp_W closed_form gc_T2 gc_delta_u gc_Q gc_W].
    repeat split; f_equal; ring.
Qed.

Local Close Scope R_scope.
Local Open Scope Q_scope.
(* ------------------------------------------------------------------ *)
(** ** The further properties at sample inputs *)

Ltac by_computation :=
  vm_compute; first [reflexivity | discriminate | intuition discriminate].

Ltac sorted_rows :=
  repeat first [apply SSorted_nil | apply SSorted_cons
               | apply Forall_nil | apply Forall_cons | by_computation].

(** The two lookups at 1 and 10. *)
Lemma saturation_lookups_monotone_at_1_and_10 :
  (exists Ta ca Tb cb,
      get_tsat steam_table 1 = Return (Some Ta, ca)
      /\ get_tsat steam_table 10 = Return (Some Tb, cb) /\ Ta <= Tb)
  /\ (exists Pa ca Pb cb,
         get_psat steam_table 1 = Return (Some Pa, ca)
         /\ get_psat steam_table 10 = Return (Some Pb, cb) /\ Pa <= Pb).
Proof.
  apply (saturation_lookups_monotone steam_table 1 10).
  - discriminate.
  - sorted_rows.
  - sorted_rows.
  - by_computation.
Defined.

(** A pressure of 1000 bar and a temperature of 1000 degrees C are above the
    table. *)
Lemma saturation_lookups_clamp_at_1000 :
  (exists T, get_tsat steam_table 1000 = Return (Some T, true)
             /\ T == py_round (col_max cT_sat steam_table) 5)
  /\ (exists P, get_psat steam_table 1000 = Return (Some P, true)
                /\ P == py_round (col_max cP_bar steam_table) 5).
Proof.
  destruct (saturation_lookups_clamp steam_table 1000)
    as (_ & HT & _ & _ & HP & _).
  - discriminate.
  - sorted_rows.
  - sorted_rows.
  - split; [apply HT | apply HP]; by_computation.
Defined.

(** The row at 100 degrees C and 1.014 bar. *)
Lemma saturation_lookups_round_trip_at_100 :
  exists T P,
    get_tsat steam_table (P_bar row_100) = Return (Some T, false)
    /\ T == py_round (T_sat row_100) 5
    /\ get_psat steam_table T = Return (Some P, false)
    /\ P == py_round (P_bar row_100) 5.
Proof.
  destruct (saturation_lookups_round_trip steam_table row_100)
    as (T & P & HT & ET & _ & _ & Hrt).
  - discriminate.
  - sorted_rows.
  - sorted_rows.
  - right. left. reflexivity.
  - destruct Hrt as (P' & HP' & EP'); [by_computation|].
    exists T, P'. repeat split; assumption.
Defined.

(** The lookups far outside the table. *)
Lemma saturation_lookups_range_at_5000 :
  (exists T c,
      get_tsat steam_table 5000 = Return (Some T, c)
      /\ py_round (col_min cT_sat steam_table) 5 <= T
         <= py_round (col_max cT_sat steam_table) 5)
  /\ (exists P c,
         get_psat steam_table 5000 = Return (Some P, c)
         /\ py_round (col_min cP_bar steam_table) 5 <= P
            <= py_round (col_max cP_bar steam_table) 5).
Proof.
  apply (saturation_lookups_range steam_table 5000).
  - discriminate.
  - sorted_rows.
  - sorted_rows.
Defined.

(** The saturation pressure at 150 degrees C, read both ways. *)
Lemma get_psat_is_rounded_interpolation_at_150 :
  exists P c,
    interpolate_water_property_by_T steam_table 150 cP_bar = Return (Some P)
    /\ get_psat steam_table 150 = Return (Some (py_round P 5), c).
Proof.
  apply (get_psat_is_rounded_interpolation steam_table 150).
  - discriminate.
  - sorted_rows.
Defined.

(** A wet state at 100 degrees C with quality 0.5. *)
Lemma table_record_between_saturation_values_at_100 :
  exists r,
    snd (calculate_water_properties env_csv 100 (1014 # 1000) (1 # 2)) = Return r
    /\ wp_vf r <= wp_v r <= wp_vg r
    /\ wp_uf r <= wp_u r <= wp_ug r
    /\ wp_sf r <= wp_s r <= wp_sg r
    /\ wp_hf r <= wp_h r <= wp_hf r + wp_hfg r.
Proof.
  eexists. split; [reflexivity|].
  apply (table_record_between_saturation_values
           env_csv 100 (1014 # 1000) (1 # 2)).
  - intros row [<- | [<- | [<- | [<- | []]]]]; by_computation.
  - by_computation.
  - reflexivity.
  - reflexivity.
Defined.

(** Superheated steam at 150 degrees C and 1.014 bar, library installed. *)
Lemma resolved_record_by_source_at_150 :
  exists r,
    snd (calculate_water_properties env_iapws 150 (1014 # 1000) 0) = Return r
    /\ wp_source r = "IAPWS-IF97"%string
    /\ wp_T r = Some 150 /\ wp_P r = Some (1014 # 1000) /\ wp_x r = 1.
Proof.
  eexists. split; [reflexivity|].
  destruct (resolved_record_by_source env_iapws 150 (1014 # 1000) 0 _ eq_refl)
    as [(Hs & HT & HP & _) | (Hs & _)].
  - repeat split; assumption || reflexivity.
  - exfalso. vm_compute in Hs. discriminate Hs.
Defined.

(** A water submission when the table is missing. *)
Lemma no_table_no_water_at_100 :
  get_tsat_api env_no_table 1 = Return (SatError 500 "Water table not loaded.")
  /\ submit_gas env_no_table empty_store (water_request 100 1 None)
     = (JSONError 400
          "Submission failed: Required water property data could not be interpolated.",
        empty_store).
Proof.
  destruct (no_table_no_water env_no_table empty_store 100 1 None eq_refl)
    as (_ & _ & H1 & _ & _ & H2).
  split; [exact H1 | exact H2].
Defined.

(** Both routes at 1. *)
Lemma saturation_routes_answer_at_1 :
  (exists T c, get_tsat_api env_csv 1 = Return (SatValue T c))
  /\ (exists P c, get_psat_api env_csv 1 = Return (SatValue P c)).
Proof.
  apply (saturation_routes_answer env_csv 1). discriminate.
Defined.

(** The request [{cp: 1, cv: 0}], both integers. *)
Lemma custom_gas_integer_zero_cv :
  submit_gas env_csv empty_store (integer_custom_request 1 0)
  = (JSONError 400 "Submission failed: division by zero", empty_store).
Proof.
  destruct (custom_gas_accepted_iff env_csv empty_store
              (integer_custom_request 1 0) "Custom" 100 1
              eq_refl eq_refl eq_refl eq_refl) as [_ H].
  apply (H 1 0 eq_refl eq_refl); by_computation.
Defined.

(** The name "Helium". *)
Lemma gas_name_handling_at_Helium :
  submit_gas env_csv empty_store
    (gas_request "Helium" (Some 100) (Some (861 # 1000)) None None)
  = (JSONError 400 "Submission failed: 'helium'", empty_store).
Proof.
  destruct (gas_name_handling env_csv empty_store "Helium" 100 (861 # 1000)
              None None eq_refl) as (_ & _ & H).
  apply H.
  - cbn. intros [E | [E | [E | [E | [E | [E | []]]]]]]; discriminate E.
  - reflexivity.
Defined.

(** A state-2 update on the empty store. *)
Lemma submit_next_stage_on_empty_store :
  submit_next_stage env_csv empty_store isochoric_request
  = (JSONError 400 "State 1 data not found or is not water.", empty_store).
Proof.
  apply (proj2 (submit_next_stage_needs_water_state1
                  env_csv empty_store isochoric_request)).
  reflexivity.
Defined.

(** An isobaric update to 150 degrees C from saturation at 1.014 bar. *)
Lemma isobaric_update_at_150 :
  exists r,
    state2_submission (snd (submit_next_stage env_csv store_after_state1
                              isobaric_request)) = Some r
    /\ wp_x r = 1
    /\ next_stage_phase (wp_x r) = "superheated_vapor"%string.
Proof.
  edestruct (isobaric_update_classifies_by_temperature
               env_csv store_after_state1 isobaric_request)
    as (r & Hr & _ & _ & _ & Hcls & _).
  - discriminate.
  - reflexivity.
  - reflexivity.
  - reflexivity.
  - reflexivity.
  - exists r. split; [exact Hr|].
    apply Hcls; by_computation.
Defined.

(** The final submit after the isochoric update, with a request that
    carries its own temperature. *)
Lemma final_submit_uses_stored_state2_sample :
  exists state1 state2,
    submit_process env_csv store_after_state2
      (mkProcReq (Some "Isochoric"%string) (Some 999) (Some 999) None None
                 None None None)
    = Some (Success,
            mkStore (latest_submission store_after_state2)
                    (state2_submission store_after_state2)
                    (Some (WaterProcess "Isochoric" state1 state2)))
    /\ Some (sp_T state2)
       = match state2_submission store_after_state2 with
         | Some r => wp_T r
         | None => None
         end.
Proof.
  eexists _, _. split.
  - apply (final_submit_uses_stored_state2 env_csv store_after_state2
             (mkProcReq (Some "Isochoric"%string) (Some 999) (Some 999) None
                        None None None None)
             _ _ _ _ _ eq_refl eq_refl eq_refl eq_refl eq_refl).
  - reflexivity.
Defined.

(** The final submit on the empty store. *)
Lemma final_submit_on_empty_store :
  exists resp st',
    submit_process env_csv empty_store
      (process_request "Isochoric" None None None) = Some (resp, st')
    /\ same_states empty_store st'
    /\ ((resp = Success /\ process_info st' <> None)
        \/ (is_error_400 resp /\ st' = empty_store)).
Proof.
  eexists _, _. split; [reflexivity|].
  apply (final_submit_writes_process_or_nothing env_csv empty_store
           (process_request "Isochoric" None None None)).
  reflexivity.
Defined.

(** Air and a label that is not a process. *)
Lemma gas_final_submit_unknown_label :
  exists st',
    submit_process env_csv store_air
      (process_request "Stirling" (Some 2) None None) = Some (Success, st')
    /\ get_results st' = ResultsError 400 "Unknown process type: Stirling".
Proof.
  epose proof (gas_final_submit_defers_validation env_csv store_air
                 (process_request "Stirling" (Some 2) None None)
                 _ eq_refl eq_refl) as H.
  cbv zeta in H. destruct H as [H1 H2].
  eexists. split; [exact H1 | apply H2; reflexivity].
Defined.

(** A new state 1 at 200 degrees C after the isochoric update. *)
Lemma new_state1_keeps_old_state2 :
  exists st',
    submit_process env_csv
      (snd (submit_gas env_csv store_after_state2
              (water_request 200 (1554 # 100) None)))
      (process_request "Isochoric" None None None) = Some (Success, st')
    /\ state2_submission st' = state2_submission store_after_state2.
Proof.
  edestruct (new_state1_is_paired_with_old_state2 env_csv store_after_state2
               200 (1554 # 100) None
               (process_request "Isochoric" None None None))
    as (w & state1 & _ & _ & _ & _ & H).
  - discriminate.
  - reflexivity.
  - reflexivity.
  - reflexivity.
  - eexists. split; [exact H | reflexivity].
Defined.

(** The isochoric update asking for quality 1.5, then the final submit. *)
Lemma clamped_quality_reaches_results_sample :
  exists st',
    submit_process env_csv
      (snd (submit_next_stage env_csv store_after_state1 isochoric_request))
      (process_request "Isochoric" None None None)
    = Some (Success, st')
    /\ (get_results st'
        = ResultsWater
            (WaterError 500 "Failed to get water results: float division by zero")
        \/ exists process_type s1 s2 processed,
             get_results st'
             = ResultsWater (WaterOk process_type s1 s2 processed)
             /\ 0 <= sp_x s2 <= 1).
Proof.
  eapply (clamped_quality_reaches_results env_csv store_after_state1
            isochoric_request (process_request "Isochoric" None None None)).
  - reflexivity.
  - reflexivity.
  - reflexivity.
Defined.

(** The stored constant-pressure process has non-zero volumes and
    pressures. *)
Lemma water_results_of_stored_process :
  get_water_results store_with_process
  = WaterOk "Constant Pressure" (round_state sample_state1)
            (round_state sample_state2)
            (round_processed
               (water_process "Constant Pressure" sample_state1 sample_state2)).
Proof.
  destruct (water_results_iff_nonzero store_with_process "Constant Pressure"
              sample_state1 sample_state2 eq_refl) as [[_ H] _].
  apply H. by_computation.
Defined.

(** Air, then a state-2 update. *)
Lemma state2_update_refused_after_air :
  get_k store_air <> KError "No ideal gas data stored yet"
  /\ submit_next_stage env_csv store_air isochoric_request
     = (JSONError 400 "State 1 data not found or is not water.", store_air).
Proof.
  epose proof (accepted_state1_enables env_csv empty_store
                 (gas_request "Air" (Some 100) (Some (861 # 1000)) None None)
                 "Air" isochoric_request eq_refl eq_refl) as H.
  cbv zeta in H. destruct H as [_ H].
  destruct H as [(g & _ & _ & Hk) Hn]; [discriminate|].
  split; [|exact Hn].
  unfold store_air. rewrite Hk. discriminate.
Defined.

Local Close Scope Q_scope.
Local Open Scope R_scope.

Lemma Q2R_pos (q : Q) : (0 < q)%Q -> 0 < Q2R q.
Proof.
  intro H. apply Qreals.Qlt_Rlt in H. now rewrite RMicromega.Q2R_0 in H.
Qed.

(** Air at 300 K and 100 kPa, expanded adiabatically to twice the volume. *)
Lemma process_keeps_gas_law_air :
  exists c,
    ideal_gas_process "adiabatic" (10045 / 10000) (7175 / 10000) (287 / 1000)
                      (14 / 10) 300 100 (861 / 1000) (Some 2) (Some 1) None
    = Return (Some c)
    /\ gc_P2 c * gc_v2 c = 287 / 1000 * gc_T2 c.
Proof.
  apply (process_keeps_gas_law
           (10045 / 10000) (7175 / 10000) (287 / 1000) (14 / 10)
           300 100 (861 / 1000) 2 1); try Lra.lra.
  right. right. right. left. reflexivity.
Defined.




(** Air with a polytropic process declared without [n_value]. *)
Lemma polytropic_without_exponent_fails_air :
  exists status_code message,
    get_results store_polytropic = ResultsError status_code message.
Proof.
  eapply polytropic_without_exponent_fails; reflexivity.
Defined.

(** Air, the final submit of an isothermal doubling, then the results. *)
Lemma isothermal_results_air :
  exists st' state1 state2 processed,
    submit_process env_csv store_air
      (process_request "Isothermal" (Some 2%Q) None None) = Some (Success, st')
    /\ get_results st' = ResultsGas "air" "isothermal" state1 state2 processed
    /\ st_T state2 = st_T state1
    /\ gp_Q processed = gp_W processed.
Proof.
  edestruct isothermal_results
    with (env := env_csv) (st := store_air) (vr := 2%Q)
         (data := process_request "Isothermal" (Some 2%Q) None None)
    as (st' & s1 & s2 & p & H1 & H2 & H3 & _ & H5).
  - reflexivity.
  - reflexivity.
  - apply Q2R_pos. vm_compute. reflexivity.
  - apply Q2R_pos. vm_compute. reflexivity.
  - apply Q2R_pos. vm_compute. reflexivity.
  - reflexivity.
  - reflexivity.
  - apply Q2R_pos. reflexivity.
  - exists st', s1, s2, p. repeat split; assumption.
Defined.

Local Close Scope R_scope.
Local Open Scope Q_scope.
